(** * collabnix-news-automation: fetch, generate, publish

    A shallow embedding of the three scripts of the repository
    ([scripts/fetch_news.py], [scripts/generate_posts.py],
    [scripts/publish_to_wordpress.py]) and the properties of the pipeline
    that follow from the code.

    Conventions of the embedding.
    - A Python [str] is a [string]; one [ascii] stands for one character,
      with its code point, below 256.  White space and line ends are
      Python's on these code points; [lower] and [capitalize] change the
      case of the letters A to Z and a to z.
    - [None] is [None]; a dictionary with a fixed set of keys is a record;
      a key that may be missing is an [option] field.
    - A function that performs I/O is a computation [M W A]: it takes the
      world [W] and returns a result, which is a value or a raised
      exception, together with the new world.  [try_except] is Python's
      [try: ... except Exception as e: ...].
    - What the outside world answers (the network, the HTML and feed parsing
      libraries, the clock, [hashlib], [urllib]) is a variable of the section
      that uses it.
    - [time.sleep] has no effect on the values computed and is left out. *)

From Stdlib Require Import String Ascii List ZArith Lia Bool DecimalString DecimalNat.
From stdpp Require Import base option list gmap strings.

Local Open Scope string_scope.
Local Open Scope list_scope.

(** ** Python strings *)

Module Py.

Definition is_upper (c : ascii) : bool :=
  (65 <=? nat_of_ascii c)%nat && (nat_of_ascii c <=? 90)%nat.

Definition is_lower (c : ascii) : bool :=
  (97 <=? nat_of_ascii c)%nat && (nat_of_ascii c <=? 122)%nat.

Definition lower_char (c : ascii) : ascii :=
  if is_upper c then ascii_of_nat (nat_of_ascii c + 32) else c.

Definition upper_char (c : ascii) : ascii :=
  if is_lower c then ascii_of_nat (nat_of_ascii c - 32) else c.

(** [s.lower()] *)
Fixpoint lower (s : string) : string :=
  match s with
  | EmptyString => EmptyString
  | String c r => String (lower_char c) (lower r)
  end.

(** [s.capitalize()]: first character upper-cased, the rest lower-cased. *)
Definition capitalize (s : string) : string :=
  match s with
  | EmptyString => EmptyString
  | String c r => String (upper_char c) (lower r)
  end.

(** [s.startswith(p)] *)
Fixpoint startswith (s p : string) : bool :=
  match p, s with
  | EmptyString, _ => true
  | String a p', String b s' => if Ascii.eqb a b then startswith s' p' else false
  | String _ _, EmptyString => false
  end.

(** [sub in s] *)
Fixpoint contains (s sub : string) : bool :=
  startswith s sub ||
  match s with
  | EmptyString => false
  | String _ r => contains r sub
  end.

Definition rev_string (s : string) : string :=
  string_of_list_ascii (rev (list_ascii_of_string s)).

(** [s.endswith(p)] *)
Definition endswith (s p : string) : bool :=
  startswith (rev_string s) (rev_string p).

Fixpoint lstrip_char (c : ascii) (s : string) : string :=
  match s with
  | String a r => if Ascii.eqb a c then lstrip_char c r else s
  | EmptyString => EmptyString
  end.

(** [s.rstrip(c)] for a one-character argument *)
Definition rstrip_char (c : ascii) (s : string) : string :=
  rev_string (lstrip_char c (rev_string s)).

(** A character is a code point below 256.  [c.isspace()]: the characters
    [str.strip] removes are the tabulations and line ends 9 to 13, the
    separators 28 to 31, the space, the next line 133 (U+0085) and the
    no-break space 160 (U+00A0). *)
Definition is_space (c : ascii) : bool :=
  let n := nat_of_ascii c in
  (n =? 32)%nat || ((9 <=? n)%nat && (n <=? 13)%nat)
  || ((28 <=? n)%nat && (n <=? 31)%nat)
  || (n =? 133)%nat || (n =? 160)%nat.

Fixpoint lstrip (s : string) : string :=
  match s with
  | String a r => if is_space a then lstrip r else s
  | EmptyString => EmptyString
  end.

(** [s.rstrip()] and [s.strip()] *)
Definition rstrip (s : string) : string := rev_string (lstrip (rev_string s)).
Definition strip (s : string) : string := rstrip (lstrip s).

(** The line boundaries of [str.splitlines] below 256: the line ends 10 to
    13, the separators 28 to 30 and the next line 133 (U+0085). *)
Definition is_linebreak (c : ascii) : bool :=
  let n := nat_of_ascii c in
  ((10 <=? n)%nat && (n <=? 13)%nat) || ((28 <=? n)%nat && (n <=? 30)%nat)
  || (n =? 133)%nat.

(** [splitlines_aux cur s]: [cur] is the current line, reversed. *)
Fixpoint splitlines_aux (cur : list ascii) (s : string) : list string :=
  match s with
  | EmptyString =>
      match cur with
      | [] => []
      | _ => [string_of_list_ascii (rev cur)]
      end
  | String c r =>
      if is_linebreak c then
        let r' := match r with
                  | String d r2 =>
                      if Ascii.eqb c "013" && Ascii.eqb d "010" then r2 else r
                  | EmptyString => r
                  end in
        string_of_list_ascii (rev cur) :: splitlines_aux [] r'
      else splitlines_aux (c :: cur) r
  end.

(** [s.splitlines()].  The recursion is on the string; a CR LF pair is one
    boundary, which is why the tail is inspected before recursing. *)
Definition splitlines (s : string) : list string := splitlines_aux [] s.

(** [sep.join(l)] *)
Definition join (sep : string) (l : list string) : string := String.concat sep l.

(** [bool(s)] for a string, and for a value that may be [None] *)
Definition truthy (s : string) : bool :=
  match s with EmptyString => false | _ => true end.

Definition truthy_opt (o : option string) : bool :=
  match o with Some s => truthy s | None => false end.

(** [str(x)] inside an f-string, for a value that may be [None] *)
Definition str_opt (o : option string) : string :=
  match o with Some s => s | None => "None" end.

(** [str(n)] for a natural number *)
Definition str_nat (n : nat) : string := NilEmpty.string_of_uint (Nat.to_uint n).

(** [s.split(c)[0]]: what comes before the first [c]. *)
Fixpoint before_first (c : ascii) (s : string) : string :=
  match s with
  | EmptyString => EmptyString
  | String a r => if Ascii.eqb a c then EmptyString else String a (before_first c r)
  end.

End Py.

(** ** Dates *)

Record DateTime := mkDateTime {
  year : nat; month : nat; day : nat;
  hour : nat; minute : nat; second : nat
}.

Module Strftime.

(** A number printed on at least two, or four, digits. *)
Definition pad2 (n : nat) : string :=
  if (n <? 10)%nat then "0" +:+ Py.str_nat n else Py.str_nat n.

Definition pad4 (n : nat) : string :=
  if (n <? 10)%nat then "000" +:+ Py.str_nat n
  else if (n <? 100)%nat then "00" +:+ Py.str_nat n
  else if (n <? 1000)%nat then "0" +:+ Py.str_nat n
  else Py.str_nat n.

Definition month_abbr (m : nat) : string :=
  nth (m - 1)
    ["Jan"; "Feb"; "Mar"; "Apr"; "May"; "Jun";
     "Jul"; "Aug"; "Sep"; "Oct"; "Nov"; "Dec"] "".

(** [strftime('%Y%m%d_%H%M%S')] *)
Definition compact (t : DateTime) : string :=
  pad4 (year t) +:+ pad2 (month t) +:+ pad2 (day t) +:+ "_" +:+
  pad2 (hour t) +:+ pad2 (minute t) +:+ pad2 (second t).

(** [strftime('%Y-%m-%d %H:%M:%S')] *)
Definition iso (t : DateTime) : string :=
  pad4 (year t) +:+ "-" +:+ pad2 (month t) +:+ "-" +:+ pad2 (day t) +:+ " " +:+
  pad2 (hour t) +:+ ":" +:+ pad2 (minute t) +:+ ":" +:+ pad2 (second t).

(** [strftime('%b %d, %Y')] *)
Definition human (t : DateTime) : string :=
  month_abbr (month t) +:+ " " +:+ pad2 (day t) +:+ ", " +:+ pad4 (year t).

End Strftime.

(** ** Computations: a world threaded through, exceptions raised and caught *)

Inductive Res (A : Type) : Type :=
| Val (a : A)
| Exc (e : string).
Arguments Val {A} a.
Arguments Exc {A} e.

Definition M (W A : Type) : Type := W -> Res A * W.

Definition ret {W A} (a : A) : M W A := fun w => (Val a, w).

Definition raise {W A} (e : string) : M W A := fun w => (Exc e, w).

Definition bind {W A B} (m : M W A) (k : A -> M W B) : M W B :=
  fun w =>
    match m w with
    | (Val a, w') => k a w'
    | (Exc e, w') => (Exc e, w')
    end.

(** [try: body / except Exception as e: handler e] *)
Definition try_except {W A} (body : M W A) (handler : string -> M W A) : M W A :=
  fun w =>
    match body w with
    | (Val a, w') => (Val a, w')
    | (Exc e, w') => handler e w'
    end.

Notation "'let*' x ':=' m 'in' k" := (bind m (fun x => k))
  (at level 10, x name, m at level 100, k at level 200, only parsing).

(** [for x in l: body x] *)
Fixpoint for_each {W A} (l : list A) (body : A -> M W unit) : M W unit :=
  match l with
  | [] => ret tt
  | x :: r => let* _ := body x in for_each r body
  end.

(** A JSON document on disk: it loads as a value of the expected shape, or
    loading it raises. *)
Inductive Json (A : Type) : Type :=
| Unreadable
| Loaded (a : A).
Arguments Unreadable {A}.
Arguments Loaded {A} a.

(** ** The records passed between the scripts *)

(** An article, as [fetch_news.py] writes it to [data/<category>_news.json].
    [local_image] is the one key that may be missing. *)
Record Article := mkArticle {
  a_title : string;
  a_link : option string;
  a_published : string;
  a_summary : string;
  a_image_url : option string;
  a_source : string;
  a_local_image : option string
}.

(** A post, as [generate_posts.py] builds it.  The last three keys are added
    by [publish_to_wordpress.py] after a successful publish. *)
Record Post := mkPost {
  id : string;
  title : string;
  content : string;
  excerpt : string;
  featured_image : option string;
  featured_image_url : option string;
  category : string;
  tags : list string;
  original_url : option string;
  created_at : string;
  wordpress_id : option Z;
  wordpress_url : option string;
  published_at : option string
}.

(** An HTTP exchange of [requests]: the call raises, or a response comes
    back. *)
Inductive HttpReply :=
| ConnectionError (e : string)
| Response (status : nat) (text : string).

(** [response.raise_for_status()] raises on 4xx and 5xx. *)
Definition is_http_error (status : nat) : bool :=
  (400 <=? status)%nat && (status <? 600)%nat.

(** The newline character, and a string made of it. *)
Definition nl : string := String "010" EmptyString.

(** * scripts/generate_posts.py *)

Module GeneratePosts.

(** The world of the script: the files under [data/], what was printed, the
    URLs requested so far, the number of clock readings so far, and the local
    variable [all_posts] of [main], which the loop body mutates inside a
    [try]. *)
Record World := mkWorld {
  news_files : gmap string (Json (list Article));
  post_files : gmap string Post;
  posts_json : option (list Post);
  stdout : list string;
  requested : list (option string);
  ticks : nat;
  all_posts : list Post
}.

Definition with_stdout (w : World) (o : list string) : World :=
  mkWorld (news_files w) (post_files w) (posts_json w) o (requested w) (ticks w)
          (all_posts w).

Definition with_requested (w : World) (r : list (option string)) : World :=
  mkWorld (news_files w) (post_files w) (posts_json w) (stdout w) r (ticks w)
          (all_posts w).

Definition with_ticks (w : World) (n : nat) : World :=
  mkWorld (news_files w) (post_files w) (posts_json w) (stdout w) (requested w) n
          (all_posts w).

Definition with_post_files (w : World) (m : gmap string Post) : World :=
  mkWorld (news_files w) m (posts_json w) (stdout w) (requested w) (ticks w)
          (all_posts w).

Definition with_posts_json (w : World) (l : option (list Post)) : World :=
  mkWorld (news_files w) (post_files w) l (stdout w) (requested w) (ticks w)
          (all_posts w).

Definition with_all_posts (w : World) (l : list Post) : World :=
  mkWorld (news_files w) (post_files w) (posts_json w) (stdout w) (requested w)
          (ticks w) l.

Section Script.

(** The clock: what the n-th call of [datetime.now()] returns. *)
Variable clock : nat -> DateTime.

(** The network: what [requests.get] answers to the n-th request, for a URL. *)
Variable http_get : nat -> string -> HttpReply.

(** Lines 29 to 54 of [get_article_content]: parsing the HTML, removing the
    unwanted elements, selecting the content container and converting it
    with [html2text]; [None] when one of the libraries raises. *)
Variable html_to_markdown : string -> option string.

Definition print (s : string) : M World unit :=
  fun w => (Val tt, with_stdout w (stdout w ++ [s])).

Definition datetime_now : M World DateTime :=
  fun w => (Val (clock (ticks w)), with_ticks w (S (ticks w))).

(** [requests.get(url, headers=headers)]; a URL that is [None] is refused
    before any exchange. *)
Definition requests_get (url : option string) : M World (nat * string) :=
  fun w =>
    match url with
    | None => (Exc "Invalid URL 'None': No scheme supplied", w)
    | Some u =>
        let w' := with_requested w (requested w ++ [url]) in
        match http_get (length (requested w)) u with
        | ConnectionError e => (Exc e, w')
        | Response st txt => (Val (st, txt), w')
        end
    end.

Definition raise_for_status (st : nat) : M World unit :=
  if is_http_error st then raise ("HTTPError: " +:+ Py.str_nat st) else ret tt.

Definition parse_and_convert (html : string) : M World string :=
  match html_to_markdown html with
  | Some md => ret md
  | None => raise "parse error"
  end.

(** ['\n'.join([line.rstrip() for line in text.splitlines() if line.strip()])] *)
Definition squeeze_lines (text : string) : string :=
  Py.join nl
    (map Py.rstrip
         (List.filter (fun line => Py.truthy (Py.strip line)) (Py.splitlines text))).

Definition get_article_content (url : option string) : M World (option string) :=
  try_except
    (let* r := requests_get url in
     let* _ := raise_for_status (fst r) in
     let* markdown_text := parse_and_convert (snd r) in
     ret (Some (squeeze_lines markdown_text)))
    (fun e =>
       let* _ := print ("Error fetching article content from " +:+ Py.str_opt url
                        +:+ ": " +:+ e) in
       ret None).

(** The local list [tags] of [generate_post_content], printed in the footer
    of the body. *)
Definition footer_tags (category : string) : list string :=
  [category; "container"; "cloud-native"] ++
  (if String.eqb category "docker" then ["containers"; "dockerhub"; "docker-compose"]
   else if String.eqb category "kubernetes" then ["k8s"; "cncf"; "cloud-native"]
   else []).

(** What [generate_post_content] appends to the text it starts from. *)
Definition footer (article : Article) (category : string) : string :=
  nl +:+ nl +:+ "---" +:+ nl +:+ nl +:+ "Source: [" +:+ a_source article +:+ "]("
     +:+ Py.str_opt (a_link article) +:+ ")" +:+ nl
  +:+ (nl +:+ nl +:+ "Category: " +:+ Py.capitalize category +:+ nl)
  +:+ ("Tags: " +:+ Py.join ", " (footer_tags category) +:+ nl).

Definition generate_post_content (article : Article) (category : string)
  : M World string :=
  let* full_content := get_article_content (a_link article) in
  let post_content :=
    if Py.truthy_opt full_content then Py.str_opt full_content
    else a_summary article in
  ret (post_content +:+ footer article category).

Definition format_post_title (title category : string) : M World string :=
  let title1 :=
    if negb (Py.contains (Py.lower title) (Py.lower category))
    then Py.capitalize category +:+ ": " +:+ title
    else title in
  let* today := datetime_now in
  ret (title1 +:+ " - " +:+ Strftime.human today).

Definition post_path (post_id : string) : string :=
  "data/posts/" +:+ post_id +:+ ".json".

Definition save_post (p : Post) : M World unit :=
  fun w => (Val tt, with_post_files w (<[post_path (id p) := p]> (post_files w))).

Definition create_post_from_article (article : Article) (category : string)
    (index : nat) : M World Post :=
  let* title := format_post_title (a_title article) category in
  let* content := generate_post_content article category in
  let* t_id := datetime_now in
  let post_id := category +:+ "_" +:+ Py.str_nat index +:+ "_" +:+ Strftime.compact t_id in
  let* t_created := datetime_now in
  let post :=
    {| id := post_id;
       title := title;
       content := content;
       excerpt := a_summary article;
       featured_image := a_local_image article;
       featured_image_url := a_image_url article;
       category := category;
       tags := [category; "container"; "cloud-native"];
       original_url := a_link article;
       created_at := Strftime.iso t_created;
       wordpress_id := None;
       wordpress_url := None;
       published_at := None |} in
  let* _ := save_post post in
  ret post.

Definition news_path (category : string) : string :=
  "data/" +:+ category +:+ "_news.json".

Definition load_news (category : string) : M World (list Article) :=
  fun w =>
    match news_files w !! news_path category with
    | Some (Loaded l) => (Val l, w)
    | Some Unreadable => (Exc "JSONDecodeError", w)
    | None => (Exc "FileNotFoundError", w)
    end.

Definition append_post (p : Post) : M World unit :=
  fun w => (Val tt, with_all_posts w (all_posts w ++ [p])).

(** [enumerate(l)], from a starting index *)
Fixpoint enumerate_from {A} (i : nat) (l : list A) : list (nat * A) :=
  match l with
  | [] => []
  | x :: r => (i, x) :: enumerate_from (S i) r
  end.

Definition categories : list string := ["docker"; "kubernetes"; "container"].

Definition main : M World unit :=
  let* _ := (fun w => (Val tt, with_all_posts w [])) in
  let* _ :=
    for_each categories (fun category =>
      try_except
        (let* articles := load_news category in
         let* _ := print ("Generating posts for category: " +:+ category +:+ " ("
                          +:+ Py.str_nat (length articles) +:+ " articles)") in
         for_each (enumerate_from 0 (firstn 3 articles)) (fun ia =>
           let* post := create_post_from_article (snd ia) category (fst ia) in
           let* _ := append_post post in
           print ("Created post: " +:+ title post)))
        (fun e => print ("Error processing category " +:+ category +:+ ": " +:+ e))) in
  let* _ := (fun w => (Val tt, with_posts_json w (Some (all_posts w)))) in
  fun w => print ("Generated " +:+ Py.str_nat (length (all_posts w))
                  +:+ " posts in total.") w.

End Script.

End GeneratePosts.

(** * scripts/fetch_news.py *)

(** ** os.path *)

Module OsPath.

(** [p.rfind(c)]: the index of the last [c], or -1. *)
Fixpoint rfind_from (c : ascii) (s : string) (i last : Z) : Z :=
  match s with
  | EmptyString => last
  | String a r => rfind_from c r (i + 1)%Z (if Ascii.eqb a c then i else last)
  end.

Definition rfind (c : ascii) (s : string) : Z := rfind_from c s 0%Z (-1)%Z.

(** [p[i:i+1] != '.'] *)
Definition not_dot_at (p : string) (i : nat) : bool :=
  match String.get i p with
  | Some a => negb (Ascii.eqb a ".")
  | None => true
  end.

(** The loop of [genericpath._splitext] that skips the leading dots of the
    file name: [n] is [dotIndex - filenameIndex]; the answer is whether the
    loop returns from inside, at a character that is not a dot. *)
Fixpoint finds_name_char (p : string) (filenameIndex n : nat) : bool :=
  match n with
  | O => false
  | S n' =>
      if not_dot_at p filenameIndex then true
      else finds_name_char p (S filenameIndex) n'
  end.

(** [os.path.splitext(p)] of [posixpath]. *)
Definition splitext (p : string) : string * string :=
  let sepIndex := rfind "/" p in
  let dotIndex := rfind "." p in
  if (sepIndex <? dotIndex)%Z
     && finds_name_char p (Z.to_nat (sepIndex + 1)) (Z.to_nat (dotIndex - (sepIndex + 1)))
  then (String.substring 0 (Z.to_nat dotIndex) p,
        String.substring (Z.to_nat dotIndex) (String.length p - Z.to_nat dotIndex) p)
  else (p, EmptyString).

(** [os.path.join(a, b)] of [posixpath], for two components. *)
Definition join2 (a b : string) : string :=
  if Py.startswith b "/" then b
  else if negb (Py.truthy a) || Py.endswith a "/" then a +:+ b
  else a +:+ "/" +:+ b.

End OsPath.

Module FetchNews.

Inductive SourceType := type_rss | type_url.

Record Source := mkSource { s_type : SourceType; s_url : string }.

(** The constant [SOURCES]; a Python dictionary keeps the order of
    insertion. *)
Definition SOURCES : list (string * list Source) :=
  [ ("docker",
     [ mkSource type_rss "https://www.docker.com/blog/feed/";
       mkSource type_rss "https://docs.docker.com/release-notes/feed/";
       mkSource type_url "https://www.docker.com/blog/" ]);
    ("kubernetes",
     [ mkSource type_rss "https://kubernetes.io/feed.xml";
       mkSource type_rss "https://www.cncf.io/feed/";
       mkSource type_url "https://kubernetes.io/blog/" ]);
    ("container",
     [ mkSource type_rss "https://www.linkedin.com/company/docker/rss";
       mkSource type_rss "https://www.redhat.com/en/rss/blog/channel/kubernetes" ]) ].

(** An entry of a parsed feed.  Every key may be missing; [media_content]
    and [content] are lists of dictionaries of which only the key ['url'],
    respectively ['value'], is read. *)
Record Entry := mkEntry {
  e_title : option string;
  e_link : option string;
  e_published : option string;
  e_summary : option string;
  e_media_content : option (list (option string));
  e_content : option (list (option string))
}.

(** A block selected on a scraped page, seen through the four [select_one]
    calls: the text of the title element, the [href] of the first link, the
    text of the summary element, the [src] of the first image. *)
Record Block := mkBlock {
  b_title : option string;
  b_link : option (option string);
  b_summary : option string;
  b_image : option (option string)
}.

(** A streamed download: the request raises, or a response comes back whose
    body arrives in chunks and may break off with an exception. *)
Inductive StreamReply :=
| StreamError (e : string)
| Stream (status : nat) (chunks : list string) (breaks : option string).

(** The world of the script: the image files by path, the news files by
    path, [data/all_news.json], what was printed, the URLs requested so far
    and the number of clock readings so far. *)
Record World := mkWorld {
  images : gmap string string;
  news_files : gmap string (list Article);
  all_news : option (list (string * list Article));
  stdout : list string;
  requested : list string;
  ticks : nat
}.

Definition with_images (w : World) (m : gmap string string) : World :=
  mkWorld m (news_files w) (all_news w) (stdout w) (requested w) (ticks w).

Definition with_news_files (w : World) (m : gmap string (list Article)) : World :=
  mkWorld (images w) m (all_news w) (stdout w) (requested w) (ticks w).

Definition with_all_news (w : World) (a : option (list (string * list Article)))
  : World :=
  mkWorld (images w) (news_files w) a (stdout w) (requested w) (ticks w).

Definition with_stdout (w : World) (o : list string) : World :=
  mkWorld (images w) (news_files w) (all_news w) o (requested w) (ticks w).

Definition with_requested (w : World) (r : list string) : World :=
  mkWorld (images w) (news_files w) (all_news w) (stdout w) r (ticks w).

Definition with_ticks (w : World) (n : nat) : World :=
  mkWorld (images w) (news_files w) (all_news w) (stdout w) (requested w) n.

Section Script.

Variable clock : nat -> DateTime.

(** [feedparser.parse(url)] at the n-th request: the entries of the feed, or
    [None] when the call raises.  The library reports a feed it cannot fetch
    or parse as a feed without entries, and does not raise then. *)
Variable feedparser_parse : nat -> string -> option (list Entry).

(** [requests.get(url, headers=headers)] at the n-th request. *)
Variable http_get : nat -> string -> HttpReply.

(** [requests.get(url, headers=headers, stream=True)] at the n-th request. *)
Variable http_get_stream : nat -> string -> StreamReply.

(** [BeautifulSoup(text).select('article, .post, .blog-post, .entry')], each
    block with what its four [select_one] calls find; [None] when the parser
    raises. *)
Variable select_blocks : string -> option (list Block).

(** [BeautifulSoup(html).find('img')] and its [src]: [None] when there is
    no image or the first image has no [src]. *)
Variable first_img_src : string -> option string.

(** [urllib.parse.urljoin], [urllib.parse.unquote] and the hexadecimal MD5
    digest of [hashlib]. *)
Variable urljoin : string -> string -> string.
Variable unquote : string -> string.
Variable md5_hex : string -> string.

Definition print (s : string) : M World unit :=
  fun w => (Val tt, with_stdout w (stdout w ++ [s])).

Definition datetime_now : M World DateTime :=
  fun w => (Val (clock (ticks w)), with_ticks w (S (ticks w))).

(** Reading a key that may be missing, as an attribute: [entry.title]. *)
Definition attr (name : string) (o : option string) : M World string :=
  match o with
  | Some v => ret v
  | None => raise ("AttributeError: object has no attribute '" +:+ name +:+ "'")
  end.

Definition parse_feed (u : string) : M World (list Entry) :=
  fun w =>
    let w' := with_requested w (requested w ++ [u]) in
    match feedparser_parse (length (requested w)) u with
    | Some entries => (Val entries, w')
    | None => (Exc "feed error", w')
    end.

(** The first media dictionary that has a ['url']. *)
Fixpoint first_media_url (l : list (option string)) : option string :=
  match l with
  | [] => None
  | Some u :: _ => Some u
  | None :: r => first_media_url r
  end.

(** The first content value whose first image has a [src]; [image_url] is
    what the variable held before the loop. *)
Fixpoint first_content_img (l : list (option string)) (image_url : option string)
  : option string :=
  match l with
  | [] => image_url
  | Some value :: r =>
      match first_img_src value with
      | Some src => Some src
      | None => first_content_img r image_url
      end
  | None :: r => first_content_img r image_url
  end.

(** Lines 45 to 67: the image of an entry. *)
Definition entry_image (entry : Entry) : option string :=
  let image_url0 :=
    match e_media_content entry with
    | Some medias => first_media_url medias
    | None => None
    end in
  let image_url1 :=
    match e_content entry with
    | Some contents =>
        if negb (Py.truthy_opt image_url0) then first_content_img contents image_url0
        else image_url0
    | None => image_url0
    end in
  match e_summary entry with
  | Some summary =>
      if negb (Py.truthy_opt image_url1) then
        match first_img_src summary with
        | Some src => Some src
        | None => image_url1
        end
      else image_url1
  | None => image_url1
  end.

(** The body of the loop of [fetch_rss_feed]: one article per entry. *)
Definition article_of_entry (source : string) (entry : Entry) : M World Article :=
  let image_url := entry_image entry in
  let* title := attr "title" (e_title entry) in
  let* link := attr "link" (e_link entry) in
  let* now := datetime_now in
  ret {| a_title := title;
         a_link := Some link;
         a_published := default (Strftime.iso now) (e_published entry);
         a_summary := default "" (e_summary entry);
         a_image_url := image_url;
         a_source := source;
         a_local_image := None |}.

(** [for x in l: articles.append(f x)], the list built so far being
    returned at the end. *)
Fixpoint collect {A} (l : list A) (f : A -> M World (option Article))
  : M World (list Article) :=
  match l with
  | [] => ret []
  | x :: r =>
      let* a := f x in
      let* rest := collect r f in
      ret (match a with Some a' => a' :: rest | None => rest end)
  end.

(** Lines 40 to 79: what [fetch_rss_feed] does inside its [try]. *)
Definition fetch_rss_feed_try (u : string) : M World (list Article) :=
  let* entries := parse_feed u in
  collect (firstn 10 entries)
    (fun entry => let* a := article_of_entry u entry in ret (Some a)).

Definition fetch_rss_feed (u : string) : M World (list Article) :=
  try_except
    (fetch_rss_feed_try u)
    (fun e =>
       let* _ := print ("Error fetching RSS feed " +:+ u +:+ ": " +:+ e) in
       ret []).

Definition requests_get (u : string) : M World (nat * string) :=
  fun w =>
    let w' := with_requested w (requested w ++ [u]) in
    match http_get (length (requested w)) u with
    | ConnectionError e => (Exc e, w')
    | Response st txt => (Val (st, txt), w')
    end.

Definition raise_for_status (st : nat) : M World unit :=
  if is_http_error st then raise ("HTTPError: " +:+ Py.str_nat st) else ret tt.

Definition parse_page (text : string) : M World (list Block) :=
  match select_blocks text with
  | Some blocks => ret blocks
  | None => raise "parse error"
  end.

(** [not s.startswith(('http://', 'https://'))] *)
Definition is_relative (s : string) : bool :=
  negb (Py.startswith s "http://" || Py.startswith s "https://").

(** [if x and not x.startswith(...): x = urljoin(url, x)] *)
Definition absolutize (u : string) (x : option string) : option string :=
  match x with
  | Some s => if Py.truthy s && is_relative s then Some (urljoin u s) else x
  | None => None
  end.

(** The body of the loop of [fetch_website]: an article when the block has
    a title element and a link element. *)
Definition article_of_block (u : string) (block : Block)
  : M World (option Article) :=
  match b_title block, b_link block with
  | Some title_text, Some href =>
      let title := Py.strip title_text in
      let link := absolutize u href in
      let summary :=
        match b_summary block with
        | Some t => Py.strip t
        | None => ""
        end in
      let image_url :=
        match b_image block with
        | Some (Some src) => absolutize u (Some src)
        | _ => None
        end in
      let* now := datetime_now in
      ret (Some {| a_title := title;
                   a_link := link;
                   a_published := Strftime.iso now;
                   a_summary := summary;
                   a_image_url := image_url;
                   a_source := u;
                   a_local_image := None |})
  | _, _ => ret None
  end.

(** Lines 87 to 133: what [fetch_website] does inside its [try]. *)
Definition fetch_website_try (u : string) : M World (list Article) :=
  let* r := requests_get u in
  let* _ := raise_for_status (fst r) in
  let* blocks := parse_page (snd r) in
  collect (firstn 10 blocks) (article_of_block u).

Definition fetch_website (u : string) : M World (list Article) :=
  try_except
    (fetch_website_try u)
    (fun e =>
       let* _ := print ("Error fetching website " +:+ u +:+ ": " +:+ e) in
       ret []).

(** Lines 149 to 151 of [download_image]: the extension of the file. *)
Definition image_ext (u : string) : string :=
  let file_ext := snd (OsPath.splitext (unquote (Py.before_first "?" u))) in
  if negb (Py.truthy file_ext) || (5 <? String.length file_ext)%nat
  then ".jpg" else file_ext.

(** Lines 154 and 155: the name and the path of the file. *)
Definition image_filename (title u : string) : string :=
  md5_hex (title +:+ "_" +:+ u) +:+ image_ext u.

Definition image_path (title u : string) : string :=
  OsPath.join2 (OsPath.join2 "data" "images") (image_filename title u).

Definition path_exists (path : string) : M World bool :=
  fun w => (Val (bool_decide (is_Some (images w !! path))), w).

(** [open(path, 'wb')]: the file is created, or emptied. *)
Definition open_wb (path : string) : M World unit :=
  fun w => (Val tt, with_images w (<[path := ""]> (images w))).

(** [f.write(chunk)] on the file opened at [path]. *)
Definition write_chunk (path chunk : string) : M World unit :=
  fun w =>
    (Val tt,
     with_images w (<[path := default "" (images w !! path) +:+ chunk]> (images w))).

(** Lines 162 to 167: the request, then the body streamed to the file. *)
Definition fetch_to_file (u path : string) : M World unit :=
  fun w =>
    let w' := with_requested w (requested w ++ [u]) in
    match http_get_stream (length (requested w)) u with
    | StreamError e => (Exc e, w')
    | Stream st chunks breaks =>
        (let* _ := raise_for_status st in
         let* _ := open_wb path in
         let* _ := for_each chunks (write_chunk path) in
         match breaks with
         | Some e => raise e
         | None => ret tt
         end) w'
    end.

Definition download_image (u : option string) (category title : string)
  : M World (option string) :=
  match u with
  | None => ret None
  | Some u =>
      if negb (Py.truthy u) then ret None
      else
        try_except
          (let local_path := image_path title u in
           let* present := path_exists local_path in
           let* _ := if negb present then fetch_to_file u local_path else ret tt in
           ret (Some local_path))
          (fun e =>
             let* _ := print ("Error downloading image " +:+ u +:+ ": " +:+ e) in
             ret None)
  end.

(** Lines 194 to 198 of [main], for one article. *)
Definition attach_image (category : string) (article : Article) : M World Article :=
  if Py.truthy_opt (a_image_url article) then
    let* local_image := download_image (a_image_url article) category
                                       (a_title article) in
    ret (if Py.truthy_opt local_image
         then {| a_title := a_title article;
                 a_link := a_link article;
                 a_published := a_published article;
                 a_summary := a_summary article;
                 a_image_url := a_image_url article;
                 a_source := a_source article;
                 a_local_image := local_image |}
         else article)
  else ret article.

Fixpoint attach_images (category : string) (l : list Article)
  : M World (list Article) :=
  match l with
  | [] => ret []
  | a :: r =>
      let* a' := attach_image category a in
      let* r' := attach_images category r in
      ret (a' :: r')
  end.

(** Lines 188 to 198: one source, fetched and its images downloaded. *)
Definition fetch_source (category : string) (source : Source)
  : M World (list Article) :=
  let* source_articles :=
    match s_type source with
    | type_rss => fetch_rss_feed (s_url source)
    | type_url => fetch_website (s_url source)
    end in
  attach_images category source_articles.

(** The inner loop of [main]: the articles of a category. *)
Fixpoint fetch_sources (category : string) (sources : list Source)
  : M World (list Article) :=
  match sources with
  | [] => ret []
  | source :: rest =>
      let* source_articles := fetch_source category source in
      let* others := fetch_sources category rest in
      ret (source_articles ++ others)
  end.

Definition news_path (category : string) : string :=
  "data/" +:+ category +:+ "_news.json".

Definition save_news (category : string) (articles : list Article) : M World unit :=
  fun w =>
    (Val tt, with_news_files w (<[news_path category := articles]> (news_files w))).

(** The outer loop of [main]: [all_articles], category by category. *)
Fixpoint fetch_categories (cs : list (string * list Source))
  : M World (list (string * list Article)) :=
  match cs with
  | [] => ret []
  | (category, sources) :: rest =>
      let* articles := fetch_sources category sources in
      let* _ := save_news category articles in
      let* others := fetch_categories rest in
      ret ((category, articles) :: others)
  end.

Definition main : M World unit :=
  let* all_articles := fetch_categories SOURCES in
  let* _ := (fun w => (Val tt, with_all_news w (Some all_articles))) in
  print ("Fetched and saved news articles: "
         +:+ Py.str_nat (list_sum (map (fun ca => length (snd ca)) all_articles))
         +:+ " total articles").

End Script.

End FetchNews.

(** * scripts/publish_to_wordpress.py *)

Module PublishToWordpress.

(** A request to the WordPress REST API: the method, the URL, the
    [Authorization] header and what is sent. *)
Inductive Method := GET | POST.

Record PostData := mkPostData {
  pd_title : string;
  pd_content : string;
  pd_excerpt : string;
  pd_status : string;
  pd_categories : list Z;
  pd_tags : list Z;
  pd_featured_media : option Z
}.

Inductive Payload :=
| NoPayload
| ImageBytes (filename data : string)
| NameJson (name : string)
| PostJson (data : PostData).

Record Request := mkRequest {
  r_method : Method;
  r_url : string;
  r_authorization : string;
  r_payload : Payload
}.

(** What [response.json()] returns, as far as the script reads it: an
    object that has a key, with what [.get('id')] and [.get('link')] give;
    the object without a key; a list of objects with the keys ['name'] and
    ['id']; a string; a number, a boolean or [null]. *)
Inductive JsonBody :=
| JObject (obj_id : option Z) (obj_link : option string)
| JEmptyObject
| JItems (items : list (string * Z))
| JText (s : string)
| JAtom.

(** The call raises, or a response comes back: its status, its text, and
    its body when the body is JSON. *)
Inductive Reply :=
| NetworkError (e : string)
| HttpResponse (status : nat) (text : string) (json : option JsonBody).

(** The world of the script: the environment variables, [data/posts.json],
    [data/published_posts.json] (a file that is missing is [None]), the post
    files and the other files by path, what was printed, the requests sent
    so far, the number of clock readings so far, the calls of
    [publish_post_to_wordpress] so far (the post each was given and what it
    returned), and what opening a post file for writing raises, when it
    raises: the script does not create [data/posts], and an identifier may
    name a directory that is not there. *)
Record World := mkWorld {
  environ : gmap string string;
  posts_json : option (Json (list Post));
  published_posts_json : option (Json (list Post));
  post_files : gmap string Post;
  files : gmap string string;
  stdout : list string;
  requests : list Request;
  ticks : nat;
  attempts : list (Post * bool);
  write_error : string -> option string
}.

Definition with_published (w : World) (f : option (Json (list Post))) : World :=
  mkWorld (environ w) (posts_json w) f (post_files w) (files w) (stdout w)
          (requests w) (ticks w) (attempts w) (write_error w).

Definition with_post_files (w : World) (m : gmap string Post) : World :=
  mkWorld (environ w) (posts_json w) (published_posts_json w) m (files w) (stdout w)
          (requests w) (ticks w) (attempts w) (write_error w).

Definition with_stdout (w : World) (o : list string) : World :=
  mkWorld (environ w) (posts_json w) (published_posts_json w) (post_files w) (files w)
          o (requests w) (ticks w) (attempts w) (write_error w).

Definition with_requests (w : World) (r : list Request) : World :=
  mkWorld (environ w) (posts_json w) (published_posts_json w) (post_files w) (files w)
          (stdout w) r (ticks w) (attempts w) (write_error w).

Definition with_ticks (w : World) (n : nat) : World :=
  mkWorld (environ w) (posts_json w) (published_posts_json w) (post_files w) (files w)
          (stdout w) (requests w) n (attempts w) (write_error w).

Definition with_attempts (w : World) (l : list (Post * bool)) : World :=
  mkWorld (environ w) (posts_json w) (published_posts_json w) (post_files w) (files w)
          (stdout w) (requests w) (ticks w) l (write_error w).

Section Script.

Variable clock : nat -> DateTime.

(** The remote site: what it answers to the n-th request. *)
Variable remote : nat -> Request -> Reply.

(** [base64.b64encode(s.encode()).decode()] *)
Variable b64encode : string -> string.

Definition print (s : string) : M World unit :=
  fun w => (Val tt, with_stdout w (stdout w ++ [s])).

Definition datetime_now : M World DateTime :=
  fun w => (Val (clock (ticks w)), with_ticks w (S (ticks w))).

Definition path_exists (path : string) : M World bool :=
  fun w => (Val (bool_decide (is_Some (files w !! path))), w).

Definition read_bytes (path : string) : M World string :=
  fun w =>
    match files w !! path with
    | Some data => (Val data, w)
    | None => (Exc "FileNotFoundError", w)
    end.

(** [requests.get] and [requests.post]: the status, the text and the JSON
    body of the response. *)
Definition send (r : Request) : M World (nat * string * option JsonBody) :=
  fun w =>
    let w' := with_requests w (requests w ++ [r]) in
    match remote (length (requests w)) r with
    | NetworkError e => (Exc e, w')
    | HttpResponse st txt js => (Val (st, txt, js), w')
    end.

(** [response.status_code in (201, 200)] *)
Definition is_ok (st : nat) : bool := (st =? 201)%nat || (st =? 200)%nat.

(** [response.json().get('id')]: only an object has [get]. *)
Definition json_get_id (js : option JsonBody) : M World (option Z) :=
  match js with
  | Some (JObject i _) => ret i
  | Some JEmptyObject => ret None
  | Some (JItems _) => raise "AttributeError: 'list' object has no attribute 'get'"
  | Some (JText _) => raise "AttributeError: 'str' object has no attribute 'get'"
  | Some JAtom => raise "AttributeError: object has no attribute 'get'"
  | None => raise "JSONDecodeError"
  end.

(** [response.json().get('link')] *)
Definition json_get_link (js : option JsonBody) : M World (option string) :=
  match js with
  | Some (JObject _ l) => ret l
  | Some JEmptyObject => ret None
  | Some (JItems _) => raise "AttributeError: 'list' object has no attribute 'get'"
  | Some (JText _) => raise "AttributeError: 'str' object has no attribute 'get'"
  | Some JAtom => raise "AttributeError: object has no attribute 'get'"
  | None => raise "JSONDecodeError"
  end.

(** [response.json()] as the loop [for x in ...: x['name'] ...] sees it.
    The loop over an object goes over its keys, and indexing a key by
    ['name'] raises; the loop over a string goes over its characters and
    raises the same way; over the object without a key and over the empty
    string the loop does nothing, as over the empty list. *)
Definition json_items (js : option JsonBody) : M World (list (string * Z)) :=
  match js with
  | Some (JItems l) => ret l
  | Some (JObject _ _) => raise "TypeError: string indices must be integers"
  | Some JEmptyObject => ret []
  | Some (JText EmptyString) => ret []
  | Some (JText (String _ _)) => raise "TypeError: string indices must be integers"
  | Some JAtom => raise "TypeError: object is not iterable"
  | None => raise "JSONDecodeError"
  end.

(** [os.path.basename(p)] *)
Definition basename (p : string) : string :=
  let i := Z.to_nat (OsPath.rfind "/" p + 1) in
  String.substring i (String.length p - i) p.

Definition basic_auth (username password : string) : string :=
  "Basic " +:+ b64encode (username +:+ ":" +:+ password).

(** [bool(x)] for an identifier that may be [None]: zero is falsy. *)
Definition truthy_id (i : option Z) : bool :=
  match i with Some z => negb (z =? 0)%Z | None => false end.

Definition upload_image_to_wordpress (image_path api_url username password : string)
  : M World (option Z) :=
  let* present := path_exists image_path in
  if negb present then
    let* _ := print ("Image file not found: " +:+ image_path) in
    ret None
  else
    try_except
      (let* image_data := read_bytes image_path in
       let filename := basename image_path in
       let* resp := send (mkRequest POST (api_url +:+ "/wp/v2/media")
                                    (basic_auth username password)
                                    (ImageBytes filename image_data)) in
       let '(st, txt, js) := resp in
       if is_ok st then json_get_id js
       else
         let* _ := print ("Failed to upload image: " +:+ Py.str_nat st +:+ " - " +:+ txt) in
         ret None)
      (fun e =>
         let* _ := print ("Error uploading image to WordPress: " +:+ e) in
         ret None).

(** [for x in items: if x['name'].lower() == name.lower(): return x['id']] *)
Fixpoint find_by_name (items : list (string * Z)) (name : string) : option Z :=
  match items with
  | [] => None
  | (n, i) :: r =>
      if String.eqb (Py.lower n) (Py.lower name) then Some i else find_by_name r name
  end.

(** The common shape of [get_or_create_category] and [get_or_create_tag]:
    search by name, else create with the name as [created_name]. *)
Definition get_or_create (kind plural name created_name api_url username password
                          : string) : M World (option Z) :=
  try_except
    (let auth := basic_auth username password in
     let* resp := send (mkRequest GET (api_url +:+ "/wp/v2/" +:+ plural +:+ "?search="
                                       +:+ name) auth NoPayload) in
     let '(st, _, js) := resp in
     let* found :=
       if (st =? 200)%nat then
         let* items := json_items js in
         ret (find_by_name items name)
       else ret None in
     match found with
     | Some i => ret (Some i)
     | None =>
         let* resp2 := send (mkRequest POST (api_url +:+ "/wp/v2/" +:+ plural) auth
                                       (NameJson created_name)) in
         let '(st2, txt2, js2) := resp2 in
         if is_ok st2 then json_get_id js2
         else
           let* _ := print ("Failed to create " +:+ kind +:+ ": " +:+ Py.str_nat st2
                            +:+ " - " +:+ txt2) in
           ret None
     end)
    (fun e =>
       let* _ := print ("Error getting/creating " +:+ kind +:+ ": " +:+ e) in
       ret None).

Definition get_or_create_category (category_name api_url username password : string)
  : M World (option Z) :=
  get_or_create "category" "categories" category_name (Py.capitalize category_name)
                api_url username password.

Definition get_or_create_tag (tag_name api_url username password : string)
  : M World (option Z) :=
  get_or_create "tag" "tags" tag_name (Py.lower tag_name) api_url username password.

(** The loop over [post.get('tags', [])]: the identifiers that are truthy. *)
Fixpoint resolve_tags (l : list string) (api_url username password : string)
  : M World (list Z) :=
  match l with
  | [] => ret []
  | tag :: r =>
      let* tag_id := get_or_create_tag tag api_url username password in
      let* rest := resolve_tags r api_url username password in
      ret (match tag_id with
           | Some i => if truthy_id tag_id then i :: rest else rest
           | None => rest
           end)
  end.

Definition post_path (post_id : string) : string :=
  "data/posts/" +:+ post_id +:+ ".json".

(** [with open(f"data/posts/{post['id']}.json", 'w') as f: json.dump(post, f)] *)
Definition save_post (p : Post) : M World unit :=
  fun w =>
    match write_error w (post_path (id p)) with
    | Some e => (Exc e, w)
    | None => (Val tt, with_post_files w (<[post_path (id p) := p]> (post_files w)))
    end.

(** The post with the three keys a successful publish sets. *)
Definition mark_published (post : Post) (wp_id : option Z) (wp_url : option string)
    (when : string) : Post :=
  {| id := id post;
     title := title post;
     content := content post;
     excerpt := excerpt post;
     featured_image := featured_image post;
     featured_image_url := featured_image_url post;
     category := category post;
     tags := tags post;
     original_url := original_url post;
     created_at := created_at post;
     wordpress_id := wp_id;
     wordpress_url := wp_url;
     published_at := Some when |}.

Definition record_attempt (post : Post) (ok : bool) : M World unit :=
  fun w => (Val tt, with_attempts w (attempts w ++ [(post, ok)])).

(** Lines 135 to 165 of [publish_post_to_wordpress]: the featured image
    uploaded, the category and the tags resolved, the data of the post
    put together. *)
Definition prepare_post_data (post : Post) (api_url username password : string)
  : M World PostData :=
  let* featured_media_id :=
    match featured_image post with
    | Some image =>
        if Py.truthy image then
          let* present := path_exists image in
          if present then
            let* media_id := upload_image_to_wordpress image api_url username
                                                       password in
            let* _ := if truthy_id media_id
                      then print ("Uploaded featured image for post: " +:+ title post)
                      else ret tt in
            ret media_id
          else ret None
        else ret None
    | None => ret None
    end in
  let* category_id := get_or_create_category (category post) api_url username
                                             password in
  let* tag_ids := resolve_tags (tags post) api_url username password in
  ret {| pd_title := title post;
         pd_content := content post;
         pd_excerpt := excerpt post;
         pd_status := "publish";
         pd_categories := match category_id with
                          | Some c => if truthy_id category_id then [c] else []
                          | None => []
                          end;
         pd_tags := tag_ids;
         pd_featured_media := if truthy_id featured_media_id then featured_media_id
                              else None |}.

(** The request that creates the post. *)
Definition create_post_request (api_url username password : string)
    (post_data : PostData) : Request :=
  mkRequest POST (api_url +:+ "/wp/v2/posts") (basic_auth username password)
            (PostJson post_data).

(** The [except] clause of [publish_post_to_wordpress], reached with the
    post as it is at that time. *)
Definition publish_failed (post : Post) (e : string) : M World (bool * Post) :=
  let* _ := print ("Error publishing post to WordPress: " +:+ e) in
  ret (false, post).

(** [publish_post_to_wordpress]: whether the post was published, and the
    post as the call leaves it.  The three keys are set in the dictionary
    before the file is opened (lines 180 to 186), so an exception of the
    write reaches the [except] clause with the post already updated. *)
Definition publish_post_to_wordpress (post : Post) (api_url username password : string)
  : M World (bool * Post) :=
  try_except
    (let* post_data := prepare_post_data post api_url username password in
     let* resp := send (create_post_request api_url username password post_data) in
     let '(st, txt, js) := resp in
     if is_ok st then
       let* wp_post_id := json_get_id js in
       let* wp_post_url := json_get_link js in
       let* _ := print ("Published post: " +:+ title post +:+ " - "
                        +:+ Py.str_opt wp_post_url) in
       let* now := datetime_now in
       let post' := mark_published post wp_post_id wp_post_url (Strftime.iso now) in
       try_except
         (let* _ := save_post post' in
          ret (true, post'))
         (publish_failed post')
     else
       let* _ := print ("Failed to publish post: " +:+ Py.str_nat st +:+ " - "
                        +:+ txt) in
       ret (false, post))
    (publish_failed post).

Definition getenv (name : string) : M World (option string) :=
  fun w => (Val (environ w !! name), w).

(** [json.load] of [data/posts.json] and of [data/published_posts.json] *)
Definition load_json (f : option (Json (list Post))) : M World (list Post) :=
  match f with
  | Some (Loaded l) => ret l
  | Some Unreadable => raise "JSONDecodeError"
  | None => raise "FileNotFoundError"
  end.

Definition load_posts : M World (list Post) :=
  fun w => load_json (posts_json w) w.

Definition load_published : M World (list Post) :=
  fun w => load_json (published_posts_json w) w.

Definition published_exists : M World bool :=
  fun w => (Val (bool_decide (is_Some (published_posts_json w))), w).

Definition write_published (l : list Post) : M World unit :=
  fun w => (Val tt, with_published w (Some (Loaded l))).

(** Lines 238 to 249 of [main]: the loop over [all_posts], with the set
    [published_post_ids] and the list [newly_published].  Each call of
    [publish_post_to_wordpress] is recorded when it returns. *)
Fixpoint publish_loop (posts : list Post) (published_post_ids : gset string)
    (newly_published : list Post) (api_url username password : string)
  : M World (gset string * list Post) :=
  match posts with
  | [] => ret (published_post_ids, newly_published)
  | post :: rest =>
      if bool_decide (id post ∉ published_post_ids) then
        let* r := publish_post_to_wordpress post api_url username password in
        let* _ := record_attempt post (fst r) in
        if fst r then
          publish_loop rest ({[ id post ]} ∪ published_post_ids)
                       (newly_published ++ [snd r]) api_url username password
        else
          publish_loop rest published_post_ids newly_published api_url username
                       password
      else
        publish_loop rest published_post_ids newly_published api_url username password
  end.

(** Lines 208 to 210: the API URL made to end in [/wp-json]. *)
Definition normalize_api_url (wp_api_url : string) : string :=
  if negb (Py.endswith wp_api_url "/wp-json")
  then Py.rstrip_char "/" wp_api_url +:+ "/wp-json"
  else wp_api_url.

(** Lines 224 to 233: the identifiers of the posts published before. *)
Definition load_published_ids : M World (gset string) :=
  let* present := published_exists in
  if present then
    try_except
      (let* published_posts := load_published in
       ret (list_to_set (map id published_posts)))
      (fun e =>
         let* _ := print ("Error loading published posts: " +:+ e) in
         ret ∅)
  else ret ∅.

(** Lines 252 to 264: the ledger file rewritten when something was
    published.  [all_published_posts] is the list [newly_published] itself,
    not a copy, so extending it extends [newly_published]: what is returned
    is [newly_published] as the block leaves it. *)
Definition update_published (newly_published : list Post) : M World (list Post) :=
  match newly_published with
  | [] => ret newly_published
  | _ =>
      let* present := published_exists in
      let* all_published_posts :=
        if present then
          try_except
            (let* existing_published := load_published in
             ret (newly_published ++ existing_published))
            (fun e =>
               let* _ := print ("Error reading existing published posts: " +:+ e) in
               ret newly_published)
        else ret newly_published in
      let* _ := write_published all_published_posts in
      ret all_published_posts
  end.

(** Lines 204 to 206 of [main]: the refusal to run. *)
Definition refuse : M World unit :=
  let* _ := print "Error: WordPress credentials not provided in environment variables." in
  print "Please set WP_USERNAME, WP_PASSWORD, and WP_API_URL.".

(** Lines 208 to 266 of [main]: what it does once the three credentials
    are there. *)
Definition publish_all (username password api_url0 : string) : M World unit :=
  let api_url := normalize_api_url api_url0 in
  let* loaded :=
    try_except
      (let* l := load_posts in ret (Some l))
      (fun e => let* _ := print ("Error loading posts: " +:+ e) in ret None) in
  match loaded with
  | None => ret tt
  | Some all_posts =>
      let* _ := print ("Found " +:+ Py.str_nat (length all_posts)
                       +:+ " posts to publish") in
      let* published_post_ids := load_published_ids in
      let* r := publish_loop all_posts published_post_ids [] api_url username
                             password in
      let* newly_published := update_published (snd r) in
      print ("Published " +:+ Py.str_nat (length newly_published) +:+ " new posts")
  end.

Definition main : M World unit :=
  let* wp_username := getenv "WP_USERNAME" in
  let* wp_password := getenv "WP_PASSWORD" in
  let* wp_api_url := getenv "WP_API_URL" in
  match wp_username, wp_password, wp_api_url with
  | Some username, Some password, Some api_url0 =>
      if Py.truthy username && Py.truthy password && Py.truthy api_url0
      then publish_all username password api_url0
      else refuse
  | _, _, _ => refuse
  end.

End Script.

End PublishToWordpress.

(** * Vocabulary of the properties *)

(** The value a computation returns from a world, when it returns one. *)
Definition value_of {W A} (m : M W A) (w : W) : option A :=
  match fst (m w) with
  | Val a => Some a
  | Exc _ => None
  end.

(** A computation returns this value and leaves this world. *)
Definition returns {W A} (m : M W A) (w : W) (a : A) (w' : W) : Prop :=
  m w = (Val a, w').

(** The world a computation leaves. *)
Definition world_after {W A} (m : M W A) (w : W) : W := snd (m w).

(** A computation never raises. *)
Definition total {W A} (m : M W A) : Prop :=
  forall w, exists a, fst (m w) = Val a.

(** Whether it returns or raises, a computation leaves a world related to
    the one it started from. *)
Definition preserves {W A} (R : W -> W -> Prop) (m : M W A) : Prop :=
  forall w, R w (snd (m w)).

(** The values a computation returns satisfy a property. *)
Definition yields {W A} (m : M W A) (Q : A -> Prop) : Prop :=
  forall w a w', m w = (Val a, w') -> Q a.

Module GenerateVocabulary.

(** The full document behind a link cannot be had at the n-th request: the
    link is missing, the request raises, the status is an error, or the
    document cannot be parsed and converted. *)
Definition document_fails (http_get : nat -> string -> HttpReply)
    (html_to_markdown : string -> option string)
    (link : option string) (n : nat) : Prop :=
  match link with
  | None => True
  | Some u =>
      match http_get n u with
      | ConnectionError _ => True
      | Response st txt => is_http_error st = true \/ html_to_markdown txt = None
      end
  end.

Definition empty_world : GeneratePosts.World :=
  GeneratePosts.mkWorld ∅ ∅ None [] [] 0 [].

Definition sample_article : Article :=
  {| a_title := "Docker 24 released";
     a_link := Some "https://docker.com/blog/a";
     a_published := "2024-01-15 10:00:00";
     a_summary := "Docker 24 is out.";
     a_image_url := None;
     a_source := "https://www.docker.com/blog/feed/";
     a_local_image := None |}.

Definition noon : DateTime := mkDateTime 2024 1 15 12 0 0.

Definition unreachable : nat -> string -> HttpReply :=
  fun _ _ => ConnectionError "connection timed out".

End GenerateVocabulary.

Module FetchVocabulary.

Import FetchNews.

Definition empty_world : World := mkWorld ∅ ∅ None [] [] 0.

(** The world with one more line printed. *)
Definition warned (w : World) (line : string) : World :=
  with_stdout w (stdout w ++ [line]).

(** What [fetch_rss_feed] or [fetch_website] does inside its [try], for a
    source. *)
Definition source_try (clock : nat -> DateTime)
    (feedparser_parse : nat -> string -> option (list Entry))
    (http_get : nat -> string -> HttpReply)
    (select_blocks : string -> option (list Block))
    (first_img_src : string -> option string)
    (urljoin : string -> string -> string)
    (source : Source) : M World (list Article) :=
  match s_type source with
  | type_rss => fetch_rss_feed_try clock feedparser_parse first_img_src (s_url source)
  | type_url => fetch_website_try clock http_get select_blocks urljoin (s_url source)
  end.

(** The world with the news file of a category written. *)
Definition filed (category : string) (articles : list Article) (w : World) : World :=
  with_news_files w (<[news_path category := articles]> (news_files w)).

(** The line printed when the [try] of a source raises [e]. *)
Definition source_warning (source : Source) (e : string) : string :=
  match s_type source with
  | type_rss => "Error fetching RSS feed " +:+ s_url source +:+ ": " +:+ e
  | type_url => "Error fetching website " +:+ s_url source +:+ ": " +:+ e
  end.

(** The extension [os.path.splitext] finds in a URL cut at its first
    question mark. *)
Definition url_ext (unquote : string -> string) (u : string) : string :=
  snd (OsPath.splitext (unquote (Py.before_first "?" u))).

(** Sample answers of the outside world. *)
Definition noon : DateTime := mkDateTime 2024 1 15 12 0 0.
Definition no_feed : nat -> string -> option (list Entry) := fun _ _ => None.
Definition empty_feeds : nat -> string -> option (list Entry) := fun _ _ => Some [].
Definition no_page : nat -> string -> HttpReply :=
  fun _ _ => ConnectionError "connection refused".
Definition no_blocks : string -> option (list Block) := fun _ => None.
Definition no_img : string -> option string := fun _ => None.
Definition plain_join : string -> string -> string := fun base x => base +:+ x.
Definition same : string -> string := fun x => x.
Definition fixed_digest : string -> string :=
  fun _ => "8b1a9953c4611296a827abf8c47804d7".
Definition one_chunk : nat -> string -> StreamReply :=
  fun _ _ => Stream 200 ["PNG"] None.
Definition broken_stream : nat -> string -> StreamReply :=
  fun _ _ => Stream 200 ["PN"] (Some "connection reset").
Definition docker_feed : Source := mkSource type_rss "https://www.docker.com/blog/feed/".
Definition docker_blog : Source := mkSource type_url "https://www.docker.com/blog/".
Definition image_url : string := "https://x.com/img.png?v=2".

End FetchVocabulary.

Module PublishVocabulary.

Import PublishToWordpress.

(** The entries of a JSON file of posts: those it loads as, none when it
    is missing or cannot be read. *)
Definition entries (f : option (Json (list Post))) : list Post :=
  match f with
  | Some (Loaded l) => l
  | _ => []
  end.

(** The ledger: the entries of [data/published_posts.json]; and the posts to
    publish: the entries of [data/posts.json]. *)
Definition ledger (w : World) : list Post := entries (published_posts_json w).
Definition posts_to_publish (w : World) : list Post := entries (posts_json w).

(** The three credentials, when all of them are set and none is empty. *)
Definition credentials (w : World) : option (string * string * string) :=
  match environ w !! "WP_USERNAME", environ w !! "WP_PASSWORD",
        environ w !! "WP_API_URL" with
  | Some username, Some password, Some api_url =>
      if Py.truthy username && Py.truthy password && Py.truthy api_url
      then Some (username, password, api_url)
      else None
  | _, _, _ => None
  end.

(** The number of calls of [publish_post_to_wordpress] for a key, and the
    posts of the calls that returned [True]. *)
Definition calls_for (K : string) (l : list (Post * bool)) : nat :=
  count_occ string_dec (map (fun a => id (fst a)) l) K.

Definition successes (l : list (Post * bool)) : list Post :=
  map fst (List.filter snd l).

(** What a call may change besides the requests, the printed lines, the
    clock and the post files: nothing of the environment, of the two JSON
    files, of the other files, of what the file system refuses; and it
    records no attempt. *)
Definition untouched (w w' : World) : Prop :=
  environ w' = environ w
  /\ posts_json w' = posts_json w
  /\ published_posts_json w' = published_posts_json w
  /\ files w' = files w
  /\ attempts w' = attempts w
  /\ write_error w' = write_error w.

(** The attempts of a loop over the posts, from a set of published keys: a
    post is attempted only when its key is not in the set, and a success
    puts the key in the set for the attempts that follow. *)
Inductive loop_trace : gset string -> list (Post * bool) -> Prop :=
| trace_done ids : loop_trace ids []
| trace_failure ids p l :
    id p ∉ ids -> loop_trace ids l -> loop_trace ids ((p, false) :: l)
| trace_success ids p l :
    id p ∉ ids -> loop_trace ({[ id p ]} ∪ ids) l -> loop_trace ids ((p, true) :: l).

(** What a run attempts and what it leaves in the ledger. *)
Definition run_summary (w w' : World) (new : list (Post * bool)) (added : list Post)
  : Prop :=
  environ w' = environ w
  /\ posts_json w' = posts_json w
  /\ attempts w' = attempts w ++ new
  /\ loop_trace (list_to_set (map id (ledger w))) new
  /\ sublist (map fst new) (posts_to_publish w)
  /\ ledger w' = added ++ ledger w
  /\ map id added = map id (successes new).

(** Between two runs [generate_posts.py] rewrites [data/posts.json]. *)
Definition with_posts_json (w : World) (f : option (Json (list Post))) : World :=
  mkWorld (environ w) f (published_posts_json w) (post_files w) (files w) (stdout w)
          (requests w) (ticks w) (attempts w) (write_error w).

(** Several runs of [main], each on the posts file left for it. *)
Fixpoint runs (clock : nat -> DateTime) (remote : nat -> Request -> Reply)
    (b64encode : string -> string) (batches : list (option (Json (list Post))))
    (w : World) : World :=
  match batches with
  | [] => w
  | batch :: rest =>
      runs clock remote b64encode rest
           (world_after (main clock remote b64encode) (with_posts_json w batch))
  end.

(** A credential is missing: the variable is not set, or is empty. *)
Definition missing (w : World) (name : string) : Prop :=
  Py.truthy_opt (environ w !! name) = false.

(** The reply to the request that creates a post is a failure: the call
    raises, or the status is neither 200 nor 201. *)
Definition is_failure (r : Reply) : Prop :=
  match r with
  | NetworkError _ => True
  | HttpResponse st _ _ => is_ok st = false
  end.

(** The two lines printed when a credential is missing. *)
Definition credentials_error : list string :=
  ["Error: WordPress credentials not provided in environment variables.";
   "Please set WP_USERNAME, WP_PASSWORD, and WP_API_URL."].

(** Sample values. *)
Definition noon : DateTime := mkDateTime 2024 1 15 12 0 0.
Definition plain : string -> string := fun x => x.
Definition out_of_order : nat -> Request -> Reply :=
  fun _ _ => HttpResponse 500 "Internal Server Error" None.
Definition accepting : nat -> Request -> Reply :=
  fun _ _ => HttpResponse 201 "Created" (Some (JObject (Some 7%Z) (Some "https://blog/p7"))).

Definition sample_post : Post :=
  {| id := "docker_0_20240115_120000";
     title := "Docker 24 released - Jan 15, 2024";
     content := "Docker 24 is out.";
     excerpt := "Docker 24 is out.";
     featured_image := None;
     featured_image_url := None;
     category := "docker";
     tags := [];
     original_url := Some "https://docker.com/blog/a";
     created_at := "2024-01-15 12:00:00";
     wordpress_id := None;
     wordpress_url := None;
     published_at := None |}.

Definition sample_post_again : Post :=
  {| id := "docker_0_20240115_120000";
     title := "Docker 24 released again - Jan 15, 2024";
     content := "Docker 24 is out.";
     excerpt := "Docker 24 is out.";
     featured_image := None;
     featured_image_url := None;
     category := "docker";
     tags := [];
     original_url := Some "https://docker.com/blog/a";
     created_at := "2024-01-15 12:00:00";
     wordpress_id := None;
     wordpress_url := None;
     published_at := None |}.

Definition configured : gmap string string :=
  <["WP_USERNAME" := "editor"]>
    (<["WP_PASSWORD" := "secret"]> (<["WP_API_URL" := "https://blog/wp-json"]> ∅)).

(** A world with the credentials set, a posts file and no ledger yet. *)
Definition world_with (posts : list Post) : World :=
  mkWorld configured (Some (Loaded posts)) None ∅ ∅ [] [] 0 [] (fun _ => None).

(** The same world with [WP_PASSWORD] unset. *)
Definition world_without_password (posts : list Post) : World :=
  mkWorld (delete "WP_PASSWORD" configured) (Some (Loaded posts)) None ∅ ∅ [] [] 0 []
          (fun _ => None).

End PublishVocabulary.

Module GenerateTerms.

Import GeneratePosts.

(** The articles [main] loads for a category: those of the news file, none
    when the file is missing or cannot be read. *)
Definition articles_of (w : World) (category : string) : list Article :=
  match news_files w !! news_path category with
  | Some (Loaded l) => l
  | _ => []
  end.

(** The number of posts a run generates for a list of categories: up to
    three for each. *)
Definition expected_posts (w : World) (cs : list string) : nat :=
  list_sum (map (fun c => Nat.min 3 (length (articles_of w c))) cs).

(** A string without a given character. *)
Fixpoint lacks (ch : ascii) (s : string) : bool :=
  match s with
  | EmptyString => true
  | String a r => negb (Ascii.eqb a ch) && lacks ch r
  end.

(** What comes after the first [ch]. *)
Fixpoint after_first (ch : ascii) (s : string) : string :=
  match s with
  | EmptyString => EmptyString
  | String a r => if Ascii.eqb a ch then r else after_first ch r
  end.

(** The first two fields of an identifier, cut at the underscores. *)
Definition slot (post_id : string) : string * string :=
  (Py.before_first "_" post_id, Py.before_first "_" (after_first "_" post_id)).

(** The slots of a category that loads [n] articles: the category with the
    indices 0, 1, 2 as far as there are articles. *)
Definition slots_of (category : string) (n : nat) : list (string * string) :=
  map (fun k => (category, Py.str_nat k)) (seq 0 (Nat.min 3 n)).

(** What a call may change besides the printed lines and the requests:
    nothing. *)
Definition quiet (w w' : World) : Prop :=
  news_files w' = news_files w
  /\ post_files w' = post_files w
  /\ posts_json w' = posts_json w
  /\ ticks w' = ticks w
  /\ all_posts w' = all_posts w.

(** The part of an identifier that comes from the clock. *)
Definition stamped (category : string) (k : nat) (p : Post) : Prop :=
  exists t, id p = category +:+ "_" +:+ Py.str_nat k +:+ "_" +:+ t.

(** A world whose news files hold five docker articles and nothing else
    that loads. *)
Definition five_articles : list Article :=
  repeat GenerateVocabulary.sample_article 5.

Definition newsroom : World :=
  mkWorld (<[news_path "docker" := Loaded five_articles]>
             (<[news_path "kubernetes" := Unreadable]> ∅))
          ∅ None [] [] 0 [].

End GenerateTerms.

Module FetchTerms.

Import FetchNews.

(** An entry that has a title and a link, and a block that has a title
    element and a link element. *)
Definition complete (e : Entry) : bool :=
  match e_title e, e_link e with
  | Some _, Some _ => true
  | _, _ => false
  end.

Definition usable (b : Block) : bool :=
  match b_title b, b_link b with
  | Some _, Some _ => true
  | _, _ => false
  end.

(** The image files of [w] are in [w'], with the same bytes. *)
Definition keeps_files (w w' : World) : Prop :=
  forall path data, images w !! path = Some data -> images w' !! path = Some data.

(** The image files of [w] and [w'] differ at most at [path]. *)
Definition only_at (path : string) (w w' : World) : Prop :=
  forall q, q ≠ path -> images w' !! q = images w !! q.

(** An article as [main] leaves it after the download of its image: the
    same article, with or without a local image. *)
Definition same_article (a a' : Article) : Prop :=
  a_title a' = a_title a
  /\ a_link a' = a_link a
  /\ a_published a' = a_published a
  /\ a_summary a' = a_summary a
  /\ a_image_url a' = a_image_url a
  /\ a_source a' = a_source a.

(** Sample values: a feed of three entries, the second without a title. *)
Definition entry_a : Entry :=
  mkEntry (Some "Docker 24") (Some "https://x.com/a") None (Some "out now")
          (Some [Some "https://x.com/img.png?v=2"]) None.
Definition entry_untitled : Entry :=
  mkEntry None (Some "https://x.com/b") None None None None.
Definition good_feed : nat -> string -> option (list Entry) :=
  fun _ _ => Some [entry_a; entry_a].
Definition bad_feed : nat -> string -> option (list Entry) :=
  fun _ _ => Some [entry_a; entry_untitled; entry_a].
Definition nbsp : ascii := "160".
Definition block_a : Block :=
  mkBlock (Some (String nbsp (" Kubernetes 1.30 " +:+ String nbsp "")))
          (Some (Some "/blog/k130")) None None.
Definition block_untitled : Block :=
  mkBlock None (Some (Some "/blog/x")) None None.
Definition page : nat -> string -> HttpReply := fun _ _ => Response 200 "<html>".
Definition blocks : string -> option (list Block) :=
  fun _ => Some [block_a; block_untitled; block_a].
Definition with_image : World :=
  mkWorld (<["data/images/old.png" := "OLD"]> ∅) ∅ None [] [] 0.

End FetchTerms.

Module PublishTerms.

Import PublishToWordpress PublishVocabulary.

(** A request that does not create a post. *)
Definition is_helper (r : Request) : Prop :=
  match r_payload r with
  | PostJson _ => False
  | _ => True
  end.

(** The requests sent between two worlds, none of which creates a post. *)
Definition helpers_only (w w' : World) : Prop :=
  exists l, requests w' = requests w ++ l /\ Forall is_helper l.

(** No request was sent between two worlds. *)
Definition silent (w w' : World) : Prop := requests w' = requests w.

(** The request that searches a category or a tag by name. *)
Definition search_request (b64encode : string -> string)
    (plural name api_url username password : string) : Request :=
  mkRequest GET (api_url +:+ "/wp/v2/" +:+ plural +:+ "?search=" +:+ name)
            (basic_auth b64encode username password) NoPayload.

(** The line the script prints last in a run that got to the posts. *)
Definition report (n : nat) : string :=
  "Published " +:+ Py.str_nat n +:+ " new posts".

(** Sample sites: one that knows the category Docker, one that creates the
    post and answers with a page that is not JSON. *)
Definition knows_docker : nat -> Request -> Reply :=
  fun _ r =>
    match r_method r with
    | GET => HttpResponse 200 "[]" (Some (JItems [("News", 3%Z); ("Docker", 5%Z)]))
    | POST => HttpResponse 201 "{}" (Some (JObject (Some 9%Z) None))
    end.

Definition garbled : nat -> Request -> Reply :=
  fun _ _ => HttpResponse 201 "<html>" None.

(** A world with the credentials set, a posts file and a ledger that
    cannot be read. *)
Definition world_with_broken_ledger (posts : list Post) : World :=
  mkWorld configured (Some (Loaded posts)) (Some Unreadable) ∅ ∅ [] [] 0 []
          (fun _ => None).

(** A world with the credentials set, a posts file and a ledger. *)
Definition world_with_ledger (posts old : list Post) : World :=
  mkWorld configured (Some (Loaded posts)) (Some (Loaded old)) ∅ ∅ [] [] 0 []
          (fun _ => None).

(** A world with the credentials set and a posts file, in which no post
    file can be opened for writing: [data/posts] is not there. *)
Definition world_without_posts_dir (posts : list Post) : World :=
  mkWorld configured (Some (Loaded posts)) None ∅ ∅ [] [] 0 []
          (fun _ => Some "[Errno 2] No such file or directory").

Definition older_post : Post :=
  {| id := "docker_0_20240101_080000";
     title := "Docker 23 released - Jan 01, 2024";
     content := "Docker 23 is out.";
     excerpt := "Docker 23 is out.";
     featured_image := None;
     featured_image_url := None;
     category := "docker";
     tags := [];
     original_url := Some "https://docker.com/blog/z";
     created_at := "2024-01-01 08:00:00";
     wordpress_id := Some 1%Z;
     wordpress_url := Some "https://blog/p1";
     published_at := Some "2024-01-01 08:00:05" |}.

End PublishTerms.

Module PipelineTerms.

(** The posts file [generate_posts.py] leaves is the posts file
    [publish_to_wordpress.py] reads. *)
Definition handed_over (wg : GeneratePosts.World) (wp : PublishToWordpress.World)
  : Prop :=
  PublishToWordpress.posts_json wp
  = option_map Loaded (GeneratePosts.posts_json wg).

(** What a run of [publish_to_wordpress.py] counts in its last line: the
    posts it published and, when there are any, the entries the ledger had. *)
Definition counted (added old : list Post) : nat :=
  match added with
  | [] => 0
  | _ => length added + length old
  end.

End PipelineTerms.

(** * Reasoning about computations *)

Module MonadFacts.

Section Laws.

Context {W : Type}.

Lemma total_ret {A} (a : A) : total (ret (W:=W) a).
Proof. intros w. exists a. reflexivity. Qed.

Lemma total_bind {A B} (m : M W A) (k : A -> M W B) :
  total m -> (forall a, total (k a)) -> total (bind m k).
Proof.
  intros Hm Hk w. unfold bind. destruct (Hm w) as [a Ha].
  destruct (m w) as [[a'|e] w1]; simpl in Ha; [|discriminate].
  apply Hk.
Qed.

Lemma total_try_except {A} (body : M W A) (handler : string -> M W A) :
  (forall e, total (handler e)) -> total (try_except body handler).
Proof.
  intros Hh w. unfold try_except.
  destruct (body w) as [[a|e] w1]; [exists a; reflexivity|apply Hh].
Qed.

Lemma bind_returns {A B} (m : M W A) (k : A -> M W B) (w : W) (a : A) (w' : W) :
  m w = (Val a, w') -> bind m k w = k a w'.
Proof. intros H. unfold bind. rewrite H. reflexivity. Qed.

Lemma total_returns {A} (m : M W A) (w : W) :
  total m -> exists a w', m w = (Val a, w').
Proof.
  intros Hm. destruct (Hm w) as [a Ha].
  destruct (m w) as [[a'|e] w1]; simpl in Ha; [|discriminate].
  eauto.
Qed.

Lemma yields_ret {A} (a : A) (Q : A -> Prop) : Q a -> yields (ret (W:=W) a) Q.
Proof. intros H w a' w' E. inversion E; subst. exact H. Qed.

Lemma yields_raise {A} (e : string) (Q : A -> Prop) : yields (raise (W:=W) e) Q.
Proof. intros w a w' E. discriminate. Qed.

Lemma yields_bind {A B} (m : M W A) (k : A -> M W B) (Q : B -> Prop) :
  (forall a, yields (k a) Q) -> yields (bind m k) Q.
Proof.
  intros Hk w b w' E. unfold bind in E.
  destruct (m w) as [[a|e] w1]; [|discriminate].
  exact (Hk a w1 b w' E).
Qed.

Lemma yields_try_except {A} (body : M W A) (handler : string -> M W A)
    (Q : A -> Prop) :
  yields body Q -> (forall e, yields (handler e) Q) -> yields (try_except body handler) Q.
Proof.
  intros Hb Hh w a w' E. unfold try_except in E.
  destruct (body w) as [[a'|e] w1] eqn:Eb.
  - inversion E; subst. exact (Hb w a w' Eb).
  - exact (Hh e w1 a w' E).
Qed.

Section Frame.

Variable R : W -> W -> Prop.
Hypothesis R_refl : forall w, R w w.
Hypothesis R_trans : forall w1 w2 w3, R w1 w2 -> R w2 w3 -> R w1 w3.

Lemma preserves_ret {A} (a : A) : preserves R (ret a).
Proof. intros w. apply R_refl. Qed.

Lemma preserves_raise {A} (e : string) : preserves R (raise (A:=A) e).
Proof. intros w. apply R_refl. Qed.

Lemma preserves_bind {A B} (m : M W A) (k : A -> M W B) :
  preserves R m -> (forall a, preserves R (k a)) -> preserves R (bind m k).
Proof.
  intros Hm Hk w. unfold bind. specialize (Hm w).
  destruct (m w) as [[a|e] w1]; simpl in *; [|exact Hm].
  exact (R_trans _ _ _ Hm (Hk a w1)).
Qed.

Lemma preserves_try_except {A} (body : M W A) (handler : string -> M W A) :
  preserves R body -> (forall e, preserves R (handler e)) ->
  preserves R (try_except body handler).
Proof.
  intros Hb Hh w. unfold try_except. specialize (Hb w).
  destruct (body w) as [[a|e] w1]; simpl in *; [exact Hb|].
  exact (R_trans _ _ _ Hb (Hh e w1)).
Qed.

Lemma preserves_for_each {A} (l : list A) (body : A -> M W unit) :
  (forall x, preserves R (body x)) -> preserves R (for_each l body).
Proof.
  intros Hb. induction l as [|x l IH]; simpl.
  - apply preserves_ret.
  - apply preserves_bind; [apply Hb|intros _; exact IH].
Qed.

End Frame.

End Laws.

End MonadFacts.

(** * Properties of scripts/generate_posts.py *)

Module GenerateFacts.

Import GeneratePosts GenerateVocabulary.

Section Facts.

Variable clock : nat -> DateTime.
Variable http_get : nat -> string -> HttpReply.
Variable html_to_markdown : string -> option string.

Abbreviation get_article_content := (get_article_content http_get html_to_markdown).
Abbreviation generate_post_content := (generate_post_content http_get html_to_markdown).
Abbreviation create_post_from_article :=
  (create_post_from_article clock http_get html_to_markdown).
Abbreviation document_fails := (document_fails http_get html_to_markdown).

(** Extraction never raises, reads no clock and writes no file. *)
Lemma get_article_content_returns (link : option string) (w : World) :
  exists r w', returns (get_article_content link) w r w'
               /\ ticks w' = ticks w /\ post_files w' = post_files w.
Proof.
  unfold returns, GeneratePosts.get_article_content, try_except, bind,
    requests_get, raise_for_status, parse_and_convert, print, ret, raise.
  destruct link as [u|]; simpl.
  - destruct (http_get (length (requested w)) u) as [e|st txt]; simpl.
    + eauto.
    + destruct (is_http_error st); simpl; [eauto|].
      destruct (html_to_markdown txt); simpl; eauto.
  - eauto.
Qed.

(** When the document cannot be had, extraction returns [None]. *)
Lemma get_article_content_absent (link : option string) (w : World) :
  document_fails link (length (requested w)) ->
  exists w', returns (get_article_content link) w None w'
             /\ ticks w' = ticks w /\ post_files w' = post_files w.
Proof.
  unfold GenerateVocabulary.document_fails, returns,
    GeneratePosts.get_article_content, try_except, bind,
    requests_get, raise_for_status, parse_and_convert, print, ret, raise.
  destruct link as [u|]; simpl.
  - destruct (http_get (length (requested w)) u) as [e|st txt]; simpl.
    + eauto.
    + intros [Hst|Hmd].
      * rewrite Hst. simpl. eauto.
      * destruct (is_http_error st); simpl; [eauto|].
        rewrite Hmd. simpl. eauto.
  - eauto.
Qed.

(** The body is the text the extraction gave, or the summary, followed by
    the footer. *)
Lemma generate_post_content_returns (a : Article) (category : string) (w : World) :
  exists body w', returns (generate_post_content a category) w body w'
                  /\ ticks w' = ticks w /\ post_files w' = post_files w.
Proof.
  destruct (get_article_content_returns (a_link a) w) as (r & w1 & Hr & Ht & Hf).
  unfold returns in *.
  unfold GeneratePosts.generate_post_content, bind. rewrite Hr.
  unfold ret. eauto.
Qed.

Lemma generate_post_content_fallback (a : Article) (category : string) (w : World) :
  document_fails (a_link a) (length (requested w)) ->
  exists w', returns (generate_post_content a category) w
                     (a_summary a +:+ footer a category) w'
             /\ ticks w' = ticks w /\ post_files w' = post_files w.
Proof.
  intros H.
  destruct (get_article_content_absent (a_link a) w H) as (w1 & Hr & Ht & Hf).
  unfold returns in *.
  unfold GeneratePosts.generate_post_content, bind. rewrite Hr.
  unfold ret. simpl. eauto.
Qed.

(** C2, as amended: the identifier of a post is the category, the position
    of the item in the batch and the second clock reading of the call,
    joined by underscores.  The call always returns a post, the link of the
    article is kept in [original_url], and the identifier mentions neither
    the link nor any other field of the article. *)
Theorem post_id_of_category_index_clock (a : Article) (category : string)
    (index : nat) (w : World) :
  exists p w',
    returns (create_post_from_article a category index) w p w'
    /\ id p = category +:+ "_" +:+ Py.str_nat index +:+ "_"
              +:+ Strftime.compact (clock (S (ticks w)))
    /\ original_url p = a_link a.
Proof.
  destruct (generate_post_content_returns a category
              (with_ticks w (S (ticks w)))) as (body & w1 & Hb & Ht & _).
  unfold returns in *.
  unfold GeneratePosts.create_post_from_article, format_post_title, bind,
    datetime_now, ret, save_post.
  simpl in *. rewrite Hb. simpl. rewrite Ht.
  eexists _, _. split; [reflexivity|]. simpl. auto.
Qed.

(** C3: the post built for the category docker carries the three base tags
    only, while the footer of its body names the three docker tags too. *)
Theorem docker_post_tags_lack_extras (a : Article) (index : nat) (w : World) :
  exists p w',
    returns (create_post_from_article a "docker" index) w p w'
    /\ tags p = ["docker"; "container"; "cloud-native"]
    /\ footer_tags "docker"
       = ["docker"; "container"; "cloud-native";
          "containers"; "dockerhub"; "docker-compose"]
    /\ ~ In "dockerhub" (tags p).
Proof.
  destruct (generate_post_content_returns a "docker"
              (with_ticks w (S (ticks w)))) as (body & w1 & Hb & Ht & _).
  unfold returns in *.
  unfold GeneratePosts.create_post_from_article, format_post_title, bind,
    datetime_now, ret, save_post.
  simpl in *. rewrite Hb. simpl.
  eexists _, _. split; [reflexivity|]. simpl.
  repeat split; try reflexivity.
  intros [H|[H|[H|[]]]]; discriminate H.
Qed.

(** C6: when the full document behind the link of an article cannot be
    fetched or parsed, extraction returns [None] without raising, and the
    post is still built and saved: its body is the summary followed by the
    footer, its excerpt is the summary. *)
Theorem unreachable_link_falls_back_to_summary (a : Article) (category : string)
    (index : nat) (w : World) :
  document_fails (a_link a) (length (requested w)) ->
  (exists w1, returns (get_article_content (a_link a)) w None w1)
  /\ exists p w',
      returns (create_post_from_article a category index) w p w'
      /\ content p = a_summary a +:+ footer a category
      /\ excerpt p = a_summary a
      /\ post_files w' !! post_path (id p) = Some p.
Proof.
  intros H. split.
  - destruct (get_article_content_absent (a_link a) w H) as (w1 & Hr & _).
    eauto.
  - destruct (generate_post_content_fallback a category
                (with_ticks w (S (ticks w))) H) as (w1 & Hb & Ht & Hf).
    unfold returns in *.
    unfold GeneratePosts.create_post_from_article, format_post_title, bind,
      datetime_now, ret, save_post.
    simpl in *. rewrite Hb. simpl.
    eexists _, _. split; [reflexivity|]. simpl.
    repeat split; try reflexivity.
    apply lookup_insert_eq.
Qed.

End Facts.

End GenerateFacts.

Module GenerateExamples.

Import GeneratePosts GenerateVocabulary.

(** C2, refuted as stated: the same article, with the same link, gets a
    different identifier at another position of the batch, and a different
    one again when the clock has moved by a second. *)
Lemma same_link_different_identity_keys :
  let run index t :=
    option_map id
      (value_of (create_post_from_article (fun _ => t) unreachable (fun _ => None)
                                          sample_article "docker" index)
                empty_world) in
  run 0 noon = Some "docker_0_20240115_120000"
  /\ run 1 noon = Some "docker_1_20240115_120000"
  /\ run 0 (mkDateTime 2024 1 15 12 0 1) = Some "docker_0_20240115_120001"
  /\ run 0 noon <> run 1 noon
  /\ run 0 noon <> run 0 (mkDateTime 2024 1 15 12 0 1).
Proof.
  vm_compute. repeat split; discriminate.
Qed.

(** The article of the example, its link unreachable: the post is built
    from the summary. *)
Lemma unreachable_link_witness :
  document_fails unreachable (fun _ => None) (a_link sample_article)
                 (length (requested empty_world))
  /\ ((exists w1,
         returns (get_article_content unreachable (fun _ => None)
                                      (a_link sample_article))
                 empty_world None w1)
      /\ exists p w',
          returns (create_post_from_article (fun _ => noon) unreachable
                     (fun _ => None) sample_article "docker" 0)
                  empty_world p w'
          /\ content p = a_summary sample_article +:+ footer sample_article "docker"
          /\ excerpt p = a_summary sample_article
          /\ post_files w' !! post_path (id p) = Some p).
Proof.
  split.
  - simpl. exact I.
  - apply (GenerateFacts.unreachable_link_falls_back_to_summary
             (fun _ => noon) unreachable (fun _ => None)
             sample_article "docker" 0 empty_world).
    simpl. exact I.
Defined.

End GenerateExamples.

(** * Properties of scripts/fetch_news.py *)

Module FetchFacts.

Import FetchNews FetchVocabulary.

Section Facts.

Variable clock : nat -> DateTime.
Variable feedparser_parse : nat -> string -> option (list Entry).
Variable http_get : nat -> string -> HttpReply.
Variable http_get_stream : nat -> string -> StreamReply.
Variable select_blocks : string -> option (list Block).
Variable first_img_src : string -> option string.
Variable urljoin : string -> string -> string.
Variable unquote : string -> string.
Variable md5_hex : string -> string.

Abbreviation fetch_rss_feed := (fetch_rss_feed clock feedparser_parse first_img_src).
Abbreviation fetch_website := (fetch_website clock http_get select_blocks urljoin).
Abbreviation image_ext := (image_ext unquote).
Abbreviation image_path := (image_path unquote md5_hex).
Abbreviation fetch_to_file := (fetch_to_file http_get_stream).
Abbreviation download_image := (download_image http_get_stream unquote md5_hex).
Abbreviation attach_image := (attach_image http_get_stream unquote md5_hex).
Abbreviation attach_images := (attach_images http_get_stream unquote md5_hex).
Abbreviation fetch_source :=
  (fetch_source clock feedparser_parse http_get http_get_stream select_blocks
                first_img_src urljoin unquote md5_hex).
Abbreviation fetch_sources :=
  (fetch_sources clock feedparser_parse http_get http_get_stream select_blocks
                 first_img_src urljoin unquote md5_hex).
Abbreviation fetch_categories :=
  (fetch_categories clock feedparser_parse http_get http_get_stream select_blocks
                    first_img_src urljoin unquote md5_hex).
Abbreviation main :=
  (main clock feedparser_parse http_get http_get_stream select_blocks
        first_img_src urljoin unquote md5_hex).
Abbreviation source_try :=
  (source_try clock feedparser_parse http_get select_blocks first_img_src urljoin).

(** ** The bound on the articles of a source *)

Lemma collect_length {A} (f : A -> M World (option Article)) (l : list A)
    (w : World) (r : list Article) (w' : World) :
  collect l f w = (Val r, w') -> (length r <= length l)%nat.
Proof.
  revert w r w'. induction l as [|x l IH]; intros w r w' H.
  - inversion H. simpl. lia.
  - simpl in H. unfold bind in H.
    destruct (f x w) as [[a|e] w1]; [|discriminate].
    destruct (collect l f w1) as [[rest|e] w2] eqn:E; [|discriminate].
    apply IH in E. inversion H; subst.
    destruct a; simpl; lia.
Qed.

Lemma firstn_10_length {A} (l : list A) : (length (firstn 10 l) <= 10)%nat.
Proof. rewrite length_firstn. lia. Qed.

Lemma fetch_rss_feed_returns (u : string) (w : World) :
  exists l w', returns (fetch_rss_feed u) w l w' /\ (length l <= 10)%nat.
Proof.
  unfold returns, FetchNews.fetch_rss_feed, try_except.
  destruct (fetch_rss_feed_try clock feedparser_parse first_img_src u w)
    as [[l|e] w1] eqn:E.
  - exists l, w1. split; [reflexivity|].
    unfold fetch_rss_feed_try, bind, parse_feed in E.
    destruct (feedparser_parse (length (requested w)) u) as [entries|];
      [|discriminate].
    apply collect_length in E. pose proof (firstn_10_length entries). lia.
  - unfold bind, print, ret. simpl. eexists _, _. split; [reflexivity|].
    simpl. lia.
Qed.

Lemma fetch_website_returns (u : string) (w : World) :
  exists l w', returns (fetch_website u) w l w' /\ (length l <= 10)%nat.
Proof.
  unfold returns, FetchNews.fetch_website, try_except.
  destruct (fetch_website_try clock http_get select_blocks urljoin u w)
    as [[l|e] w1] eqn:E.
  - exists l, w1. split; [reflexivity|].
    unfold fetch_website_try, bind, requests_get, raise_for_status, parse_page in E.
    destruct (http_get (length (requested w)) u) as [e|st txt]; [discriminate|].
    simpl in E. destruct (is_http_error st); [discriminate|].
    unfold ret in E. simpl in E.
    destruct (select_blocks txt) as [blocks|]; [|discriminate].
    unfold ret in E.
    apply collect_length in E. pose proof (firstn_10_length blocks). lia.
  - unfold bind, print, ret. simpl. eexists _, _. split; [reflexivity|].
    simpl. lia.
Qed.

(** ** Downloads never raise *)

Lemma download_image_returns (u : option string) (category title : string)
    (w : World) :
  exists r w', returns (download_image u category title) w r w'.
Proof.
  unfold returns, FetchNews.download_image.
  destruct u as [u|]; [|unfold ret; eauto].
  destruct (Py.truthy u); simpl; [|unfold ret; eauto].
  unfold try_except, bind, path_exists.
  destruct (bool_decide (is_Some (images w !! image_path title u))); simpl.
  - unfold ret. eauto.
  - destruct (fetch_to_file u (image_path title u) w) as [[[]|e] w1];
      unfold ret, print; simpl; eauto.
Qed.

Lemma attach_image_returns (category : string) (a : Article) (w : World) :
  exists a' w', returns (attach_image category a) w a' w'.
Proof.
  unfold returns, FetchNews.attach_image.
  destruct (Py.truthy_opt (a_image_url a)); [|unfold ret; eauto].
  unfold bind.
  destruct (download_image_returns (a_image_url a) category (a_title a) w)
    as (r & w1 & Hr).
  unfold returns in Hr. rewrite Hr. unfold ret. eauto.
Qed.

Lemma attach_images_returns (category : string) (l : list Article) (w : World) :
  exists l' w', returns (attach_images category l) w l' w' /\ length l' = length l.
Proof.
  revert w. induction l as [|a l IH]; intros w; unfold returns in *; simpl.
  - unfold ret. eauto.
  - unfold bind.
    destruct (attach_image_returns category a w) as (a' & w1 & Ha).
    unfold returns in Ha. rewrite Ha.
    destruct (IH w1) as (l' & w2 & Hl & Hlen). rewrite Hl.
    unfold ret. eexists _, _. split; [reflexivity|]. simpl. lia.
Qed.

Lemma fetch_source_returns (category : string) (source : Source) (w : World) :
  exists l w', returns (fetch_source category source) w l w'
               /\ (length l <= 10)%nat.
Proof.
  unfold returns, FetchNews.fetch_source, bind.
  assert (exists l w1,
            (match s_type source with
             | type_rss => fetch_rss_feed (s_url source)
             | type_url => fetch_website (s_url source)
             end) w = (Val l, w1) /\ (length l <= 10)%nat) as (l & w1 & Hl & Hlen).
  { destruct (s_type source);
      [apply fetch_rss_feed_returns | apply fetch_website_returns]. }
  rewrite Hl.
  destruct (attach_images_returns category l w1) as (l' & w2 & Hl' & Hlen').
  unfold returns in Hl'. rewrite Hl'. exists l', w2. split; [reflexivity|lia].
Qed.

(** C4: whatever the feed or the page holds, reading a source returns, and
    returns at most 10 articles: from [fetch_rss_feed], from [fetch_website],
    and after the images of the articles have been attached. *)
Theorem source_returns_at_most_ten (category : string) (source : Source)
    (w : World) :
  (exists l w', returns (fetch_rss_feed (s_url source)) w l w'
                /\ (length l <= 10)%nat)
  /\ (exists l w', returns (fetch_website (s_url source)) w l w'
                   /\ (length l <= 10)%nat)
  /\ (exists l w', returns (fetch_source category source) w l w'
                   /\ (length l <= 10)%nat).
Proof.
  split; [apply fetch_rss_feed_returns|].
  split; [apply fetch_website_returns|apply fetch_source_returns].
Qed.

(** ** A source that fails *)

Lemma fetch_sources_returns (category : string) (sources : list Source) (w : World) :
  exists l w', returns (fetch_sources category sources) w l w'.
Proof.
  revert w. induction sources as [|source rest IH]; intros w;
    unfold returns in *; simpl.
  - unfold ret. eauto.
  - unfold bind.
    destruct (fetch_source_returns category source w) as (l & w1 & Hl & _).
    unfold returns in Hl. rewrite Hl.
    destruct (IH w1) as (l' & w2 & Hl'). rewrite Hl'.
    unfold ret. eauto.
Qed.

Lemma fetch_categories_returns (cs : list (string * list Source)) (w : World) :
  exists r w', returns (fetch_categories cs) w r w'.
Proof.
  revert w. induction cs as [|[category sources] rest IH]; intros w;
    unfold returns in *; simpl.
  - unfold ret. eauto.
  - unfold bind.
    destruct (fetch_sources_returns category sources w) as (l & w1 & Hl).
    unfold returns in Hl. rewrite Hl. unfold save_news.
    destruct (IH (with_news_files w1 (<[news_path category := l]> (news_files w1))))
      as (r & w2 & Hr).
    rewrite Hr. unfold ret. eauto.
Qed.

(** What [try] turns a raised exception into. *)
Lemma source_try_raises (source : Source) (w : World) (e : string) (w1 : World) :
  source_try source w = (Exc e, w1) ->
  (match s_type source with
   | type_rss => fetch_rss_feed (s_url source)
   | type_url => fetch_website (s_url source)
   end) w = (Val [], warned w1 (source_warning source e)).
Proof.
  unfold FetchVocabulary.source_try, source_warning, warned.
  destruct (s_type source); intros H;
    unfold FetchNews.fetch_rss_feed, FetchNews.fetch_website, try_except;
    rewrite H; reflexivity.
Qed.

Lemma fetch_sources_app (category : string) (a b : list Source) :
  forall (w0 : World) (la : list Article) (w : World) (lb : list Article)
         (w' : World),
    returns (fetch_sources category a) w0 la w ->
    returns (fetch_sources category b) w lb w' ->
    returns (fetch_sources category (a ++ b)) w0 (la ++ lb) w'.
Proof.
  unfold returns. induction a as [|s a IH]; intros w0 la w lb w' Ha Hb.
  - inversion Ha; subst. exact Hb.
  - simpl in *. unfold bind in *.
    destruct (fetch_source category s w0) as [[sa|e0] wa]; [|discriminate].
    destruct (fetch_sources category a wa) as [[oa|e0] wb] eqn:Hoa; [|discriminate].
    inversion Ha; subst.
    rewrite (IH wa oa w lb w' Hoa Hb). unfold ret. rewrite app_assoc. reflexivity.
Qed.

Lemma fetch_categories_app (cs1 cs2 : list (string * list Source)) :
  forall (w0 : World) (r1 : list (string * list Article)) (w : World)
         (r2 : list (string * list Article)) (w' : World),
    returns (fetch_categories cs1) w0 r1 w ->
    returns (fetch_categories cs2) w r2 w' ->
    returns (fetch_categories (cs1 ++ cs2)) w0 (r1 ++ r2) w'.
Proof.
  unfold returns. induction cs1 as [|[c ss] cs1 IH]; intros w0 r1 w r2 w' H1 H2.
  - inversion H1; subst. exact H2.
  - simpl in *. unfold bind in *.
    destruct (fetch_sources c ss w0) as [[l|e0] wa]; [|discriminate].
    unfold save_news in *.
    destruct (fetch_categories cs1 (with_news_files wa _)) as [[o|e0] wb] eqn:Ho;
      [|discriminate].
    inversion H1; subst.
    rewrite (IH _ o w r2 w' Ho H2). reflexivity.
Qed.

(** C5: a source is reached in a run, after the categories [cs1] and the
    sources [before] of its category, and what it does inside its [try]
    raises, whatever the exception.  Then the source yields no article and
    one more printed line, and the files are as the failed attempt left them.
    The sources that remain are read from there as if the source had not
    been: the category gets the articles of the sources before and after, its
    news file is written, the categories that remain are read, and when these
    are the sources of the script, [main] returns with all of them in
    [data/all_news.json]. *)
Theorem failing_source_is_isolated (category : string) (source : Source)
    (before rest : list Source) (cs1 cs2 : list (string * list Source))
    (w00 w0 w : World) (r1 : list (string * list Article)) (l0 : list Article)
    (e : string) (w1 : World) :
  returns (fetch_categories cs1) w00 r1 w0 ->
  returns (fetch_sources category before) w0 l0 w ->
  source_try source w = (Exc e, w1) ->
  let w2 := warned w1 (source_warning source e) in
  returns (fetch_source category source) w [] w2
  /\ images w2 = images w1
  /\ fetch_sources category (source :: rest) w = fetch_sources category rest w2
  /\ exists l w3 r2 w4,
      returns (fetch_sources category rest) w2 l w3
      /\ returns (fetch_sources category (before ++ source :: rest)) w0 (l0 ++ l) w3
      /\ returns (fetch_categories cs2) (filed category (l0 ++ l) w3) r2 w4
      /\ returns (fetch_categories
                    (cs1 ++ (category, before ++ source :: rest) :: cs2))
                 w00 (r1 ++ (category, l0 ++ l) :: r2) w4
      /\ (SOURCES = cs1 ++ (category, before ++ source :: rest) :: cs2 ->
          exists w5,
            returns main w00 tt w5
            /\ all_news w5 = Some (r1 ++ (category, l0 ++ l) :: r2)
            /\ news_files w5 = news_files w4
            /\ requested w5 = requested w4).
Proof.
  intros H1 H2 H w2.
  assert (Hs : fetch_source category source w = (Val [], w2)).
  { unfold FetchNews.fetch_source, bind.
    rewrite (source_try_raises source w e w1 H). reflexivity. }
  assert (He : fetch_sources category (source :: rest) w
               = fetch_sources category rest w2).
  { simpl. unfold bind at 1. rewrite Hs. unfold bind.
    destruct (fetch_sources category rest w2) as [[l|e'] w3]; reflexivity. }
  split; [exact Hs|]. split; [reflexivity|]. split; [exact He|].
  destruct (fetch_sources_returns category rest w2) as (l & w3 & Hl).
  destruct (fetch_categories_returns cs2 (filed category (l0 ++ l) w3))
    as (r2 & w4 & Hr2).
  assert (Hall : returns (fetch_sources category (before ++ source :: rest))
                         w0 (l0 ++ l) w3).
  { apply (fetch_sources_app category before (source :: rest) w0 l0 w l w3 H2).
    unfold returns. rewrite He. exact Hl. }
  assert (Hcs : returns (fetch_categories
                           (cs1 ++ (category, before ++ source :: rest) :: cs2))
                        w00 (r1 ++ (category, l0 ++ l) :: r2) w4).
  { apply (fetch_categories_app cs1 _ w00 r1 w0 _ w4 H1).
    unfold returns in *. cbn [FetchNews.fetch_categories]. unfold bind at 1.
    rewrite Hall. unfold bind at 1, save_news at 1. unfold bind at 1.
    unfold filed in Hr2. rewrite Hr2. reflexivity. }
  exists l, w3, r2, w4.
  split; [exact Hl|]. split; [exact Hall|]. split; [exact Hr2|].
  split; [exact Hcs|].
  intros HS. unfold returns in *. unfold FetchNews.main. rewrite HS.
  unfold bind at 1. rewrite Hcs. eexists. split; [reflexivity|].
  repeat split.
Qed.

(** ** The image cache *)

Lemma write_chunks_keep (path : string) (chunks : list string) (w : World) :
  is_Some (images w !! path) ->
  exists w', for_each chunks (write_chunk path) w = (Val tt, w')
             /\ is_Some (images w' !! path).
Proof.
  revert w. induction chunks as [|c chunks IH]; intros w H; simpl.
  - unfold ret. eauto.
  - unfold bind, write_chunk at 1. simpl.
    apply IH. simpl. rewrite lookup_insert_eq. eauto.
Qed.

(** A download that does not raise leaves a file at the path. *)
Lemma fetch_to_file_creates (u path : string) (w w' : World) :
  fetch_to_file u path w = (Val tt, w') -> is_Some (images w' !! path).
Proof.
  unfold FetchNews.fetch_to_file.
  destruct (http_get_stream (length (requested w)) u) as [e|st chunks breaks];
    [discriminate|].
  unfold bind, raise_for_status.
  destruct (is_http_error st); [discriminate|]. unfold ret, open_wb. simpl.
  set (w0 := with_images _ _).
  destruct (write_chunks_keep path chunks w0) as (w3 & Hw & Hs).
  { subst w0. simpl. rewrite lookup_insert_eq. eauto. }
  rewrite Hw. destruct breaks; [discriminate|].
  unfold ret. intros H. inversion H; subst. exact Hs.
Qed.

Lemma download_image_cached (u category title : string) (w : World) :
  Py.truthy u = true ->
  is_Some (images w !! image_path title u) ->
  download_image (Some u) category title w = (Val (Some (image_path title u)), w).
Proof.
  intros Hu Hs. unfold FetchNews.download_image. rewrite Hu. simpl.
  unfold try_except, bind, path_exists.
  rewrite (bool_decide_eq_true_2 _ Hs). reflexivity.
Qed.

(** A call that returns a path returns the computed one and leaves a file
    there. *)
Lemma download_image_some (u category title : string) (w : World) (p : string)
    (w' : World) :
  returns (download_image (Some u) category title) w (Some p) w' ->
  Py.truthy u = true /\ p = image_path title u /\ is_Some (images w' !! p).
Proof.
  unfold returns, FetchNews.download_image.
  destruct (Py.truthy u); simpl; [|discriminate].
  unfold try_except, bind, path_exists.
  destruct (bool_decide (is_Some (images w !! image_path title u))) eqn:Hb; simpl.
  - unfold ret. intros H. inversion H; subst.
    apply bool_decide_eq_true_1 in Hb. auto.
  - destruct (fetch_to_file u (image_path title u) w) as [[[]|e] w1] eqn:Hf;
      unfold ret, print; simpl; intros H; inversion H; subst.
    apply fetch_to_file_creates in Hf. auto.
Qed.

(** C7: for a title and a non-empty URL, the file name is the digest of
    the title, an underscore and the URL, followed by the extension; the
    extension is the one found in the URL cut at its question mark when it
    has 1 to 5 characters, and [.jpg] otherwise; whatever the world and the
    category, a call that returns a path returns this one; when the file is
    there the call returns the path and leaves the world, requests included,
    as it was; so a second call after one that returned a path returns the
    same path and requests nothing. *)
Theorem cached_image_is_not_fetched_again (u title category : string) (w : World) :
  Py.truthy u = true ->
  image_path title u
  = OsPath.join2 "data/images" (md5_hex (title +:+ "_" +:+ u) +:+ image_ext u)
  /\ image_ext u
     = (if (String.length (url_ext unquote u) =? 0)%nat
           || (5 <? String.length (url_ext unquote u))%nat
        then ".jpg" else url_ext unquote u)
  /\ (forall category0 w0 p w1,
        returns (download_image (Some u) category0 title) w0 (Some p) w1 ->
        p = image_path title u)
  /\ (is_Some (images w !! image_path title u) ->
      returns (download_image (Some u) category title) w
              (Some (image_path title u)) w)
  /\ (forall p w1,
        returns (download_image (Some u) category title) w (Some p) w1 ->
        returns (download_image (Some u) category title) w1 (Some p) w1).
Proof.
  intros Hu. split; [reflexivity|]. split.
  { unfold FetchNews.image_ext, url_ext.
    destruct (snd (OsPath.splitext (unquote (Py.before_first "?" u))));
      reflexivity. }
  split.
  { intros category0 w0 p w1 H.
    apply download_image_some in H as (_ & Hp & _). exact Hp. }
  split.
  { intros Hs. apply download_image_cached; assumption. }
  intros p w1 H. apply download_image_some in H as (_ & Hp & Hs). subst p.
  apply download_image_cached; assumption.
Qed.

(** C10: without a URL, [None] or empty, the call returns [None] and the
    world, requests included, is as it was; with any URL the call returns
    and does not raise; and when the download raises, the call returns
    [None] with one more printed line. *)
Theorem absent_url_or_failed_download_gives_none (category title : string)
    (w : World) :
  download_image None category title w = (Val None, w)
  /\ download_image (Some "") category title w = (Val None, w)
  /\ (forall u, exists r w', returns (download_image u category title) w r w')
  /\ (forall u e w1,
        Py.truthy u = true ->
        images w !! image_path title u = None ->
        fetch_to_file u (image_path title u) w = (Exc e, w1) ->
        returns (download_image (Some u) category title) w None
                (warned w1 ("Error downloading image " +:+ u +:+ ": " +:+ e))).
Proof.
  split; [reflexivity|]. split; [reflexivity|]. split.
  { intros u. apply download_image_returns. }
  intros u e w1 Hu Hn Hf.
  unfold returns, FetchNews.download_image. rewrite Hu. simpl.
  unfold try_except, bind, path_exists.
  rewrite bool_decide_eq_false_2.
  2: { rewrite Hn. intros [x Hx]. discriminate. }
  simpl. rewrite Hf. reflexivity.
Qed.

End Facts.

End FetchFacts.

Module FetchExamples.

Import FetchNews FetchVocabulary.

(** The extension of some URLs, [unquote] leaving them as they are. *)
Example image_ext_examples :
  image_ext same "https://x.com/img.png?v=2" = ".png"
  /\ image_ext same "https://x.com/photo.jpeg" = ".jpeg"
  /\ image_ext same "https://x.com/photo.jpeg2" = ".jpg"
  /\ image_ext same "https://x.com/photo" = ".jpg"
  /\ image_ext same "https://x.com/v1.2/photo" = ".jpg".
Proof. vm_compute. repeat split. Qed.

(** A feed with twelve entries gives ten articles. *)
Example twelve_entries_give_ten :
  let entry := mkEntry (Some "t") (Some "https://x.com/a") None None None None in
  option_map (@length Article)
    (value_of (fetch_rss_feed (fun _ => noon) (fun _ _ => Some (repeat entry 12))
                              no_img "https://x.com/feed")
              empty_world)
  = Some 10.
Proof. vm_compute. reflexivity. Qed.

(** The two feeds of docker are read, and the request of the page that
    follows is refused: the page yields nothing, one line is printed, and the
    run goes on to the sources of kubernetes and container. *)
Lemma failing_source_witness :
  let feeds := [mkSource type_rss "https://www.docker.com/blog/feed/";
                mkSource type_rss "https://docs.docker.com/release-notes/feed/"] in
  let later := [("kubernetes",
                 [mkSource type_rss "https://kubernetes.io/feed.xml";
                  mkSource type_rss "https://www.cncf.io/feed/";
                  mkSource type_url "https://kubernetes.io/blog/"]);
                ("container",
                 [mkSource type_rss "https://www.linkedin.com/company/docker/rss";
                  mkSource type_rss
                    "https://www.redhat.com/en/rss/blog/channel/kubernetes"])] in
  let fetch_sources := fetch_sources (fun _ => noon) empty_feeds no_page one_chunk
                         no_blocks no_img plain_join same fixed_digest in
  let fetch_categories := fetch_categories (fun _ => noon) empty_feeds no_page
                            one_chunk no_blocks no_img plain_join same fixed_digest in
  let main := main (fun _ => noon) empty_feeds no_page one_chunk no_blocks no_img
                   plain_join same fixed_digest in
  let w := with_requested empty_world (map s_url feeds) in
  let w1 := with_requested empty_world (map s_url (feeds ++ [docker_blog])) in
  let w2 := warned w1 (source_warning docker_blog "connection refused") in
  returns (fetch_categories []) empty_world [] empty_world
  /\ returns (fetch_sources "docker" feeds) empty_world [] w
  /\ source_try (fun _ => noon) empty_feeds no_page no_blocks no_img plain_join
                docker_blog w = (Exc "connection refused", w1)
  /\ SOURCES = [] ++ ("docker", feeds ++ docker_blog :: []) :: later
  /\ returns (fetch_source (fun _ => noon) empty_feeds no_page one_chunk no_blocks
                           no_img plain_join same fixed_digest "docker" docker_blog)
             w [] w2
  /\ exists w5,
      returns main empty_world tt w5
      /\ all_news w5 = Some [("docker", []); ("kubernetes", []); ("container", [])]
      /\ requested w5 = map s_url (concat (map snd SOURCES)).
Proof.
  intros feeds later fetch_sources fetch_categories main w w1 w2.
  assert (H1 : returns (fetch_categories []) empty_world [] empty_world)
    by reflexivity.
  assert (H2 : returns (fetch_sources "docker" feeds) empty_world [] w)
    by reflexivity.
  assert (H3 : source_try (fun _ => noon) empty_feeds no_page no_blocks no_img
                          plain_join docker_blog w
               = (Exc "connection refused", w1)) by reflexivity.
  assert (HS : SOURCES = [] ++ ("docker", feeds ++ docker_blog :: []) :: later)
    by reflexivity.
  destruct (FetchFacts.failing_source_is_isolated
              (fun _ => noon) empty_feeds no_page one_chunk no_blocks no_img
              plain_join same fixed_digest "docker" docker_blog feeds [] [] later
              empty_world empty_world w [] [] "connection refused" w1 H1 H2 H3)
    as (Hs & _ & _ & l & w3 & r2 & w4 & _ & _ & _ & _ & Hmain).
  destruct (Hmain HS) as (w5 & Hm & _).
  split; [exact H1|]. split; [exact H2|]. split; [exact H3|].
  split; [exact HS|]. split; [exact Hs|].
  exists w5. split; [exact Hm|].
  assert (E : w5 = world_after main empty_world)
    by (unfold world_after, main; unfold returns in Hm; rewrite Hm; reflexivity).
  rewrite E. split; vm_compute; reflexivity.
Defined.

(** The image of the example is requested once over two calls. *)
Lemma cached_image_witness :
  let download := download_image one_chunk same fixed_digest (Some image_url)
                                 "docker" "Hello" in
  let path := "data/images/8b1a9953c4611296a827abf8c47804d7.png" in
  let w1 := world_after download empty_world in
  Py.truthy image_url = true
  /\ returns download empty_world (Some path) w1
  /\ requested w1 = [image_url]
  /\ returns download w1 (Some path) w1.
Proof.
  intros download path w1.
  assert (Hu : Py.truthy image_url = true) by reflexivity.
  assert (H1 : returns download empty_world (Some path) w1) by reflexivity.
  split; [exact Hu|]. split; [exact H1|]. split; [reflexivity|].
  destruct (FetchFacts.cached_image_is_not_fetched_again
              one_chunk same fixed_digest image_url "Hello" "docker" empty_world Hu)
    as (_ & _ & _ & _ & Hagain).
  exact (Hagain path w1 H1).
Defined.

(** A download that breaks off after the first bytes: no path, no
    exception. *)
Lemma failed_download_witness :
  let path := image_path same fixed_digest "Hello" image_url in
  let w1 := world_after (fetch_to_file broken_stream image_url path) empty_world in
  Py.truthy image_url = true
  /\ images empty_world !! path = None
  /\ fetch_to_file broken_stream image_url path empty_world
     = (Exc "connection reset", w1)
  /\ returns (download_image broken_stream same fixed_digest (Some image_url)
                             "docker" "Hello")
             empty_world None
             (warned w1 ("Error downloading image " +:+ image_url +:+ ": "
                         +:+ "connection reset")).
Proof.
  intros path w1.
  assert (Hu : Py.truthy image_url = true) by reflexivity.
  assert (Hn : images empty_world !! path = None) by reflexivity.
  assert (Hf : fetch_to_file broken_stream image_url path empty_world
               = (Exc "connection reset", w1)) by reflexivity.
  split; [exact Hu|]. split; [exact Hn|]. split; [exact Hf|].
  destruct (FetchFacts.absent_url_or_failed_download_gives_none
              broken_stream same fixed_digest "docker" "Hello" empty_world)
    as (_ & _ & _ & Hfail).
  exact (Hfail image_url "connection reset" w1 Hu Hn Hf).
Defined.

End FetchExamples.

(** * Properties of scripts/publish_to_wordpress.py *)

Module PublishFacts.

Import PublishToWordpress PublishVocabulary MonadFacts.

Lemma untouched_refl (w : World) : untouched w w.
Proof. repeat split. Qed.

Lemma untouched_trans (w1 w2 w3 : World) :
  untouched w1 w2 -> untouched w2 w3 -> untouched w1 w3.
Proof.
  unfold untouched.
  intros (E1 & P1 & L1 & F1 & A1 & W1) (E2 & P2 & L2 & F2 & A2 & W2).
  repeat split; congruence.
Qed.

Lemma ubind {A B} (m : M World A) (k : A -> M World B) :
  preserves untouched m -> (forall a, preserves untouched (k a)) ->
  preserves untouched (bind m k).
Proof. apply preserves_bind, untouched_trans. Qed.

Lemma utry {A} (body : M World A) (handler : string -> M World A) :
  preserves untouched body -> (forall e, preserves untouched (handler e)) ->
  preserves untouched (try_except body handler).
Proof. apply preserves_try_except, untouched_trans. Qed.

Lemma uret {A} (a : A) : preserves untouched (ret a).
Proof. apply preserves_ret, untouched_refl. Qed.

Lemma uraise {A} (e : string) : preserves untouched (raise (A:=A) e).
Proof. apply preserves_raise, untouched_refl. Qed.

Section Facts.

Variable clock : nat -> DateTime.
Variable remote : nat -> Request -> Reply.
Variable b64encode : string -> string.

Abbreviation send := (send remote).
Abbreviation datetime_now := (datetime_now clock).
Abbreviation upload_image_to_wordpress := (upload_image_to_wordpress remote b64encode).
Abbreviation get_or_create := (get_or_create remote b64encode).
Abbreviation resolve_tags := (resolve_tags remote b64encode).
Abbreviation prepare_post_data := (prepare_post_data remote b64encode).
Abbreviation create_post_request := (create_post_request b64encode).
Abbreviation publish_post_to_wordpress :=
  (publish_post_to_wordpress clock remote b64encode).
Abbreviation publish_loop := (publish_loop clock remote b64encode).
Abbreviation main := (main clock remote b64encode).
Abbreviation runs := (runs clock remote b64encode).

(** ** What the calls to the site leave untouched *)

Lemma print_untouched (s : string) : preserves untouched (print s).
Proof. intros w. repeat split. Qed.

Lemma datetime_now_untouched : preserves untouched datetime_now.
Proof. intros w. repeat split. Qed.

Lemma path_exists_untouched (path : string) : preserves untouched (path_exists path).
Proof. intros w. repeat split. Qed.

Lemma read_bytes_untouched (path : string) : preserves untouched (read_bytes path).
Proof. intros w. unfold read_bytes. destruct (files w !! path); repeat split. Qed.

Lemma send_untouched (r : Request) : preserves untouched (send r).
Proof.
  intros w. unfold PublishToWordpress.send.
  destruct (remote (length (requests w)) r); repeat split.
Qed.

Lemma save_post_untouched (p : Post) : preserves untouched (save_post p).
Proof.
  intros w. unfold save_post.
  destruct (write_error w (post_path (id p))); repeat split.
Qed.

Lemma json_get_id_untouched (js : option JsonBody) :
  preserves untouched (json_get_id js).
Proof. destruct js as [[]|]; first [apply uret | apply uraise]. Qed.

Lemma json_get_link_untouched (js : option JsonBody) :
  preserves untouched (json_get_link js).
Proof. destruct js as [[]|]; first [apply uret | apply uraise]. Qed.

Lemma json_items_untouched (js : option JsonBody) :
  preserves untouched (json_items js).
Proof.
  destruct js as [[| | |s|]|]; try destruct s; first [apply uret | apply uraise].
Qed.

Ltac frame :=
  repeat first
    [ apply uret | apply uraise
    | apply print_untouched | apply datetime_now_untouched
    | apply path_exists_untouched | apply read_bytes_untouched
    | apply send_untouched | apply save_post_untouched
    | apply json_get_id_untouched | apply json_get_link_untouched
    | apply json_items_untouched
    | apply ubind; [|intros ?]
    | apply utry; [|intros ?]
    | match goal with
      | |- preserves _ (match ?x with _ => _ end) => destruct x
      end ].

Lemma upload_image_untouched (image_path api_url username password : string) :
  preserves untouched (upload_image_to_wordpress image_path api_url username password).
Proof. unfold PublishToWordpress.upload_image_to_wordpress. frame. Qed.

Lemma get_or_create_untouched
    (kind plural name created_name api_url username password : string) :
  preserves untouched
    (get_or_create kind plural name created_name api_url username password).
Proof. unfold PublishToWordpress.get_or_create. frame. Qed.

Lemma resolve_tags_untouched (l : list string) (api_url username password : string) :
  preserves untouched (resolve_tags l api_url username password).
Proof.
  induction l as [|tag l IH]; simpl; [apply uret|].
  apply ubind; [apply get_or_create_untouched|intros tag_id].
  apply ubind; [exact IH|intros rest]. apply uret.
Qed.

Lemma prepare_post_data_untouched (post : Post) (api_url username password : string) :
  preserves untouched (prepare_post_data post api_url username password).
Proof.
  unfold PublishToWordpress.prepare_post_data.
  apply ubind.
  - destruct (featured_image post) as [image|]; [|apply uret].
    destruct (Py.truthy image); [|apply uret].
    apply ubind; [apply path_exists_untouched|intros present].
    destruct present; [|apply uret].
    apply ubind; [apply upload_image_untouched|intros media_id].
    frame.
  - intros featured_media_id.
    apply ubind; [apply get_or_create_untouched|intros category_id].
    apply ubind; [apply resolve_tags_untouched|intros tag_ids]. apply uret.
Qed.

Lemma publish_untouched (post : Post) (api_url username password : string) :
  preserves untouched (publish_post_to_wordpress post api_url username password).
Proof.
  unfold PublishToWordpress.publish_post_to_wordpress, publish_failed.
  apply utry; [|intros e; frame].
  apply ubind; [apply prepare_post_data_untouched|intros post_data].
  frame.
Qed.

Lemma publish_total (post : Post) (api_url username password : string) :
  total (publish_post_to_wordpress post api_url username password).
Proof.
  apply total_try_except. intros e. unfold publish_failed.
  apply total_bind; [|intros ?; apply total_ret].
  intros w. exists tt. reflexivity.
Qed.

(** The post a call returns has the key of the post it was given. *)
Lemma publish_yields (post : Post) (api_url username password : string) :
  yields (publish_post_to_wordpress post api_url username password)
         (fun r => id (snd r) = id post).
Proof.
  unfold PublishToWordpress.publish_post_to_wordpress, publish_failed.
  apply yields_try_except.
  - apply yields_bind. intros post_data.
    apply yields_bind. intros [[st txt] js].
    destruct (is_ok st).
    + repeat (apply yields_bind; intros ?).
      apply yields_try_except.
      * apply yields_bind. intros _. apply yields_ret. reflexivity.
      * intros e. apply yields_bind. intros _. apply yields_ret. reflexivity.
    + apply yields_bind. intros _. apply yields_ret. reflexivity.
  - intros e. apply yields_bind. intros _. apply yields_ret. reflexivity.
Qed.

(** A call returns, leaves the ledger and the posts file alone, and gives
    back a post with the same key. *)
Lemma publish_returns (post : Post) (api_url username password : string) (w : World) :
  exists ok post' w',
    publish_post_to_wordpress post api_url username password w = (Val (ok, post'), w')
    /\ untouched w w' /\ id post' = id post.
Proof.
  destruct (total_returns _ w (publish_total post api_url username password))
    as ([ok post'] & w' & E).
  exists ok, post', w'. split; [exact E|]. split.
  - pose proof (publish_untouched post api_url username password w) as H.
    rewrite E in H. exact H.
  - apply (publish_yields post api_url username password w _ w') in E.
    exact E.
Qed.

(** ** The attempts of a loop *)

Lemma loop_trace_outside (ids : gset string) (l : list (Post * bool)) :
  loop_trace ids l -> forall a, a ∈ l -> id (fst a) ∉ ids.
Proof.
  induction 1 as [ids|ids p l Hp Hl IH|ids p l Hp Hl IH]; intros a Ha.
  - inversion Ha.
  - apply elem_of_cons in Ha as [->|Ha]; [exact Hp|apply IH, Ha].
  - apply elem_of_cons in Ha as [->|Ha]; [exact Hp|].
    specialize (IH a Ha). set_solver.
Qed.

Lemma loop_trace_successes (ids : gset string) (l : list (Post * bool)) :
  loop_trace ids l ->
  NoDup (map id (successes l)) /\ forall K, K ∈ map id (successes l) -> K ∉ ids.
Proof.
  induction 1 as [ids|ids p l Hp Hl IH|ids p l Hp Hl IH]; unfold successes in *;
    simpl.
  - split; [constructor|]. intros K HK. inversion HK.
  - exact IH.
  - destruct IH as [Hnd Hout]. split.
    + constructor; [|exact Hnd]. intros Hin. apply Hout in Hin. set_solver.
    + intros K HK. apply elem_of_cons in HK as [->|HK]; [exact Hp|].
      apply Hout in HK. set_solver.
Qed.

Lemma loop_trace_after (ids : gset string) (l1 l2 : list (Post * bool)) :
  loop_trace ids (l1 ++ l2) -> exists ids', ids ⊆ ids' /\ loop_trace ids' l2.
Proof.
  revert ids. induction l1 as [|a l1 IH]; intros ids H; simpl in H.
  - exists ids. split; [set_solver|exact H].
  - inversion H as [|ids0 p l Hp Hl|ids0 p l Hp Hl]; subst.
    + apply IH in Hl as (ids' & Hsub & Hl). eauto.
    + apply IH in Hl as (ids' & Hsub & Hl). exists ids'. split; [set_solver|exact Hl].
Qed.

(** After a success for a key, the loop makes no call for that key. *)
Lemma loop_trace_after_success (ids : gset string) (l1 l2 : list (Post * bool))
    (p : Post) :
  loop_trace ids (l1 ++ (p, true) :: l2) -> forall a, a ∈ l2 -> id (fst a) ≠ id p.
Proof.
  intros H a Ha. apply loop_trace_after in H as (ids' & _ & H).
  inversion H as [| |ids0 p0 l Hp Hl]; subst.
  pose proof (loop_trace_outside _ _ Hl a Ha). set_solver.
Qed.

Lemma calls_for_none (K : string) (l : list (Post * bool)) :
  (forall a, a ∈ l -> id (fst a) ≠ K) -> calls_for K l = 0.
Proof.
  intros H. unfold calls_for. apply count_occ_not_In. intros Hin.
  apply in_map_iff in Hin as (a & Ha & Hin).
  apply list_elem_of_In in Hin. exact (H a Hin Ha).
Qed.

Lemma sublist_map {A B} (f : A -> B) (l1 l2 : list A) :
  sublist l1 l2 -> sublist (map f l1) (map f l2).
Proof. induction 1; simpl; constructor; assumption. Qed.

Lemma calls_for_at_most_one (K : string) (l : list (Post * bool)) (posts : list Post) :
  sublist (map fst l) posts -> NoDup (map id posts) -> (calls_for K l <= 1)%nat.
Proof.
  intros Hsub Hnd. unfold calls_for.
  apply (sublist_map id) in Hsub. rewrite map_map in Hsub.
  apply (sublist_NoDup _ _ Hnd) in Hsub. clear Hnd. rename Hsub into Hnd.
  apply NoDup_ListNoDup in Hnd.
  exact (proj1 (NoDup_count_occ string_dec _) Hnd K).
Qed.

(** ** The loop of [main] *)

Lemma publish_loop_spec (api_url username password : string) (posts : list Post) :
  forall (ids : gset string) (newly : list Post) (w : World),
  exists ids' added w' new,
    publish_loop posts ids newly api_url username password w
    = (Val (ids', newly ++ added), w')
    /\ environ w' = environ w
    /\ posts_json w' = posts_json w
    /\ published_posts_json w' = published_posts_json w
    /\ attempts w' = attempts w ++ new
    /\ loop_trace ids new
    /\ sublist (map fst new) posts
    /\ map id added = map id (successes new)
    /\ (forall q, q ∈ posts -> id q ∉ ids -> exists a, a ∈ new /\ id (fst a) = id q).
Proof.
  induction posts as [|p rest IH]; intros ids newly w.
  - exists ids, [], w, []. simpl. rewrite !app_nil_r.
    repeat split; try constructor.
    intros q Hq. inversion Hq.
  - simpl. case_bool_decide as Hp.
    + unfold bind at 1.
      destruct (publish_returns p api_url username password w)
        as (ok & post' & w1 & E & (He & Hpj & Hl & Hf & Ha & _) & Hid).
      rewrite E. unfold bind at 1, record_attempt at 1. simpl.
      set (w2 := with_attempts w1 (attempts w1 ++ [(p, ok)])).
      destruct ok.
      * destruct (IH ({[ id p ]} ∪ ids) (newly ++ [post']) w2)
          as (ids' & added & w' & new & E' & He' & Hpj' & Hl' & Ha' & Ht & Hs & Hm & Hel).
        subst w2. simpl in He', Hpj', Hl', Ha'.
        exists ids', (post' :: added), w', ((p, true) :: new).
        rewrite E'. rewrite <- app_assoc. simpl.
        split; [reflexivity|].
        split; [congruence|]. split; [congruence|]. split; [congruence|].
        split; [rewrite Ha', Ha, <- app_assoc; reflexivity|].
        split; [constructor; assumption|].
        split; [constructor; assumption|].
        split; [unfold successes in *; simpl; congruence|].
        intros q Hq Hout. destruct (decide (id q = id p)) as [Heq|Hne].
        -- exists (p, true). split; [left|auto].
        -- apply elem_of_cons in Hq as [->|Hq]; [congruence|].
           destruct (Hel q Hq) as (a & Hin & Hida).
           { intros [Hx|Hx]%elem_of_union; [apply elem_of_singleton in Hx|];
               contradiction. }
           exists a. split; [right; exact Hin|exact Hida].
      * destruct (IH ids newly w2)
          as (ids' & added & w' & new & E' & He' & Hpj' & Hl' & Ha' & Ht & Hs & Hm & Hel).
        subst w2. simpl in He', Hpj', Hl', Ha'.
        exists ids', added, w', ((p, false) :: new).
        rewrite E'.
        split; [reflexivity|].
        split; [congruence|]. split; [congruence|]. split; [congruence|].
        split; [rewrite Ha', Ha, <- app_assoc; reflexivity|].
        split; [constructor; assumption|].
        split; [constructor; assumption|].
        split; [exact Hm|].
        intros q Hq Hout. destruct (decide (id q = id p)) as [Heq|Hne].
        -- exists (p, false). split; [left|auto].
        -- apply elem_of_cons in Hq as [->|Hq]; [congruence|].
           destruct (Hel q Hq Hout) as (a & Hin & Hida).
           exists a. split; [right; exact Hin|exact Hida].
    + destruct (IH ids newly w)
        as (ids' & added & w' & new & E' & He' & Hpj' & Hl' & Ha' & Ht & Hs & Hm & Hel).
      exists ids', added, w', new. rewrite E'.
      repeat (split; [assumption || reflexivity|]).
      split; [constructor; assumption|]. split; [exact Hm|].
      intros q Hq Hout. apply elem_of_cons in Hq as [->|Hq]; [contradiction|].
      exact (Hel q Hq Hout).
Qed.

(** ** The ledger read and rewritten *)

Lemma load_published_ids_spec (w : World) :
  exists w', load_published_ids w = (Val (list_to_set (map id (ledger w))), w')
             /\ untouched w w'.
Proof.
  unfold load_published_ids, bind, published_exists, try_except, load_published,
    load_json, ledger, entries.
  destruct (published_posts_json w) as [[|l]|] eqn:E; simpl; rewrite ?E; simpl.
  - eexists. split; [reflexivity|]. repeat split.
  - eexists. split; [reflexivity|]. repeat split.
  - eexists. split; [reflexivity|]. repeat split.
Qed.

Lemma update_published_spec (newly : list Post) (w : World) :
  exists l w', update_published newly w = (Val l, w')
             /\ ledger w' = newly ++ ledger w
             /\ environ w' = environ w
             /\ posts_json w' = posts_json w
             /\ attempts w' = attempts w
             /\ requests w' = requests w.
Proof.
  destruct newly as [|p newly].
  - exists [], w. repeat split.
  - unfold update_published, bind, published_exists, try_except, load_published,
      load_json, write_published, ledger, entries.
    destruct (published_posts_json w) as [[|l]|] eqn:E; simpl; rewrite ?E; simpl.
    + eexists _, _. split; [reflexivity|]. simpl. rewrite app_nil_r. repeat split.
    + eexists _, _. split; [reflexivity|]. simpl. repeat split.
    + eexists _, _. split; [reflexivity|]. simpl. rewrite app_nil_r. repeat split.
Qed.

(** ** A run *)

Lemma refuse_spec (w : World) :
  refuse w = (Val tt, with_stdout w (stdout w ++ credentials_error)).
Proof.
  unfold refuse, bind, print, with_stdout, credentials_error. simpl.
  rewrite <- app_assoc. reflexivity.
Qed.

Lemma main_without_credentials (w : World) :
  credentials w = None -> main w = refuse w.
Proof.
  unfold credentials, PublishToWordpress.main, bind, getenv. simpl.
  destruct (environ w !! "WP_USERNAME") as [username|]; [|reflexivity].
  destruct (environ w !! "WP_PASSWORD") as [password|]; [|reflexivity].
  destruct (environ w !! "WP_API_URL") as [api_url|]; [|reflexivity].
  destruct (Py.truthy username && Py.truthy password && Py.truthy api_url);
    [discriminate|reflexivity].
Qed.

Lemma main_with_credentials (w : World) (username password api_url : string) :
  credentials w = Some (username, password, api_url) ->
  main w = publish_all clock remote b64encode username password api_url w.
Proof.
  unfold credentials, PublishToWordpress.main, bind, getenv. simpl.
  destruct (environ w !! "WP_USERNAME") as [u|]; [|discriminate].
  destruct (environ w !! "WP_PASSWORD") as [p|]; [|discriminate].
  destruct (environ w !! "WP_API_URL") as [a|]; [|discriminate].
  destruct (Py.truthy u && Py.truthy p && Py.truthy a); [|discriminate].
  intros H. inversion H; subst. reflexivity.
Qed.

Lemma publish_all_spec (username password api_url : string) (w : World) :
  exists w' new added,
    publish_all clock remote b64encode username password api_url w = (Val tt, w')
    /\ run_summary w w' new added
    /\ (forall q, q ∈ posts_to_publish w -> id q ∉ map id (ledger w) ->
                  exists a, a ∈ new /\ id (fst a) = id q).
Proof.
  unfold publish_all, run_summary, posts_to_publish, entries.
  destruct (posts_json w) as [[|posts]|] eqn:E.
  - erewrite bind_returns
      by (unfold try_except, bind, load_posts, load_json; rewrite E; reflexivity).
    eexists _, [], []. split; [reflexivity|]. simpl. rewrite app_nil_r.
    repeat split; try constructor; try assumption.
    intros q Hq. inversion Hq.
  - erewrite bind_returns
      by (unfold try_except, bind, load_posts, load_json; rewrite E; reflexivity).
    cbv beta iota.
    erewrite bind_returns by reflexivity.
    set (w1 := with_stdout w _).
    destruct (load_published_ids_spec w1)
      as (w2 & E2 & (He2 & Hp2 & Hl2 & _ & Ha2 & _)).
    erewrite bind_returns by exact E2.
    destruct (publish_loop_spec (normalize_api_url api_url) username password posts
                (list_to_set (map id (ledger w1))) [] w2)
      as (ids' & added & w3 & new & E3 & He3 & Hp3 & Hl3 & Ha3 & Ht & Hs & Hm & Hel).
    erewrite bind_returns by exact E3.
    cbv beta iota. simpl snd.
    destruct (update_published_spec added w3)
      as (l4 & w4 & E4 & Hl4 & He4 & Hp4 & Ha4 & _).
    erewrite bind_returns by exact E4.
    eexists _, new, added. split; [reflexivity|].
    unfold ledger in *. subst w1. simpl in *.
    assert (Hlw : entries (published_posts_json w3) = entries (published_posts_json w))
      by (rewrite Hl3, Hl2; reflexivity).
    split.
    + split; [rewrite He4, He3, He2; reflexivity|].
      split; [rewrite Hp4, Hp3, Hp2; exact E|].
      split; [rewrite Ha4, Ha3, Ha2; reflexivity|].
      split; [exact Ht|]. split; [exact Hs|].
      split; [rewrite Hl4, Hlw; reflexivity|exact Hm].
    + intros q Hq Hout. apply Hel; [exact Hq|].
      intros Hin. apply elem_of_list_to_set in Hin. exact (Hout Hin).
  - erewrite bind_returns
      by (unfold try_except, bind, load_posts, load_json; rewrite E; reflexivity).
    eexists _, [], []. split; [reflexivity|]. simpl. rewrite app_nil_r.
    repeat split; try constructor; try assumption.
    intros q Hq. inversion Hq.
Qed.

(** Every run returns; what it attempts follows the loop, and what it adds
    to the ledger are the posts of its successes, put in front. *)
Lemma main_spec (w : World) :
  exists w' new added,
    returns main w tt w'
    /\ run_summary w w' new added
    /\ (is_Some (credentials w) ->
        forall q, q ∈ posts_to_publish w -> id q ∉ map id (ledger w) ->
                  exists a, a ∈ new /\ id (fst a) = id q).
Proof.
  unfold returns.
  destruct (credentials w) as [[[username password] api_url]|] eqn:E.
  - rewrite (main_with_credentials w _ _ _ E).
    destruct (publish_all_spec username password api_url w)
      as (w' & new & added & Hr & Hs & Hel).
    exists w', new, added. split; [exact Hr|]. split; [exact Hs|].
    intros _. exact Hel.
  - rewrite (main_without_credentials w E), refuse_spec.
    eexists _, [], []. split; [reflexivity|]. unfold run_summary. simpl.
    rewrite app_nil_r. split.
    + repeat split; first [apply sublist_nil_l | constructor].
    + intros [x Hx]. discriminate.
Qed.

Lemma successes_elem (K : string) (l : list (Post * bool)) :
  K ∈ map id (successes l) -> exists a, a ∈ l /\ snd a = true /\ id (fst a) = K.
Proof.
  unfold successes. intros H.
  apply list_elem_of_In, in_map_iff in H as (p & Hp & H).
  apply in_map_iff in H as (a & Ha & H).
  apply filter_In in H as [Hin Hok].
  exists a. split; [apply list_elem_of_In, Hin|]. split; [exact Hok|congruence].
Qed.

Lemma map_id_app_elem (K : string) (l1 l2 : list Post) :
  K ∈ map id (l1 ++ l2) -> K ∈ map id l1 \/ K ∈ map id l2.
Proof. rewrite map_app. apply elem_of_app. Qed.

(** The ledger a run leaves: new entries in front of the old ones, and no
    key twice if there was none twice. *)
Lemma main_ledger (w : World) :
  exists added,
    ledger (world_after main w) = added ++ ledger w
    /\ (NoDup (map id (ledger w)) -> NoDup (map id (ledger (world_after main w)))).
Proof.
  destruct (main_spec w) as (w' & new & added & Hr & Hs & _).
  unfold returns in Hr. unfold world_after. rewrite Hr. simpl.
  destruct Hs as (_ & _ & _ & Ht & _ & Hl & Hm).
  exists added. split; [exact Hl|].
  intros Hnd. rewrite Hl, map_app, Hm.
  apply loop_trace_successes in Ht as [Hnd' Hout].
  apply NoDup_app. split; [exact Hnd'|]. split; [|exact Hnd].
  intros K HK Hin. apply (Hout K HK). apply elem_of_list_to_set. exact Hin.
Qed.

Lemma runs_ledger (batches : list (option (Json (list Post)))) :
  forall w,
    NoDup (map id (ledger w)) ->
    NoDup (map id (ledger (runs batches w)))
    /\ exists more, ledger (runs batches w) = more ++ ledger w.
Proof.
  induction batches as [|batch rest IH]; intros w Hnd; simpl.
  - split; [exact Hnd|]. exists []. reflexivity.
  - destruct (main_ledger (with_posts_json w batch)) as (added & Hl & Hk).
    change (ledger (with_posts_json w batch)) with (ledger w) in Hl, Hk.
    destruct (IH _ (Hk Hnd)) as (Hnd' & more & Hmore).
    split; [exact Hnd'|]. exists (more ++ added).
    rewrite Hmore, Hl, app_assoc. reflexivity.
Qed.

(** C1, as amended: in a run, no call is made for a key that the ledger
    holds, none is made for a key after a call for it succeeded, and at most
    one is made for a key when the posts file holds no key twice.  A run puts
    its new entries in front of the ledger and keeps the others; a ledger
    without a key twice stays so, after one run and after any number of
    runs, whatever posts file each run is given. *)
Theorem publish_at_most_once_per_success (w : World) :
  exists w' new added,
    returns main w tt w'
    /\ attempts w' = attempts w ++ new
    /\ (forall K, K ∈ map id (ledger w) -> calls_for K new = 0)
    /\ (forall l1 p l2, new = l1 ++ (p, true) :: l2 -> calls_for (id p) l2 = 0)
    /\ (NoDup (map id (posts_to_publish w)) -> forall K, (calls_for K new <= 1)%nat)
    /\ ledger w' = added ++ ledger w
    /\ (NoDup (map id (ledger w)) -> NoDup (map id (ledger w')))
    /\ (forall batches,
          NoDup (map id (ledger w)) ->
          NoDup (map id (ledger (runs batches w)))
          /\ exists more, ledger (runs batches w) = more ++ ledger w).
Proof.
  destruct (main_spec w) as (w' & new & added & Hr & Hs & _).
  destruct (main_ledger w) as (added' & Hl' & Hnd').
  pose proof Hr as Hr'. unfold returns in Hr'.
  unfold world_after in Hl', Hnd'. rewrite Hr' in Hl', Hnd'. simpl in Hl', Hnd'.
  destruct Hs as (_ & _ & Ha & Ht & Hsub & Hl & _).
  exists w', new, added.
  split; [exact Hr|]. split; [exact Ha|]. split.
  { intros K HK. apply calls_for_none. intros a Hin Heq.
    apply (loop_trace_outside _ _ Ht a Hin). rewrite Heq.
    apply elem_of_list_to_set. exact HK. }
  split.
  { intros l1 p l2 E. apply calls_for_none. intros a Hin.
    rewrite E in Ht. exact (loop_trace_after_success _ _ _ _ Ht a Hin). }
  split.
  { intros Hnd K. exact (calls_for_at_most_one K new _ Hsub Hnd). }
  split; [exact Hl|]. split; [exact Hnd'|].
  intros batches. apply runs_ledger.
Qed.

(** C8: a call whose request to create the post raises, or is answered by
    a status that is neither 200 nor 201, returns [False] and leaves the
    post and the ledger as they were.  In a run, the posts attempted are
    picked in order from the posts file, each position at most once; the
    entries added to the ledger are those of the calls that returned [True];
    so a key that the ledger did not hold and whose calls all returned
    [False] is not in the ledger after the run, and the next run, given a
    post with a key that the ledger does not hold, attempts it. *)
Theorem failed_publish_is_not_recorded :
  (forall post api_url username password w post_data w1,
      prepare_post_data post api_url username password w = (Val post_data, w1) ->
      is_failure (remote (length (requests w1))
                         (create_post_request api_url username password post_data)) ->
      exists w2,
        returns (publish_post_to_wordpress post api_url username password) w
                (false, post) w2
        /\ untouched w w2)
  /\ (forall w, exists w' new added,
        returns main w tt w'
        /\ attempts w' = attempts w ++ new
        /\ sublist (map fst new) (posts_to_publish w)
        /\ ledger w' = added ++ ledger w
        /\ map id added = map id (successes new)
        /\ (forall K, K ∉ map id (ledger w) ->
                      (forall a, a ∈ new -> id (fst a) = K -> snd a = false) ->
                      K ∉ map id (ledger w')))
  /\ (forall w q,
        is_Some (credentials w) ->
        q ∈ posts_to_publish w ->
        id q ∉ map id (ledger w) ->
        exists w' new a,
          returns main w tt w'
          /\ attempts w' = attempts w ++ new
          /\ a ∈ new /\ id (fst a) = id q).
Proof.
  split; [|split].
  - intros post api_url username password w post_data w1 Hprep Hfail.
    pose proof (publish_untouched post api_url username password w) as Hu.
    unfold PublishToWordpress.publish_post_to_wordpress, returns in *.
    unfold try_except in *.
    erewrite bind_returns in * by exact Hprep.
    unfold bind at 1 in Hu. unfold bind at 1.
    unfold PublishToWordpress.send in *.
    destruct (remote (length (requests w1))
                (create_post_request api_url username password post_data))
      as [e|st txt js]; simpl in *.
    + eexists. split; [reflexivity|exact Hu].
    + rewrite Hfail in *. simpl in *. eexists. split; [reflexivity|exact Hu].
  - intros w. destruct (main_spec w) as (w' & new & added & Hr & Hs & _).
    destruct Hs as (_ & _ & Ha & _ & Hsub & Hl & Hm).
    exists w', new, added. repeat (split; [assumption|]).
    intros K Hout Hall Hin. rewrite Hl in Hin.
    apply map_id_app_elem in Hin as [Hin|Hin]; [|exact (Hout Hin)].
    rewrite Hm in Hin. apply successes_elem in Hin as (a & Hin & Hok & Hid).
    rewrite (Hall a Hin Hid) in Hok. discriminate.
  - intros w q Hc Hq Hout.
    destruct (main_spec w) as (w' & new & added & Hr & Hs & Hel).
    destruct (Hel Hc q Hq Hout) as (a & Hin & Hid).
    destruct Hs as (_ & _ & Ha & _).
    exists w', new, a. auto.
Qed.

(** C9: when one of the three credentials is not set, or is empty, [main]
    prints the two lines of the error and returns: no request has been sent,
    the ledger, the post files and the other files are as they were, and no
    publish was attempted. *)
Theorem missing_credentials_refuse_to_run (w : World) :
  missing w "WP_USERNAME" \/ missing w "WP_PASSWORD" \/ missing w "WP_API_URL" ->
  let w' := with_stdout w (stdout w ++ credentials_error) in
  returns main w tt w'
  /\ requests w' = requests w
  /\ published_posts_json w' = published_posts_json w
  /\ post_files w' = post_files w
  /\ files w' = files w
  /\ attempts w' = attempts w.
Proof.
  intros H w'.
  assert (Hc : credentials w = None).
  { unfold credentials, missing in *.
    destruct (environ w !! "WP_USERNAME") as [u|]; [|reflexivity].
    destruct (environ w !! "WP_PASSWORD") as [p|]; [|reflexivity].
    destruct (environ w !! "WP_API_URL") as [a|]; [|reflexivity].
    simpl in H.
    destruct H as [H|[H|H]]; rewrite H; rewrite ?andb_false_r; reflexivity. }
  split; [|repeat split].
  unfold returns. rewrite (main_without_credentials w Hc). apply refuse_spec.
Qed.

End Facts.

End PublishFacts.

Module PublishExamples.

Import PublishToWordpress PublishVocabulary.

(** C1, refuted as stated: two posts of the posts file have the same key,
    the site answers 500 to every request, and [publish_post_to_wordpress]
    is called twice for that key in one run. *)
Lemma duplicate_key_is_attempted_twice :
  let w := world_with [sample_post; sample_post_again] in
  let w' := world_after (main (fun _ => noon) out_of_order plain) w in
  id sample_post = id sample_post_again
  /\ attempts w' = [(sample_post, false); (sample_post_again, false)]
  /\ calls_for (id sample_post) (attempts w') = 2
  /\ ~ (calls_for (id sample_post) (attempts w') <= 1)%nat.
Proof.
  intros w w'.
  assert (E : attempts w' = [(sample_post, false); (sample_post_again, false)])
    by (vm_compute; reflexivity).
  split; [reflexivity|]. split; [exact E|]. rewrite E.
  split; [vm_compute; reflexivity|].
  assert (E2 : calls_for (id sample_post)
                 [(sample_post, false); (sample_post_again, false)] = 2)
    by (vm_compute; reflexivity).
  rewrite E2. lia.
Qed.

(** One post, a site that accepts it: one call, one entry in the ledger. *)
Lemma publish_once_witness :
  let w := world_with [sample_post] in
  exists w' new added,
    returns (main (fun _ => noon) accepting plain) w tt w'
    /\ attempts w' = attempts w ++ new
    /\ (forall K, K ∈ map id (ledger w) -> calls_for K new = 0)
    /\ (forall l1 p l2, new = l1 ++ (p, true) :: l2 -> calls_for (id p) l2 = 0)
    /\ (NoDup (map id (posts_to_publish w)) -> forall K, (calls_for K new <= 1)%nat)
    /\ ledger w' = added ++ ledger w
    /\ (NoDup (map id (ledger w)) -> NoDup (map id (ledger w')))
    /\ (forall batches,
          NoDup (map id (ledger w)) ->
          NoDup (map id (ledger (runs (fun _ => noon) accepting plain batches w)))
          /\ exists more,
              ledger (runs (fun _ => noon) accepting plain batches w)
              = more ++ ledger w).
Proof.
  exact (PublishFacts.publish_at_most_once_per_success
           (fun _ => noon) accepting plain (world_with [sample_post])).
Defined.

(** A post the site refused is attempted by the next run. *)
Lemma failed_publish_witness :
  let w := world_with [sample_post] in
  let w1 := world_after (main (fun _ => noon) out_of_order plain) w in
  attempts w1 = [(sample_post, false)]
  /\ ledger w1 = []
  /\ is_Some (credentials w1)
  /\ sample_post ∈ posts_to_publish w1
  /\ (id sample_post ∉ map id (ledger w1))
  /\ exists w' new a,
      returns (main (fun _ => noon) accepting plain) w1 tt w'
      /\ attempts w' = attempts w1 ++ new
      /\ a ∈ new /\ id (fst a) = id sample_post.
Proof.
  intros w w1.
  assert (Hc : is_Some (credentials w1)) by (vm_compute; eauto).
  assert (Hq : sample_post ∈ posts_to_publish w1) by (vm_compute; left).
  assert (Hout : id sample_post ∉ map id (ledger w1)).
  { assert (E : ledger w1 = []) by (vm_compute; reflexivity).
    rewrite E. intros H. inversion H. }
  split; [vm_compute; reflexivity|]. split; [vm_compute; reflexivity|].
  split; [exact Hc|]. split; [exact Hq|]. split; [exact Hout|].
  exact (proj2 (proj2 (PublishFacts.failed_publish_is_not_recorded
                         (fun _ => noon) accepting plain))
               w1 sample_post Hc Hq Hout).
Defined.

(** Without [WP_PASSWORD], nothing is requested. *)
Lemma missing_credentials_witness :
  let w := world_without_password [sample_post] in
  let w' := with_stdout w (stdout w ++ credentials_error) in
  (missing w "WP_USERNAME" \/ missing w "WP_PASSWORD" \/ missing w "WP_API_URL")
  /\ returns (main (fun _ => noon) accepting plain) w tt w'
  /\ requests w' = []
  /\ published_posts_json w' = None
  /\ attempts w' = [].
Proof.
  intros w w'.
  assert (H : missing w "WP_USERNAME" \/ missing w "WP_PASSWORD"
              \/ missing w "WP_API_URL") by (right; left; reflexivity).
  split; [exact H|].
  destruct (PublishFacts.missing_credentials_refuse_to_run
              (fun _ => noon) accepting plain w H) as (Hr & Hq & Hl & _ & _ & Ha).
  split; [exact Hr|]. split; [exact Hq|]. split; [exact Hl|exact Ha].
Defined.

End PublishExamples.

(** * Properties of the string operations *)

Module StringFacts.

Lemma lower_char_upper_char (c : ascii) :
  Py.lower_char (Py.upper_char c) = Py.lower_char c.
Proof. destruct c as [[] [] [] [] [] [] [] []]; reflexivity. Qed.

Lemma lower_char_lower_char (c : ascii) :
  Py.lower_char (Py.lower_char c) = Py.lower_char c.
Proof. destruct c as [[] [] [] [] [] [] [] []]; reflexivity. Qed.

Lemma lower_app (a b : string) : Py.lower (a +:+ b) = Py.lower a +:+ Py.lower b.
Proof. induction a as [|c a IH]; simpl; [reflexivity|]. rewrite IH. reflexivity. Qed.

Lemma lower_lower (s : string) : Py.lower (Py.lower s) = Py.lower s.
Proof.
  induction s as [|c s IH]; simpl; [reflexivity|].
  rewrite lower_char_lower_char, IH. reflexivity.
Qed.

Lemma lower_capitalize (s : string) : Py.lower (Py.capitalize s) = Py.lower s.
Proof.
  destruct s as [|c s]; simpl; [reflexivity|].
  rewrite lower_char_upper_char, lower_lower. reflexivity.
Qed.

Lemma startswith_app (p s : string) : Py.startswith (p +:+ s) p = true.
Proof.
  induction p as [|c p IH]; simpl.
  - destruct s; reflexivity.
  - rewrite Ascii.eqb_refl. exact IH.
Qed.

Lemma startswith_app_r (s p t : string) :
  Py.startswith s p = true -> Py.startswith (s +:+ t) p = true.
Proof.
  revert s. induction p as [|c p IH]; intros s H.
  - destruct (s +:+ t); reflexivity.
  - destruct s as [|d s]; simpl in *; [discriminate|].
    destruct (Ascii.eqb c d); [apply IH, H|discriminate].
Qed.

Lemma contains_startswith (s sub : string) :
  Py.startswith s sub = true -> Py.contains s sub = true.
Proof. intros H. destruct s; cbn [Py.contains]; rewrite H; reflexivity. Qed.

Lemma contains_app_r (s sub t : string) :
  Py.contains s sub = true -> Py.contains (s +:+ t) sub = true.
Proof.
  induction s as [|c s IH]; intros H; cbn [Py.contains] in H.
  - rewrite orb_false_r in H.
    apply contains_startswith. apply (startswith_app_r "" sub t H).
  - apply orb_true_iff in H as [H|H].
    + apply contains_startswith. apply (startswith_app_r _ _ t H).
    + change (String c s +:+ t) with (String c (s +:+ t)).
      cbn [Py.contains]. rewrite (IH H). apply orb_true_r.
Qed.

Lemma list_ascii_app (a b : string) :
  list_ascii_of_string (a +:+ b) = list_ascii_of_string a ++ list_ascii_of_string b.
Proof. induction a as [|c a IH]; simpl; [reflexivity|]. rewrite IH. reflexivity. Qed.

Lemma string_of_list_app (a b : list ascii) :
  string_of_list_ascii (a ++ b) = string_of_list_ascii a +:+ string_of_list_ascii b.
Proof. induction a as [|c a IH]; simpl; [reflexivity|]. rewrite IH. reflexivity. Qed.

Lemma rev_string_app (a b : string) :
  Py.rev_string (a +:+ b) = Py.rev_string b +:+ Py.rev_string a.
Proof.
  unfold Py.rev_string. rewrite list_ascii_app, rev_app_distr.
  apply string_of_list_app.
Qed.

Lemma rev_string_involutive (s : string) : Py.rev_string (Py.rev_string s) = s.
Proof.
  unfold Py.rev_string.
  rewrite list_ascii_of_string_of_list_ascii, rev_involutive.
  apply string_of_list_ascii_of_string.
Qed.

Lemma endswith_app (a b : string) : Py.endswith (a +:+ b) b = true.
Proof. unfold Py.endswith. rewrite rev_string_app. apply startswith_app. Qed.

Lemma append_cons (x : ascii) (a b : string) : String x a +:+ b = String x (a +:+ b).
Proof. reflexivity. Qed.

Lemma append_assoc (a b c : string) : (a +:+ b) +:+ c = a +:+ (b +:+ c).
Proof.
  induction a as [|x a IH]; [reflexivity|].
  rewrite !append_cons, IH. reflexivity.
Qed.

Lemma append_nil_r (a : string) : a +:+ "" = a.
Proof.
  induction a as [|x a IH]; [reflexivity|].
  rewrite append_cons, IH. reflexivity.
Qed.

Lemma append_inv_l (a b c : string) : a +:+ b = a +:+ c -> b = c.
Proof.
  induction a as [|x a IH]; intros H; [exact H|].
  rewrite !append_cons in H. inversion H. auto.
Qed.

Lemma before_first_app (ch : ascii) (c rest : string) :
  GenerateTerms.lacks ch c = true -> Py.before_first ch (c +:+ String ch rest) = c.
Proof.
  induction c as [|a c IH]; simpl; intros H.
  - rewrite Ascii.eqb_refl. reflexivity.
  - apply andb_true_iff in H as [Ha Hc]. apply negb_true_iff in Ha.
    rewrite Ha, (IH Hc). reflexivity.
Qed.

Lemma after_first_app (ch : ascii) (c rest : string) :
  GenerateTerms.lacks ch c = true ->
  GenerateTerms.after_first ch (c +:+ String ch rest) = rest.
Proof.
  induction c as [|a c IH]; simpl; intros H.
  - rewrite Ascii.eqb_refl. reflexivity.
  - apply andb_true_iff in H as [Ha Hc]. apply negb_true_iff in Ha.
    rewrite Ha. exact (IH Hc).
Qed.

(** The decimal digits of a number hold no underscore. *)
Lemma digits_lack_underscore (d : Decimal.uint) :
  GenerateTerms.lacks "_" (NilEmpty.string_of_uint d) = true.
Proof. induction d; simpl; auto. Qed.

Lemma str_nat_lacks_underscore (n : nat) : GenerateTerms.lacks "_" (Py.str_nat n) = true.
Proof. apply digits_lack_underscore. Qed.

Lemma str_nat_inj (m n : nat) : Py.str_nat m = Py.str_nat n -> m = n.
Proof.
  unfold Py.str_nat. intros H.
  assert (E : Some (Nat.to_uint m) = Some (Nat.to_uint n)).
  { rewrite <- !NilEmpty.usu, H. reflexivity. }
  inversion E as [E']. exact (DecimalNat.Unsigned.to_uint_inj m n E').
Qed.

End StringFacts.

(** * More about scripts/generate_posts.py *)

Module GenerateMore.

Import GeneratePosts GenerateTerms StringFacts.

Lemma quiet_refl (w : World) : quiet w w.
Proof. repeat split. Qed.

Lemma articles_of_same (w w' : World) (category : string) :
  news_files w' = news_files w -> articles_of w' category = articles_of w category.
Proof. unfold articles_of. intros ->. reflexivity. Qed.

Lemma stamped_slot (category : string) (k : nat) (p : Post) :
  lacks "_" category = true ->
  stamped category k p -> slot (id p) = (category, Py.str_nat k).
Proof.
  intros Hc [t Ht]. unfold slot. rewrite Ht.
  change (category +:+ "_" +:+ Py.str_nat k +:+ "_" +:+ t)
    with (category +:+ String "_" (Py.str_nat k +:+ String "_" t)).
  rewrite (before_first_app "_" category _ Hc), (after_first_app "_" category _ Hc).
  rewrite (before_first_app "_" _ _ (str_nat_lacks_underscore k)).
  reflexivity.
Qed.

Lemma slots_of_nodup (category : string) (n : nat) : NoDup (slots_of category n).
Proof.
  unfold slots_of. apply NoDup_ListNoDup, Finite.Injective_map_NoDup.
  - intros a b E. inversion E as [E']. exact (str_nat_inj a b E').
  - apply seq_NoDup.
Qed.

Lemma slots_of_first (category : string) (n : nat) (x : string * string) :
  x ∈ slots_of category n -> fst x = category.
Proof.
  unfold slots_of. intros H.
  apply list_elem_of_In, in_map_iff in H as (k & <- & _). reflexivity.
Qed.

Lemma slots_nodup (n : string -> nat) (cs : list string) :
  NoDup cs -> NoDup (concat (map (fun c => slots_of c (n c)) cs)).
Proof.
  induction 1 as [|c cs Hc Hcs IH]; simpl; [constructor|].
  apply NoDup_app. split; [apply slots_of_nodup|]. split; [|exact IH].
  intros x Hx Hin. apply slots_of_first in Hx.
  apply list_elem_of_In, in_concat in Hin as (l & Hl & Hin).
  apply in_map_iff in Hl as (c' & <- & Hc').
  apply list_elem_of_In, slots_of_first in Hin.
  apply Hc. apply list_elem_of_In. congruence.
Qed.

Lemma nodup_map_inv {A B} (f : A -> B) (l : list A) : NoDup (map f l) -> NoDup l.
Proof.
  intros H. apply NoDup_ListNoDup. apply NoDup_ListNoDup in H.
  exact (NoDup_map_inv f l H).
Qed.

Section Facts.

Variable clock : nat -> DateTime.
Variable http_get : nat -> string -> HttpReply.
Variable html_to_markdown : string -> option string.

Abbreviation get_article_content := (get_article_content http_get html_to_markdown).
Abbreviation generate_post_content := (generate_post_content http_get html_to_markdown).
Abbreviation create_post_from_article :=
  (create_post_from_article clock http_get html_to_markdown).
Abbreviation main := (main clock http_get html_to_markdown).

(** The body of the loop over the articles of a category, and the block a
    category runs inside its [try], as [main] has them. *)
Abbreviation post_body := (fun (category : string) (ia : nat * Article) =>
  bind (create_post_from_article (snd ia) category (fst ia)) (fun post =>
  bind (append_post post) (fun _ => print ("Created post: " +:+ title post)))).

Abbreviation category_block := (fun category : string =>
  try_except
    (bind (load_news category) (fun articles =>
     bind (print ("Generating posts for category: " +:+ category +:+ " ("
                  +:+ Py.str_nat (length articles) +:+ " articles)")) (fun _ =>
     for_each (enumerate_from 0 (firstn 3 articles)) (post_body category))))
    (fun e => print ("Error processing category " +:+ category +:+ ": " +:+ e))).

(** X1: the formatted title always mentions the category, whatever the
    case of the letters, and always ends with the date; a title that
    mentions the category already gets the date and nothing else. *)
Theorem formatted_title_mentions_category (title0 category : string) (w : World) :
  exists t w',
    returns (format_post_title clock title0 category) w t w'
    /\ Py.contains (Py.lower t) (Py.lower category) = true
    /\ Py.endswith t (" - " +:+ Strftime.human (clock (ticks w))) = true
    /\ (Py.contains (Py.lower title0) (Py.lower category) = true ->
        t = title0 +:+ " - " +:+ Strftime.human (clock (ticks w))).
Proof.
  unfold returns, format_post_title, bind, datetime_now, ret. simpl.
  eexists _, _. split; [reflexivity|].
  destruct (Py.contains (Py.lower title0) (Py.lower category)) eqn:E; simpl.
  - split; [|split; [apply endswith_app|reflexivity]].
    rewrite lower_app. apply contains_app_r. exact E.
  - split; [|split; [apply endswith_app|discriminate]].
    rewrite lower_app. apply contains_app_r.
    rewrite lower_app, lower_capitalize.
    apply contains_startswith, startswith_app.
Qed.

Lemma get_article_content_quiet (link : option string) (w : World) :
  exists r w', get_article_content link w = (Val r, w') /\ quiet w w'.
Proof.
  unfold GeneratePosts.get_article_content, try_except, bind,
    requests_get, raise_for_status, parse_and_convert, print, ret, raise.
  destruct link as [u|]; simpl.
  - destruct (http_get (length (requested w)) u) as [e|st txt]; simpl.
    + eexists _, _. split; [reflexivity|repeat split].
    + destruct (is_http_error st); simpl;
        [eexists _, _; split; [reflexivity|repeat split]|].
      destruct (html_to_markdown txt); simpl;
        eexists _, _; (split; [reflexivity|repeat split]).
  - eexists _, _. split; [reflexivity|repeat split].
Qed.

Lemma create_post_spec (a : Article) (category : string) (index : nat) (w : World) :
  exists p w',
    create_post_from_article a category index w = (Val p, w')
    /\ stamped category index p
    /\ news_files w' = news_files w
    /\ all_posts w' = all_posts w
    /\ post_files w' = <[post_path (id p) := p]> (post_files w).
Proof.
  unfold GeneratePosts.create_post_from_article, format_post_title,
    GeneratePosts.generate_post_content.
  unfold bind at 1. unfold bind at 1. unfold datetime_now at 1, ret at 1.
  unfold bind at 1. unfold bind at 1.
  destruct (get_article_content_quiet (a_link a) (with_ticks w (S (ticks w))))
    as (r & w1 & Hr & Hn & Hf & Hj & Ht & Ha).
  rewrite Hr. unfold ret at 1.
  unfold bind, datetime_now, save_post, ret. simpl in *.
  eexists _, _. split; [reflexivity|]. simpl.
  split; [eexists; reflexivity|]. repeat split; congruence.
Qed.

Lemma posts_loop (category : string) (l : list Article) :
  forall i w, exists ps w',
    for_each (enumerate_from i l) (post_body category) w = (Val tt, w')
    /\ all_posts w' = all_posts w ++ ps
    /\ news_files w' = news_files w
    /\ Forall2 (stamped category) (seq i (length l)) ps.
Proof.
  induction l as [|a l IH]; intros i w; simpl.
  - exists [], w. rewrite app_nil_r. repeat split. constructor.
  - unfold bind at 1. unfold bind at 1.
    destruct (create_post_spec a category i w) as (p & w1 & Hp & Hs & Hn & Ha & _).
    simpl. rewrite Hp. unfold bind at 1, append_post at 1, print at 1. simpl.
    set (w2 := with_stdout _ _).
    destruct (IH (S i) w2) as (ps & w' & Hl & Ha' & Hn' & Hst).
    rewrite Hl. exists (p :: ps), w'. split; [reflexivity|].
    subst w2. simpl in Ha', Hn'.
    split; [rewrite Ha', Ha, <- app_assoc; reflexivity|].
    split; [congruence|]. constructor; assumption.
Qed.

Lemma category_block_spec (category : string) (w : World) :
  exists ps w',
    category_block category w = (Val tt, w')
    /\ all_posts w' = all_posts w ++ ps
    /\ news_files w' = news_files w
    /\ Forall2 (stamped category)
               (seq 0 (Nat.min 3 (length (articles_of w category)))) ps.
Proof.
  unfold try_except, bind at 1, load_news, articles_of.
  destruct (news_files w !! news_path category) as [[|l]|]; simpl.
  - exists [], (with_stdout w (stdout w ++
      ["Error processing category " +:+ category +:+ ": " +:+ "JSONDecodeError"])).
    rewrite app_nil_r. repeat split. constructor.
  - unfold bind at 1, print at 1. simpl. set (w1 := with_stdout _ _).
    destruct (posts_loop category (firstn 3 l) 0 w1) as (ps & w' & Hl & Ha & Hn & Hs).
    rewrite Hl. exists ps, w'. split; [reflexivity|].
    rewrite length_firstn in Hs. repeat split; assumption.
  - exists [], (with_stdout w (stdout w ++
      ["Error processing category " +:+ category +:+ ": " +:+ "FileNotFoundError"])).
    rewrite app_nil_r. repeat split. constructor.
Qed.

Lemma stamped_slots (category : string) (ks : list nat) (ps : list Post) :
  lacks "_" category = true ->
  Forall2 (stamped category) ks ps ->
  map slot (map id ps) = map (fun k => (category, Py.str_nat k)) ks.
Proof.
  intros Hc. induction 1 as [|k p ks ps Hs _ IH]; simpl; [reflexivity|].
  rewrite (stamped_slot category k p Hc Hs), IH. reflexivity.
Qed.

Lemma categories_loop (cs : list string) :
  forall w, exists ps w',
    for_each cs category_block w = (Val tt, w')
    /\ all_posts w' = all_posts w ++ ps
    /\ news_files w' = news_files w
    /\ length ps = expected_posts w cs
    /\ (Forall (fun c => lacks "_" c = true) cs ->
        map slot (map id ps)
        = concat (map (fun c => slots_of c (length (articles_of w c))) cs)).
Proof.
  induction cs as [|c cs IH]; intros w.
  - exists [], w. rewrite app_nil_r. repeat split.
  - cbn [for_each]. unfold bind at 1.
    destruct (category_block_spec c w) as (ps1 & w1 & H1 & Ha1 & Hn1 & Hs1).
    rewrite H1.
    destruct (IH w1) as (ps2 & w' & H2 & Ha2 & Hn2 & Hlen & Hslots).
    rewrite H2. exists (ps1 ++ ps2), w'. split; [reflexivity|].
    split; [rewrite Ha2, Ha1, <- app_assoc; reflexivity|].
    split; [congruence|]. split.
    + rewrite length_app, Hlen. unfold expected_posts. simpl.
      rewrite <- (Forall2_length _ _ _ Hs1), length_seq.
      f_equal. f_equal. apply map_ext. intros c'.
      rewrite (articles_of_same w w1 c' Hn1). reflexivity.
    + intros Hf. inversion Hf as [|c0 cs0 Hc Hcs]; subst.
      rewrite !map_app, (stamped_slots c _ _ Hc Hs1), (Hslots Hcs). simpl.
      f_equal. f_equal. apply map_ext. intros c'.
      rewrite (articles_of_same w w1 c' Hn1). reflexivity.
Qed.

Lemma main_posts (w : World) :
  exists l w',
    returns main w tt w'
    /\ posts_json w' = Some l
    /\ length l = expected_posts w categories
    /\ map slot (map id l)
       = concat (map (fun c => slots_of c (length (articles_of w c))) categories).
Proof.
  destruct (categories_loop categories (with_all_posts w []))
    as (ps & w1 & H1 & Ha & Hn & Hlen & Hslots).
  exists ps. eexists. split.
  { unfold returns, GeneratePosts.main.
    erewrite MonadFacts.bind_returns by reflexivity.
    erewrite MonadFacts.bind_returns by exact H1.
    erewrite MonadFacts.bind_returns by reflexivity.
    reflexivity. }
  simpl. rewrite Ha.
  split; [reflexivity|]. split; [exact Hlen|].
  apply Hslots. repeat constructor.
Qed.

(** X2: a run returns and leaves in [data/posts.json] the posts of the
    first three articles of each category whose news file loads; a news file
    that is missing or unreadable costs its category alone; there are never
    more than nine posts. *)
Theorem run_generates_three_per_category (w : World) :
  exists l w',
    returns main w tt w'
    /\ posts_json w' = Some l
    /\ length l = expected_posts w categories
    /\ (length l <= 9)%nat.
Proof.
  destruct (main_posts w) as (l & w' & Hr & Hj & Hlen & _).
  exists l, w'. repeat (split; [assumption|]).
  rewrite Hlen. unfold expected_posts, categories, list_sum.
  cbn [map fold_right].
  pose proof (Nat.le_min_l 3 (length (articles_of w "docker"))).
  pose proof (Nat.le_min_l 3 (length (articles_of w "kubernetes"))).
  pose proof (Nat.le_min_l 3 (length (articles_of w "container"))).
  lia.
Qed.

(** X3: the posts a run leaves in [data/posts.json] have identifiers that
    differ from one another, whatever the clock reads. *)
Theorem run_generates_distinct_ids (w : World) :
  exists l w',
    returns main w tt w' /\ posts_json w' = Some l /\ NoDup (map id l).
Proof.
  destruct (main_posts w) as (l & w' & Hr & Hj & _ & Hslots).
  exists l, w'. split; [exact Hr|]. split; [exact Hj|].
  apply (nodup_map_inv slot). rewrite Hslots.
  apply (slots_nodup (fun c => length (articles_of w c))).
  unfold categories. apply NoDup_ListNoDup.
  repeat constructor; simpl; intuition discriminate.
Qed.

End Facts.

End GenerateMore.

(** * More about scripts/fetch_news.py *)

Module FetchMore.

Import FetchNews FetchVocabulary FetchTerms MonadFacts.

Lemma keeps_refl (w : World) : keeps_files w w.
Proof. intros path data H. exact H. Qed.

Lemma keeps_trans (w1 w2 w3 : World) :
  keeps_files w1 w2 -> keeps_files w2 w3 -> keeps_files w1 w3.
Proof. intros H1 H2 path data H. apply H2, H1, H. Qed.

Lemma same_images_keeps (w w' : World) : images w' = images w -> keeps_files w w'.
Proof. intros E path data H. rewrite E. exact H. Qed.

Lemma only_at_refl (path : string) (w : World) : only_at path w w.
Proof. intros q _. reflexivity. Qed.

Lemma only_at_trans (path : string) (w1 w2 w3 : World) :
  only_at path w1 w2 -> only_at path w2 w3 -> only_at path w1 w3.
Proof. intros H1 H2 q Hq. rewrite (H2 q Hq). apply H1, Hq. Qed.

Lemma kbind {A B} (m : M World A) (k : A -> M World B) :
  preserves keeps_files m -> (forall a, preserves keeps_files (k a)) ->
  preserves keeps_files (bind m k).
Proof. apply preserves_bind, keeps_trans. Qed.

Lemma ktry {A} (body : M World A) (handler : string -> M World A) :
  preserves keeps_files body -> (forall e, preserves keeps_files (handler e)) ->
  preserves keeps_files (try_except body handler).
Proof. apply preserves_try_except, keeps_trans. Qed.

Lemma kret {A} (a : A) : preserves keeps_files (ret a).
Proof. apply preserves_ret, keeps_refl. Qed.

Lemma kraise {A} (e : string) : preserves keeps_files (raise (A:=A) e).
Proof. apply preserves_raise, keeps_refl. Qed.

Section Facts.

Variable clock : nat -> DateTime.
Variable feedparser_parse : nat -> string -> option (list Entry).
Variable http_get : nat -> string -> HttpReply.
Variable http_get_stream : nat -> string -> StreamReply.
Variable select_blocks : string -> option (list Block).
Variable first_img_src : string -> option string.
Variable urljoin : string -> string -> string.
Variable unquote : string -> string.
Variable md5_hex : string -> string.

Abbreviation article_of_entry := (article_of_entry clock first_img_src).
Abbreviation article_of_block := (article_of_block clock urljoin).
Abbreviation fetch_rss_feed := (fetch_rss_feed clock feedparser_parse first_img_src).
Abbreviation fetch_website := (fetch_website clock http_get select_blocks urljoin).
Abbreviation image_ext := (image_ext unquote).
Abbreviation image_path := (image_path unquote md5_hex).
Abbreviation fetch_to_file := (fetch_to_file http_get_stream).
Abbreviation download_image := (download_image http_get_stream unquote md5_hex).
Abbreviation attach_image := (attach_image http_get_stream unquote md5_hex).
Abbreviation attach_images := (attach_images http_get_stream unquote md5_hex).
Abbreviation fetch_source :=
  (fetch_source clock feedparser_parse http_get http_get_stream select_blocks
                first_img_src urljoin unquote md5_hex).
Abbreviation fetch_sources :=
  (fetch_sources clock feedparser_parse http_get http_get_stream select_blocks
                 first_img_src urljoin unquote md5_hex).
Abbreviation fetch_categories :=
  (fetch_categories clock feedparser_parse http_get http_get_stream select_blocks
                    first_img_src urljoin unquote md5_hex).
Abbreviation main :=
  (main clock feedparser_parse http_get http_get_stream select_blocks
        first_img_src urljoin unquote md5_hex).

(** What the loop of a reader appends for an entry. *)
Abbreviation entry_step := (fun (u : string) (entry : Entry) =>
  bind (article_of_entry u entry) (fun a => ret (Some a))).

(** ** The articles of a feed *)

Lemma article_of_entry_complete (u : string) (e : Entry) (w : World) :
  complete e = true ->
  exists a,
    article_of_entry u e w = (Val a, with_ticks w (S (ticks w)))
    /\ Some (a_title a) = e_title e
    /\ a_link a = e_link e
    /\ a_source a = u
    /\ a_local_image a = None.
Proof.
  unfold complete, FetchNews.article_of_entry.
  destruct (e_title e) as [t|]; [|discriminate].
  destruct (e_link e) as [l|]; [|discriminate]. intros _.
  eexists. split; [reflexivity|]. repeat split.
Qed.

Lemma article_of_entry_incomplete (u : string) (e : Entry) (w : World) :
  complete e = false -> exists msg, article_of_entry u e w = (Exc msg, w).
Proof.
  unfold complete, FetchNews.article_of_entry.
  destruct (e_title e) as [t|]; [|eexists; reflexivity].
  destruct (e_link e) as [l|]; [discriminate|]. intros _.
  eexists. reflexivity.
Qed.

Lemma collect_complete (u : string) (l : list Entry) :
  forall w,
    forallb complete l = true ->
    exists arts w',
      collect l (entry_step u) w = (Val arts, w')
      /\ map (fun a => Some (a_title a)) arts = map e_title l
      /\ map a_link arts = map e_link l
      /\ Forall (fun a => a_source a = u /\ a_local_image a = None) arts
      /\ requested w' = requested w
      /\ stdout w' = stdout w
      /\ images w' = images w.
Proof.
  induction l as [|e l IH]; intros w H.
  - exists [], w. repeat split. constructor.
  - simpl in H. apply andb_true_iff in H as [He Hl].
    destruct (article_of_entry_complete u e w He) as (a & Ha & Ht & Hk & Hs & Hi).
    destruct (IH (with_ticks w (S (ticks w))) Hl)
      as (arts & w' & Hc & Hts & Hks & Hf & Hr & Ho & Him).
    exists (a :: arts), w'. split.
    { cbn [collect]. unfold bind at 1. unfold bind at 1. rewrite Ha.
      unfold ret at 1. unfold bind at 1. rewrite Hc. reflexivity. }
    simpl. rewrite Hts, Hks, Ht, Hk.
    repeat split; try assumption. constructor; [split|]; assumption.
Qed.

Lemma collect_incomplete (u : string) (l : list Entry) :
  forall w,
    forallb complete l = false ->
    exists msg w',
      collect l (entry_step u) w = (Exc msg, w')
      /\ requested w' = requested w
      /\ stdout w' = stdout w.
Proof.
  induction l as [|e l IH]; intros w H; [discriminate|].
  simpl in H. cbn [collect]. unfold bind at 1. unfold bind at 1.
  destruct (complete e) eqn:He.
  - destruct (article_of_entry_complete u e w He) as (a & Ha & _).
    rewrite Ha. unfold ret at 1. unfold bind at 1.
    destruct (IH (with_ticks w (S (ticks w))) H) as (msg & w' & Hc & Hr & Ho).
    rewrite Hc. exists msg, w'. repeat split; assumption.
  - destruct (article_of_entry_incomplete u e w He) as (msg & Ha).
    rewrite Ha. exists msg, w. repeat split.
Qed.

(** X4: when the feed parses and each of its first ten entries has a title
    and a link, the reader returns one article per entry, in the order of the
    feed, with the titles and links of the entries and the URL of the feed as
    source; one request was made and nothing was printed. *)
Theorem feed_articles_follow_entries (u : string) (entries : list Entry) (w : World) :
  feedparser_parse (length (requested w)) u = Some entries ->
  forallb complete (firstn 10 entries) = true ->
  exists l w',
    returns (fetch_rss_feed u) w l w'
    /\ map (fun a => Some (a_title a)) l = map e_title (firstn 10 entries)
    /\ map a_link l = map e_link (firstn 10 entries)
    /\ length l = Nat.min 10 (length entries)
    /\ Forall (fun a => a_source a = u) l
    /\ requested w' = requested w ++ [u]
    /\ stdout w' = stdout w.
Proof.
  intros Hfeed Hall.
  destruct (collect_complete u (firstn 10 entries)
              (with_requested w (requested w ++ [u])) Hall)
    as (arts & w' & Hc & Ht & Hk & Hf & Hr & Ho & _).
  exists arts, w'. split.
  { unfold returns, FetchNews.fetch_rss_feed, try_except, fetch_rss_feed_try,
      bind at 1, parse_feed.
    rewrite Hfeed, Hc. reflexivity. }
  split; [exact Ht|]. split; [exact Hk|]. split.
  { pose proof (f_equal (@length _) Hk) as Hlen.
    rewrite !length_map, length_firstn in Hlen. exact Hlen. }
  split; [|split; assumption].
  eapply Forall_impl; [exact Hf|]. intros a [Hs _]. exact Hs.
Qed.

(** X5: when one of the first ten entries of a feed has no title or no
    link, the reader returns no article at all, the complete entries
    included, and prints one line. *)
Theorem incomplete_entry_empties_feed (u : string) (entries : list Entry)
    (w : World) :
  feedparser_parse (length (requested w)) u = Some entries ->
  forallb complete (firstn 10 entries) = false ->
  exists w',
    returns (fetch_rss_feed u) w [] w'
    /\ length (stdout w') = S (length (stdout w))
    /\ requested w' = requested w ++ [u].
Proof.
  intros Hfeed Hbad.
  destruct (collect_incomplete u (firstn 10 entries)
              (with_requested w (requested w ++ [u])) Hbad)
    as (msg & w' & Hc & Hr & Ho).
  eexists. split.
  { unfold returns, FetchNews.fetch_rss_feed, try_except, fetch_rss_feed_try,
      bind at 1, parse_feed.
    rewrite Hfeed, Hc. reflexivity. }
  simpl. rewrite length_app, Ho. simpl. split; [lia|exact Hr].
Qed.

(** ** The articles of a page *)

Lemma article_of_block_spec (u : string) (b : Block) (w : World) :
  exists o w',
    article_of_block u b w = (Val o, w')
    /\ images w' = images w
    /\ stdout w' = stdout w
    /\ requested w' = requested w
    /\ match o with
       | Some a =>
           usable b = true
           /\ a_title a = Py.strip (default "" (b_title b))
           /\ a_source a = u
           /\ a_local_image a = None
       | None => usable b = false
       end.
Proof.
  unfold FetchNews.article_of_block, usable.
  destruct (b_title b) as [t|]; [|eexists _, _; split; [reflexivity|repeat split]].
  destruct (b_link b) as [l|]; [|eexists _, _; split; [reflexivity|repeat split]].
  eexists _, _. split; [reflexivity|]. repeat split.
Qed.

Lemma collect_blocks (u : string) (l : list Block) :
  forall w,
    exists arts w',
      collect l (article_of_block u) w = (Val arts, w')
      /\ map a_title arts
         = map (fun b => Py.strip (default "" (b_title b))) (List.filter usable l)
      /\ Forall (fun a => a_source a = u /\ a_local_image a = None) arts
      /\ requested w' = requested w
      /\ stdout w' = stdout w
      /\ images w' = images w.
Proof.
  induction l as [|b l IH]; intros w.
  - exists [], w. repeat split. constructor.
  - destruct (article_of_block_spec u b w) as (o & w1 & Hb & Hi & Ho & Hr & Hs).
    destruct (IH w1) as (arts & w' & Hc & Ht & Hf & Hr' & Ho' & Hi').
    cbn [collect List.filter]. unfold bind at 1. rewrite Hb.
    unfold bind at 1. rewrite Hc. unfold ret.
    destruct o as [a|].
    + destruct Hs as (Hu & Hta & Hsa & Hla). rewrite Hu.
      exists (a :: arts), w'. split; [reflexivity|]. simpl. rewrite Ht, Hta.
      repeat split; try congruence. constructor; [split|]; assumption.
    + rewrite Hs. exists arts, w'. split; [reflexivity|].
      repeat split; congruence.
Qed.

(** X6: when the page is fetched and parsed, the reader returns one
    article for each of the first ten blocks that has a title element and a
    link element, in the order of the page, and skips the others; the title
    is the text of the title element without the surrounding whitespace. *)
Theorem page_articles_follow_blocks (u : string) (st : nat) (txt : string)
    (bs : list Block) (w : World) :
  http_get (length (requested w)) u = Response st txt ->
  is_http_error st = false ->
  select_blocks txt = Some bs ->
  exists l w',
    returns (fetch_website u) w l w'
    /\ map a_title l
       = map (fun b => Py.strip (default "" (b_title b)))
             (List.filter usable (firstn 10 bs))
    /\ Forall (fun a => a_source a = u) l
    /\ requested w' = requested w ++ [u]
    /\ stdout w' = stdout w.
Proof.
  intros Hget Hst Hsel.
  destruct (collect_blocks u (firstn 10 bs) (with_requested w (requested w ++ [u])))
    as (arts & w' & Hc & Ht & Hf & Hr & Ho & _).
  exists arts, w'. split.
  { unfold returns, FetchNews.fetch_website, try_except, fetch_website_try.
    erewrite bind_returns by (unfold requests_get; rewrite Hget; reflexivity).
    erewrite bind_returns
      by (unfold raise_for_status; simpl; rewrite Hst; reflexivity).
    erewrite bind_returns by (unfold parse_page; simpl; rewrite Hsel; reflexivity).
    rewrite Hc. reflexivity. }
  split; [exact Ht|]. split; [|split; assumption].
  eapply Forall_impl; [exact Hf|]. intros a [Hs _]. exact Hs.
Qed.

(** ** The image files are written once *)

Lemma print_keeps (s : string) : preserves keeps_files (print s).
Proof. intros w. apply same_images_keeps. reflexivity. Qed.

Lemma datetime_now_keeps : preserves keeps_files (datetime_now clock).
Proof. intros w. apply same_images_keeps. reflexivity. Qed.

Lemma attr_keeps (name : string) (o : option string) :
  preserves keeps_files (attr name o).
Proof. destruct o; [apply kret|apply kraise]. Qed.

Lemma parse_feed_keeps (u : string) :
  preserves keeps_files (parse_feed feedparser_parse u).
Proof.
  intros w. unfold parse_feed.
  destruct (feedparser_parse (length (requested w)) u);
    apply same_images_keeps; reflexivity.
Qed.

Lemma requests_get_keeps (u : string) : preserves keeps_files (requests_get http_get u).
Proof.
  intros w. unfold requests_get.
  destruct (http_get (length (requested w)) u);
    apply same_images_keeps; reflexivity.
Qed.

Lemma raise_for_status_keeps (st : nat) : preserves keeps_files (raise_for_status st).
Proof. unfold raise_for_status. destruct (is_http_error st); [apply kraise|apply kret]. Qed.

Lemma parse_page_keeps (txt : string) :
  preserves keeps_files (parse_page select_blocks txt).
Proof. unfold parse_page. destruct (select_blocks txt); [apply kret|apply kraise]. Qed.

Lemma collect_keeps {A} (l : list A) (f : A -> M World (option Article)) :
  (forall x, preserves keeps_files (f x)) -> preserves keeps_files (collect l f).
Proof.
  intros Hf. induction l as [|x l IH]; cbn [collect]; [apply kret|].
  apply kbind; [apply Hf|intros a]. apply kbind; [exact IH|intros r]. apply kret.
Qed.

Lemma fetch_rss_feed_keeps (u : string) : preserves keeps_files (fetch_rss_feed u).
Proof.
  unfold FetchNews.fetch_rss_feed, fetch_rss_feed_try.
  apply ktry.
  - apply kbind; [apply parse_feed_keeps|intros entries].
    apply collect_keeps. intros e. unfold FetchNews.article_of_entry.
    apply kbind; [|intros a; apply kret].
    apply kbind; [apply attr_keeps|intros t].
    apply kbind; [apply attr_keeps|intros k].
    apply kbind; [apply datetime_now_keeps|intros now]. apply kret.
  - intros e. apply kbind; [apply print_keeps|intros _; apply kret].
Qed.

Lemma fetch_website_keeps (u : string) : preserves keeps_files (fetch_website u).
Proof.
  unfold FetchNews.fetch_website, fetch_website_try.
  apply ktry.
  - apply kbind; [apply requests_get_keeps|intros r].
    apply kbind; [apply raise_for_status_keeps|intros _].
    apply kbind; [apply parse_page_keeps|intros bs].
    apply collect_keeps. intros b. unfold FetchNews.article_of_block.
    destruct (b_title b); [|apply kret].
    destruct (b_link b); [|apply kret].
    apply kbind; [apply datetime_now_keeps|intros now]. apply kret.
  - intros e. apply kbind; [apply print_keeps|intros _; apply kret].
Qed.

Lemma write_chunks_only_at (path : string) (chunks : list string) :
  preserves (only_at path) (for_each chunks (write_chunk path)).
Proof.
  apply preserves_for_each; [apply only_at_refl|apply only_at_trans|].
  intros chunk w q Hq. simpl. apply lookup_insert_ne. congruence.
Qed.

Lemma fetch_to_file_only_at (u path : string) :
  preserves (only_at path) (fetch_to_file u path).
Proof.
  intros w. unfold FetchNews.fetch_to_file.
  destruct (http_get_stream (length (requested w)) u) as [e|st chunks breaks];
    [intros q _; reflexivity|].
  assert (H : preserves (only_at path)
                (bind (raise_for_status st) (fun _ =>
                 bind (open_wb path) (fun _ =>
                 bind (for_each chunks (write_chunk path)) (fun _ =>
                 match breaks with
                 | Some e => raise e
                 | None => ret tt
                 end))))).
  { apply preserves_bind; [apply only_at_trans| |intros _].
    { unfold raise_for_status. destruct (is_http_error st);
        [apply preserves_raise|apply preserves_ret]; apply only_at_refl. }
    apply preserves_bind; [apply only_at_trans| |intros _].
    { intros w0 q Hq. simpl. apply lookup_insert_ne. congruence. }
    apply preserves_bind; [apply only_at_trans|apply write_chunks_only_at|intros _].
    destruct breaks; [apply preserves_raise|apply preserves_ret]; apply only_at_refl. }
  exact (H (with_requested w (requested w ++ [u]))).
Qed.

Lemma download_image_keeps (u : option string) (category title : string) :
  preserves keeps_files (download_image u category title).
Proof.
  intros w. unfold FetchNews.download_image.
  destruct u as [u|]; [|apply keeps_refl].
  destruct (Py.truthy u); simpl; [|apply keeps_refl].
  unfold try_except, bind, path_exists.
  destruct (bool_decide (is_Some (images w !! image_path title u))) eqn:Hb; simpl.
  - apply keeps_refl.
  - apply bool_decide_eq_false_1 in Hb.
    pose proof (fetch_to_file_only_at u (image_path title u) w) as Ho.
    assert (Hk : keeps_files w (snd (fetch_to_file u (image_path title u) w))).
    { intros path data Hp. rewrite Ho; [exact Hp|].
      intros ->. apply Hb. rewrite Hp. eauto. }
    destruct (fetch_to_file u (image_path title u) w) as [[[]|e] w1]; exact Hk.
Qed.

Lemma attach_image_keeps (category : string) (a : Article) :
  preserves keeps_files (attach_image category a).
Proof.
  unfold FetchNews.attach_image. destruct (Py.truthy_opt (a_image_url a));
    [|apply kret].
  apply kbind; [apply download_image_keeps|intros r; apply kret].
Qed.

Lemma attach_images_keeps (category : string) (l : list Article) :
  preserves keeps_files (attach_images category l).
Proof.
  induction l as [|a l IH]; cbn [FetchNews.attach_images]; [apply kret|].
  apply kbind; [apply attach_image_keeps|intros a'].
  apply kbind; [exact IH|intros r]. apply kret.
Qed.

Lemma fetch_source_keeps (category : string) (source : Source) :
  preserves keeps_files (fetch_source category source).
Proof.
  unfold FetchNews.fetch_source.
  apply kbind; [|intros l; apply attach_images_keeps].
  destruct (s_type source); [apply fetch_rss_feed_keeps|apply fetch_website_keeps].
Qed.

Lemma fetch_sources_keeps (category : string) (sources : list Source) :
  preserves keeps_files (fetch_sources category sources).
Proof.
  induction sources as [|source rest IH]; cbn [FetchNews.fetch_sources];
    [apply kret|].
  apply kbind; [apply fetch_source_keeps|intros l].
  apply kbind; [exact IH|intros r]. apply kret.
Qed.

Lemma fetch_categories_keeps (cs : list (string * list Source)) :
  preserves keeps_files (fetch_categories cs).
Proof.
  induction cs as [|[category sources] rest IH]; cbn [FetchNews.fetch_categories];
    [apply kret|].
  apply kbind; [apply fetch_sources_keeps|intros l].
  apply kbind; [intros w; apply same_images_keeps; reflexivity|intros _].
  apply kbind; [exact IH|intros r]. apply kret.
Qed.

Lemma main_keeps : preserves keeps_files main.
Proof.
  unfold FetchNews.main.
  apply kbind; [apply fetch_categories_keeps|intros all_articles].
  apply kbind; [intros w; apply same_images_keeps; reflexivity|intros _].
  apply print_keeps.
Qed.

(** X7: an image file that exists is never written again: after a
    download, whatever its arguments and its outcome, and after a whole run,
    the file is there with the bytes it had. *)
Theorem existing_images_are_kept (w : World) (path data : string) :
  images w !! path = Some data ->
  (forall u category title,
      images (world_after (download_image u category title) w) !! path = Some data)
  /\ images (world_after main w) !! path = Some data.
Proof.
  intros H. split.
  - intros u category title.
    exact (download_image_keeps u category title w path data H).
  - exact (main_keeps w path data H).
Qed.

(** ** The articles of a source and their images *)

Lemma keeps_is_Some (w w' : World) (p : string) :
  keeps_files w w' -> is_Some (images w !! p) -> is_Some (images w' !! p).
Proof. intros Hk [data Hd]. exists data. apply Hk, Hd. Qed.

Lemma collect_yields {A} (P : Article -> Prop) (l : list A)
    (f : A -> M World (option Article)) :
  (forall x, yields (f x) (fun o => forall a, o = Some a -> P a)) ->
  yields (collect l f) (Forall P).
Proof.
  intros Hf. induction l as [|x l IH]; intros w r w' H; cbn [collect] in H.
  - inversion H. constructor.
  - unfold bind in H.
    destruct (f x w) as [[o|e] w1] eqn:E; [|discriminate].
    destruct (collect l f w1) as [[rest|e] w2] eqn:E2; [|discriminate].
    inversion H; subst. apply IH in E2. apply Hf in E.
    destruct o as [a|]; [constructor; auto|exact E2].
Qed.

Lemma fetch_rss_feed_yields (u : string) :
  yields (fetch_rss_feed u)
         (Forall (fun a => a_source a = u /\ a_local_image a = None)).
Proof.
  unfold FetchNews.fetch_rss_feed, fetch_rss_feed_try.
  apply yields_try_except.
  - apply yields_bind. intros entries. apply collect_yields.
    intros e w o w' H a ->.
    unfold bind, FetchNews.article_of_entry, attr, FetchNews.datetime_now, ret, raise
      in H.
    destruct (e_title e); [|discriminate]. destruct (e_link e); [|discriminate].
    inversion H. split; reflexivity.
  - intros e. apply yields_bind. intros _. apply yields_ret. constructor.
Qed.

Lemma fetch_website_yields (u : string) :
  yields (fetch_website u)
         (Forall (fun a => a_source a = u /\ a_local_image a = None)).
Proof.
  unfold FetchNews.fetch_website, fetch_website_try.
  apply yields_try_except.
  - repeat (apply yields_bind; intros ?). apply collect_yields.
    intros b w o w' H art ->.
    destruct (article_of_block_spec u b w) as (o' & w1 & Hb & _ & _ & _ & Hs).
    rewrite Hb in H. inversion H; subst.
    destruct Hs as (_ & _ & Hs1 & Hs2). split; assumption.
  - intros e. apply yields_bind. intros _. apply yields_ret. constructor.
Qed.

Lemma attach_image_spec (category : string) (a : Article) (w : World) :
  exists a' w',
    attach_image category a w = (Val a', w')
    /\ keeps_files w w'
    /\ same_article a a'
    /\ (a_local_image a = None ->
        forall p, a_local_image a' = Some p -> is_Some (images w' !! p)).
Proof.
  pose proof (attach_image_keeps category a w) as Hk.
  unfold FetchNews.attach_image in *.
  destruct (Py.truthy_opt (a_image_url a)) eqn:Hu.
  - unfold bind in *.
    destruct (FetchFacts.download_image_returns http_get_stream unquote md5_hex
                (a_image_url a) category (a_title a) w) as (r & w1 & Hr).
    unfold returns in Hr. rewrite Hr in *. unfold ret in *. simpl in Hk.
    eexists _, _. split; [reflexivity|]. split; [exact Hk|].
    destruct (Py.truthy_opt r) eqn:Ht.
    + split; [repeat split|]. simpl. intros _ p Hp. subst r.
      destruct (a_image_url a) as [u|]; [|discriminate].
      apply (FetchFacts.download_image_some http_get_stream unquote md5_hex
               u category (a_title a) w p w1) in Hr.
      exact (proj2 (proj2 Hr)).
    + split; [repeat split|]. intros Hn p Hp. congruence.
  - unfold ret in *. eexists _, _. split; [reflexivity|]. split; [exact Hk|].
    split; [repeat split|]. intros Hn p Hp. congruence.
Qed.

Lemma attach_images_spec (category : string) (l : list Article) :
  forall w,
    Forall (fun a => a_local_image a = None) l ->
    exists l' w',
      attach_images category l w = (Val l', w')
      /\ keeps_files w w'
      /\ Forall2 same_article l l'
      /\ Forall (fun a => forall p, a_local_image a = Some p ->
                                    is_Some (images w' !! p)) l'.
Proof.
  induction l as [|a l IH]; intros w Hf; cbn [FetchNews.attach_images].
  - exists [], w. split; [reflexivity|]. split; [apply keeps_refl|].
    split; constructor.
  - inversion Hf as [|a0 l0 Ha Hl]; subst.
    destruct (attach_image_spec category a w) as (a' & w1 & H1 & Hk1 & Hs & He).
    destruct (IH w1 Hl) as (l' & w' & H2 & Hk2 & Hs2 & He2).
    unfold bind at 1. rewrite H1. unfold bind at 1. rewrite H2.
    exists (a' :: l'), w'. split; [reflexivity|].
    split; [exact (keeps_trans _ _ _ Hk1 Hk2)|].
    split; [constructor; assumption|].
    constructor; [|exact He2].
    intros p Hp. exact (keeps_is_Some _ _ _ Hk2 (He Ha p Hp)).
Qed.

Lemma same_article_source (u : string) (l l' : list Article) :
  Forall2 same_article l l' ->
  Forall (fun a => a_source a = u) l -> Forall (fun a => a_source a = u) l'.
Proof.
  induction 1 as [|a a' l l' Hs _ IH]; intros Hf; [constructor|].
  inversion Hf; subst. constructor; [|auto].
  destruct Hs as (_ & _ & _ & _ & _ & Hsrc). congruence.
Qed.

Lemma fetch_source_spec (category : string) (source : Source) (w : World) :
  exists l w',
    returns (fetch_source category source) w l w'
    /\ (length l <= 10)%nat
    /\ Forall (fun a => a_source a = s_url source) l
    /\ keeps_files w w'
    /\ Forall (fun a => forall p, a_local_image a = Some p ->
                                  is_Some (images w' !! p)) l.
Proof.
  assert (exists l0 w1,
            (match s_type source with
             | type_rss => fetch_rss_feed (s_url source)
             | type_url => fetch_website (s_url source)
             end) w = (Val l0, w1)
            /\ (length l0 <= 10)%nat
            /\ Forall (fun a => a_source a = s_url source
                                /\ a_local_image a = None) l0
            /\ keeps_files w w1) as (l0 & w1 & H0 & Hlen & Hfresh & Hk0).
  { destruct (s_type source).
    - destruct (FetchFacts.fetch_rss_feed_returns clock feedparser_parse
                  first_img_src (s_url source) w) as (l0 & w1 & H0 & Hlen).
      exists l0, w1. split; [exact H0|]. split; [exact Hlen|].
      split; [exact (fetch_rss_feed_yields _ _ _ _ H0)|].
      pose proof (fetch_rss_feed_keeps (s_url source) w) as Hk.
      unfold returns in H0. rewrite H0 in Hk. exact Hk.
    - destruct (FetchFacts.fetch_website_returns clock http_get select_blocks
                  urljoin (s_url source) w) as (l0 & w1 & H0 & Hlen).
      exists l0, w1. split; [exact H0|]. split; [exact Hlen|].
      split; [exact (fetch_website_yields _ _ _ _ H0)|].
      pose proof (fetch_website_keeps (s_url source) w) as Hk.
      unfold returns in H0. rewrite H0 in Hk. exact Hk. }
  destruct (attach_images_spec category l0 w1) as (l & w' & H1 & Hk1 & Hs & He).
  { eapply Forall_impl; [exact Hfresh|]. intros a [_ Hn]. exact Hn. }
  exists l, w'. split.
  { unfold returns, FetchNews.fetch_source, bind. rewrite H0. exact H1. }
  split; [rewrite <- (Forall2_length _ _ _ Hs); exact Hlen|].
  split.
  { apply (same_article_source _ l0 l Hs).
    eapply Forall_impl; [exact Hfresh|]. intros a [Hsrc _]. exact Hsrc. }
  split; [exact (keeps_trans _ _ _ Hk0 Hk1)|exact He].
Qed.

Lemma fetch_sources_spec (category : string) (sources : list Source) :
  forall w,
    exists l w',
      returns (fetch_sources category sources) w l w'
      /\ (length l <= 10 * length sources)%nat
      /\ Forall (fun a => exists s, s ∈ sources /\ a_source a = s_url s) l
      /\ keeps_files w w'
      /\ Forall (fun a => forall p, a_local_image a = Some p ->
                                    is_Some (images w' !! p)) l.
Proof.
  induction sources as [|source rest IH]; intros w;
    unfold returns in *; cbn [FetchNews.fetch_sources].
  - exists [], w. split; [reflexivity|]. split; [simpl; lia|].
    split; [constructor|]. split; [apply keeps_refl|constructor].
  - destruct (fetch_source_spec category source w)
      as (l1 & w1 & H1 & Hlen1 & Hsrc1 & Hk1 & He1).
    destruct (IH w1) as (l2 & w' & H2 & Hlen2 & Hsrc2 & Hk2 & He2).
    unfold returns in H1. unfold bind at 1. rewrite H1.
    unfold bind at 1. rewrite H2.
    exists (l1 ++ l2), w'. split; [reflexivity|].
    split; [rewrite length_app; simpl; lia|]. split.
    { apply Forall_app. split.
      - eapply Forall_impl; [exact Hsrc1|]. intros a Ha.
        exists source. split; [left|exact Ha].
      - eapply Forall_impl; [exact Hsrc2|]. intros a (s & Hs & Ha).
        exists s. split; [right; exact Hs|exact Ha]. }
    split; [exact (keeps_trans _ _ _ Hk1 Hk2)|].
    apply Forall_app. split; [|exact He2].
    eapply Forall_impl; [exact He1|]. intros a Ha p Hp.
    exact (keeps_is_Some _ _ _ Hk2 (Ha p Hp)).
Qed.

(** X8: when the sources of a category have been read, every local image
    recorded in an article names a file that exists. *)
Theorem local_images_exist (category : string) (sources : list Source) (w : World) :
  exists l w',
    returns (fetch_sources category sources) w l w'
    /\ Forall (fun a => forall p, a_local_image a = Some p ->
                                  is_Some (images w' !! p)) l.
Proof.
  destruct (fetch_sources_spec category sources w) as (l & w' & Hr & _ & _ & _ & He).
  exists l, w'. split; assumption.
Qed.

(** X9: a category with n sources gets at most 10 n articles, and each
    article carries as source the URL of one of the sources. *)
Theorem category_articles_come_from_its_sources (category : string)
    (sources : list Source) (w : World) :
  exists l w',
    returns (fetch_sources category sources) w l w'
    /\ (length l <= 10 * length sources)%nat
    /\ Forall (fun a => exists s, s ∈ sources /\ a_source a = s_url s) l.
Proof.
  destruct (fetch_sources_spec category sources w)
    as (l & w' & Hr & Hlen & Hsrc & _).
  exists l, w'. repeat split; assumption.
Qed.

End Facts.

End FetchMore.

(** * The extension of an image file *)

Module ImageNameFacts.

Import StringFacts.

Lemma substring_all (s : string) : String.substring 0 (String.length s) s = s.
Proof. induction s as [|c s IH]; simpl; [reflexivity|]. rewrite IH. reflexivity. Qed.

Lemma substring_split (p : string) :
  forall n,
    String.substring 0 n p +:+ String.substring n (String.length p - n) p = p.
Proof.
  induction p as [|c p IH]; intros n.
  - destruct n; reflexivity.
  - destruct n as [|n].
    + simpl. rewrite substring_all. reflexivity.
    + simpl. rewrite append_cons, IH. reflexivity.
Qed.

Lemma substring_get (p : string) :
  forall n c,
    String.get n p = Some c ->
    exists rest, String.substring n (String.length p - n) p = String c rest.
Proof.
  induction p as [|a p IH]; intros n c H.
  - destruct n; discriminate.
  - destruct n as [|n]; simpl in *.
    + inversion H; subst. eauto.
    + exact (IH n c H).
Qed.

Lemma rfind_from_spec (c : ascii) (s : string) :
  forall i last,
    (0 <= i)%Z ->
    OsPath.rfind_from c s i last = last
    \/ (i <= OsPath.rfind_from c s i last)%Z
       /\ String.get (Z.to_nat (OsPath.rfind_from c s i last - i)) s = Some c.
Proof.
  induction s as [|a s IH]; intros i last Hi; simpl.
  - left. reflexivity.
  - destruct (IH (i + 1)%Z (if Ascii.eqb a c then i else last)) as [E|[Hle Hget]];
      [lia| |].
    + rewrite E. destruct (Ascii.eqb a c) eqn:Hac; [|left; reflexivity].
      right. split; [lia|]. rewrite Z.sub_diag. simpl.
      apply Ascii.eqb_eq in Hac. congruence.
    + right. split; [lia|].
      set (r := OsPath.rfind_from c s (i + 1) _) in *.
      replace (Z.to_nat (r - i)) with (S (Z.to_nat (r - (i + 1)))) by lia.
      exact Hget.
Qed.

Lemma rfind_bound (c : ascii) (s : string) : (-1 <= OsPath.rfind c s)%Z.
Proof.
  unfold OsPath.rfind.
  destruct (rfind_from_spec c s 0 (-1)) as [E|[Hle _]]; lia.
Qed.

(** The two parts [os.path.splitext] returns make up the path, and the
    second is empty or begins with a dot. *)
Lemma splitext_parts (p : string) :
  fst (OsPath.splitext p) +:+ snd (OsPath.splitext p) = p
  /\ (snd (OsPath.splitext p) = ""
      \/ exists rest, snd (OsPath.splitext p) = String "." rest).
Proof.
  unfold OsPath.splitext.
  destruct ((OsPath.rfind "/" p <? OsPath.rfind "." p)%Z
            && OsPath.finds_name_char p _ _) eqn:E; simpl.
  - split; [apply substring_split|]. right.
    apply andb_true_iff in E as [E _]. apply Z.ltb_lt in E.
    pose proof (rfind_bound "/" p) as Hb.
    unfold OsPath.rfind in *.
    destruct (rfind_from_spec "." p 0 (-1)) as [E'|[_ Hget]]; [lia|lia|].
    rewrite Z.sub_0_r in Hget. exact (substring_get p _ _ Hget).
  - split; [apply append_nil_r|]. left. reflexivity.
Qed.

(** X10: whatever the URL, the extension given to the image file begins
    with a dot and has at most five characters, the dot included. *)
Theorem image_ext_shape (unquote : string -> string) (u : string) :
  (exists rest, FetchNews.image_ext unquote u = String "." rest)
  /\ (String.length (FetchNews.image_ext unquote u) <= 5)%nat.
Proof.
  unfold FetchNews.image_ext.
  set (p := unquote (Py.before_first "?" u)).
  destruct (splitext_parts p) as [_ [E|[rest E]]]; rewrite E; simpl.
  - split; [eauto|lia].
  - destruct (5 <? S (String.length rest))%nat eqn:Hl; simpl.
    + split; [eauto|lia].
    + apply Nat.ltb_ge in Hl. split; [eauto|lia].
Qed.

End ImageNameFacts.

(** * More about scripts/publish_to_wordpress.py *)

Module PublishMore.

Import PublishToWordpress PublishVocabulary PublishTerms MonadFacts StringFacts.

Lemma yields_bind_after {W A B} (m : M W A) (k : A -> M W B)
    (P : A -> Prop) (Q : B -> Prop) :
  yields m P -> (forall a, P a -> yields (k a) Q) -> yields (bind m k) Q.
Proof.
  intros Hm Hk w b w' E. unfold bind in E.
  destruct (m w) as [[a|e] w1] eqn:Em; [|discriminate].
  exact (Hk a (Hm w a w1 Em) w1 b w' E).
Qed.

Lemma yields_any {W A} (m : M W A) : yields m (fun _ => True).
Proof. intros w a w' _. exact I. Qed.

Lemma try_except_bind_val {W A B} (m : M W A) (k : A -> M W B)
    (h : string -> M W B) (w : W) (a : A) (w1 : W) :
  m w = (Val a, w1) -> try_except (bind m k) h w = try_except (k a) h w1.
Proof. intros H. unfold try_except, bind. rewrite H. reflexivity. Qed.

Lemma try_except_bind_exc {W A B} (m : M W A) (k : A -> M W B)
    (h : string -> M W B) (w : W) (e : string) (w1 : W) :
  m w = (Exc e, w1) -> try_except (bind m k) h w = h e w1.
Proof. intros H. unfold try_except, bind. rewrite H. reflexivity. Qed.

(** X11: the API URL [main] works with always ends in [/wp-json]; a URL
    that ends so already is left as it is, and normalizing twice changes
    nothing more. *)
Theorem api_url_ends_in_wp_json (wp_api_url : string) :
  Py.endswith (normalize_api_url wp_api_url) "/wp-json" = true
  /\ (Py.endswith wp_api_url "/wp-json" = true ->
      normalize_api_url wp_api_url = wp_api_url)
  /\ normalize_api_url (normalize_api_url wp_api_url) = normalize_api_url wp_api_url.
Proof.
  unfold normalize_api_url.
  destruct (Py.endswith wp_api_url "/wp-json") eqn:E; simpl.
  - rewrite E. simpl. auto.
  - rewrite (endswith_app (Py.rstrip_char "/" wp_api_url) "/wp-json"). simpl.
    split; [reflexivity|]. split; [discriminate|reflexivity].
Qed.

Lemma find_by_name_found (items : list (string * Z)) (name : string) (i : Z) :
  find_by_name items name = Some i ->
  exists n, (n, i) ∈ items /\ Py.lower n = Py.lower name.
Proof.
  induction items as [|[n j] items IH]; simpl; [discriminate|].
  destruct (String.eqb (Py.lower n) (Py.lower name)) eqn:E.
  - intros H. inversion H; subst. exists n. split; [left|].
    apply String.eqb_eq, E.
  - intros H. destruct (IH H) as (n' & Hin & Hn). exists n'. split; [right|]; auto.
Qed.

Section Facts.

Variable clock : nat -> DateTime.
Variable remote : nat -> Request -> Reply.
Variable b64encode : string -> string.

Abbreviation send := (send remote).
Abbreviation upload_image_to_wordpress := (upload_image_to_wordpress remote b64encode).
Abbreviation get_or_create := (get_or_create remote b64encode).
Abbreviation get_or_create_category := (get_or_create_category remote b64encode).
Abbreviation get_or_create_tag := (get_or_create_tag remote b64encode).
Abbreviation resolve_tags := (resolve_tags remote b64encode).
Abbreviation prepare_post_data := (prepare_post_data remote b64encode).
Abbreviation create_post_request := (create_post_request b64encode).
Abbreviation search_request := (search_request b64encode).
Abbreviation publish_post_to_wordpress :=
  (publish_post_to_wordpress clock remote b64encode).
Abbreviation publish_all := (publish_all clock remote b64encode).
Abbreviation main := (main clock remote b64encode).

(** X12: when the search answers 200 with a list that holds the name,
    whatever the case of its letters, the identifier of the first such item is
    returned and nothing is created: the search is the only request sent. *)
Theorem existing_name_is_not_created
    (kind plural name created_name api_url username password : string)
    (w : World) (txt : string) (items : list (string * Z)) (i : Z) :
  remote (length (requests w))
         (search_request plural name api_url username password)
  = HttpResponse 200 txt (Some (JItems items)) ->
  find_by_name items name = Some i ->
  returns (get_or_create kind plural name created_name api_url username password)
          w (Some i)
          (with_requests w (requests w
                            ++ [search_request plural name api_url username password]))
  /\ exists n, (n, i) ∈ items /\ Py.lower n = Py.lower name.
Proof.
  intros Hr Hf. split; [|exact (find_by_name_found items name i Hf)].
  unfold returns, PublishToWordpress.get_or_create, try_except.
  unfold PublishTerms.search_request in Hr.
  erewrite bind_returns
    by (unfold PublishToWordpress.send; rewrite Hr; reflexivity).
  cbv beta iota. simpl Nat.eqb. cbv iota.
  erewrite bind_returns
    by (erewrite bind_returns by reflexivity; reflexivity).
  rewrite Hf. reflexivity.
Qed.

(** ** Calls that never raise *)

Lemma print_total (s : string) : total (print s).
Proof. intros w. exists tt. reflexivity. Qed.

Lemma upload_image_total (image_path api_url username password : string) :
  total (upload_image_to_wordpress image_path api_url username password).
Proof.
  unfold PublishToWordpress.upload_image_to_wordpress.
  apply total_bind; [intros w; eexists; reflexivity|intros present].
  destruct (negb present).
  - apply total_bind; [apply print_total|intros _; apply total_ret].
  - apply total_try_except. intros e.
    apply total_bind; [apply print_total|intros _; apply total_ret].
Qed.

Lemma get_or_create_total
    (kind plural name created_name api_url username password : string) :
  total (get_or_create kind plural name created_name api_url username password).
Proof.
  apply total_try_except. intros e.
  apply total_bind; [apply print_total|intros _; apply total_ret].
Qed.

Lemma resolve_tags_total (l : list string) (api_url username password : string) :
  total (resolve_tags l api_url username password).
Proof.
  induction l as [|tag l IH]; cbn [PublishToWordpress.resolve_tags];
    [apply total_ret|].
  apply total_bind; [apply get_or_create_total|intros tag_id].
  apply total_bind; [exact IH|intros rest]. apply total_ret.
Qed.

Lemma prepare_post_data_total (post : Post) (api_url username password : string) :
  total (prepare_post_data post api_url username password).
Proof.
  unfold PublishToWordpress.prepare_post_data.
  apply total_bind.
  - destruct (featured_image post) as [image|]; [|apply total_ret].
    destruct (Py.truthy image); [|apply total_ret].
    apply total_bind; [intros w; eexists; reflexivity|intros present].
    destruct present; [|apply total_ret].
    apply total_bind; [apply upload_image_total|intros media_id].
    apply total_bind; [|intros _; apply total_ret].
    destruct (truthy_id media_id); [apply print_total|apply total_ret].
  - intros featured_media_id.
    apply total_bind; [apply get_or_create_total|intros category_id].
    apply total_bind; [apply resolve_tags_total|intros tag_ids]. apply total_ret.
Qed.

(** X13: resolving the tags of a post never raises; a tag that cannot be
    resolved is left out, so there are at most as many identifiers as tags,
    and none of them is zero. *)
Theorem resolved_tags_are_valid (tags0 : list string)
    (api_url username password : string) (w : World) :
  exists ids w',
    returns (resolve_tags tags0 api_url username password) w ids w'
    /\ (length ids <= length tags0)%nat
    /\ Forall (fun i => i ≠ 0%Z) ids.
Proof.
  destruct (total_returns _ w (resolve_tags_total tags0 api_url username password))
    as (ids & w' & E).
  exists ids, w'. split; [exact E|].
  revert w ids w' E.
  induction tags0 as [|tag l IH]; intros w ids w' E;
    cbn [PublishToWordpress.resolve_tags] in E.
  - inversion E. split; [simpl; lia|constructor].
  - unfold bind, PublishToWordpress.get_or_create_tag in E.
    destruct (get_or_create "tag" "tags" tag (Py.lower tag) api_url username
                password w) as [[tag_id|e] w1]; [|discriminate].
    destruct (resolve_tags l api_url username password w1) as [[rest|e] w2] eqn:E2;
      [|discriminate].
    apply IH in E2 as [Hlen Hnz]. inversion E; subst.
    destruct tag_id as [i|]; [|split; [simpl; lia|exact Hnz]].
    simpl. destruct (i =? 0)%Z eqn:Hi; simpl.
    + split; [lia|exact Hnz].
    + split; [lia|]. constructor; [|exact Hnz]. apply Z.eqb_neq, Hi.
Qed.

(** ** The requests of a call *)

Lemma silent_refl (w : World) : silent w w.
Proof. reflexivity. Qed.

Lemma silent_trans (w1 w2 w3 : World) : silent w1 w2 -> silent w2 w3 -> silent w1 w3.
Proof. unfold silent. congruence. Qed.

Lemma helpers_refl (w : World) : helpers_only w w.
Proof. exists []. rewrite app_nil_r. split; [reflexivity|constructor]. Qed.

Lemma helpers_trans (w1 w2 w3 : World) :
  helpers_only w1 w2 -> helpers_only w2 w3 -> helpers_only w1 w3.
Proof.
  intros (l1 & E1 & H1) (l2 & E2 & H2). exists (l1 ++ l2).
  split; [rewrite E2, E1, app_assoc; reflexivity|]. apply Forall_app. auto.
Qed.

Lemma silent_helpers {A} (m : M World A) :
  preserves silent m -> preserves helpers_only m.
Proof.
  intros H w. exists []. rewrite app_nil_r. split; [exact (H w)|constructor].
Qed.

Lemma sbind {A B} (m : M World A) (k : A -> M World B) :
  preserves silent m -> (forall a, preserves silent (k a)) -> preserves silent (bind m k).
Proof. apply preserves_bind, silent_trans. Qed.

Lemma stry {A} (body : M World A) (handler : string -> M World A) :
  preserves silent body -> (forall e, preserves silent (handler e)) ->
  preserves silent (try_except body handler).
Proof. apply preserves_try_except, silent_trans. Qed.

Lemma sret {A} (a : A) : preserves silent (ret a).
Proof. apply preserves_ret, silent_refl. Qed.

Lemma sraise {A} (e : string) : preserves silent (raise (A:=A) e).
Proof. apply preserves_raise, silent_refl. Qed.

Lemma hbind {A B} (m : M World A) (k : A -> M World B) :
  preserves helpers_only m -> (forall a, preserves helpers_only (k a)) ->
  preserves helpers_only (bind m k).
Proof. apply preserves_bind, helpers_trans. Qed.

Lemma htry {A} (body : M World A) (handler : string -> M World A) :
  preserves helpers_only body -> (forall e, preserves helpers_only (handler e)) ->
  preserves helpers_only (try_except body handler).
Proof. apply preserves_try_except, helpers_trans. Qed.

Lemma hret {A} (a : A) : preserves helpers_only (ret a).
Proof. apply preserves_ret, helpers_refl. Qed.

Lemma hraise {A} (e : string) : preserves helpers_only (raise (A:=A) e).
Proof. apply preserves_raise, helpers_refl. Qed.

Lemma print_silent (s : string) : preserves silent (print s).
Proof. intros w. reflexivity. Qed.

Lemma datetime_now_silent : preserves silent (datetime_now clock).
Proof. intros w. reflexivity. Qed.

Lemma path_exists_silent (path : string) : preserves silent (path_exists path).
Proof. intros w. reflexivity. Qed.

Lemma read_bytes_silent (path : string) : preserves silent (read_bytes path).
Proof. intros w. unfold read_bytes. destruct (files w !! path); reflexivity. Qed.

Lemma save_post_silent (p : Post) : preserves silent (save_post p).
Proof.
  intros w. unfold save_post.
  destruct (write_error w (post_path (id p))); reflexivity.
Qed.

Lemma json_get_id_silent (js : option JsonBody) : preserves silent (json_get_id js).
Proof. destruct js as [[]|]; first [apply sret | apply sraise]. Qed.

Lemma json_get_link_silent (js : option JsonBody) : preserves silent (json_get_link js).
Proof. destruct js as [[]|]; first [apply sret | apply sraise]. Qed.

Lemma json_items_silent (js : option JsonBody) : preserves silent (json_items js).
Proof.
  destruct js as [[| | |s|]|]; try destruct s; first [apply sret | apply sraise].
Qed.

Lemma send_helper (r : Request) : is_helper r -> preserves helpers_only (send r).
Proof.
  intros Hr w. exists [r]. unfold PublishToWordpress.send.
  destruct (remote (length (requests w)) r);
    (split; [reflexivity|repeat constructor; exact Hr]).
Qed.

Ltac no_request :=
  repeat first
    [ apply sret | apply sraise
    | apply print_silent | apply datetime_now_silent
    | apply path_exists_silent | apply read_bytes_silent | apply save_post_silent
    | apply json_get_id_silent | apply json_get_link_silent
    | apply sbind; [|intros ?]
    | apply stry; [|intros ?]
    | match goal with
      | |- preserves _ (match ?x with _ => _ end) => destruct x
      end ].

Ltac helpers :=
  repeat first
    [ apply hret | apply hraise
    | apply silent_helpers, print_silent
    | apply silent_helpers, path_exists_silent
    | apply silent_helpers, read_bytes_silent
    | apply silent_helpers, json_get_id_silent
    | apply silent_helpers, json_items_silent
    | apply send_helper; exact I
    | apply hbind; [|intros ?]
    | apply htry; [|intros ?]
    | match goal with
      | |- preserves _ (match ?x with _ => _ end) => destruct x
      end ].

Lemma upload_image_helpers (image_path api_url username password : string) :
  preserves helpers_only
    (upload_image_to_wordpress image_path api_url username password).
Proof. unfold PublishToWordpress.upload_image_to_wordpress. helpers. Qed.

Lemma get_or_create_helpers
    (kind plural name created_name api_url username password : string) :
  preserves helpers_only
    (get_or_create kind plural name created_name api_url username password).
Proof. unfold PublishToWordpress.get_or_create. helpers. Qed.

Lemma resolve_tags_helpers (l : list string) (api_url username password : string) :
  preserves helpers_only (resolve_tags l api_url username password).
Proof.
  induction l as [|tag l IH]; cbn [PublishToWordpress.resolve_tags]; [apply hret|].
  apply hbind; [apply get_or_create_helpers|intros tag_id].
  apply hbind; [exact IH|intros rest]. apply hret.
Qed.

Lemma prepare_post_data_helpers (post : Post) (api_url username password : string) :
  preserves helpers_only (prepare_post_data post api_url username password).
Proof.
  unfold PublishToWordpress.prepare_post_data.
  apply hbind.
  - destruct (featured_image post) as [image|]; [|apply hret].
    destruct (Py.truthy image); [|apply hret].
    apply hbind; [apply silent_helpers, path_exists_silent|intros present].
    destruct present; [|apply hret].
    apply hbind; [apply upload_image_helpers|intros media_id].
    helpers.
  - intros featured_media_id.
    apply hbind; [apply get_or_create_helpers|intros category_id].
    apply hbind; [apply resolve_tags_helpers|intros tag_ids]. apply hret.
Qed.

(** X14: a call of [publish_post_to_wordpress] always returns, and sends
    the request that creates the post exactly once, as its last request:
    whatever happens to the image, the category and the tags, and whatever
    the site answers. *)
Theorem publish_sends_one_create_request (post : Post)
    (api_url username password : string) (w : World) :
  exists r w' before post_data,
    returns (publish_post_to_wordpress post api_url username password) w r w'
    /\ requests w'
       = requests w ++ before
         ++ [create_post_request api_url username password post_data]
    /\ Forall is_helper before.
Proof.
  destruct (total_returns _ w
              (prepare_post_data_total post api_url username password))
    as (post_data & w1 & Hprep).
  pose proof (prepare_post_data_helpers post api_url username password w) as Hh.
  rewrite Hprep in Hh. destruct Hh as (before & Hreq & Hbefore).
  unfold returns, PublishToWordpress.publish_post_to_wordpress.
  rewrite (try_except_bind_val _ _ _ _ _ _ Hprep).
  set (w2 := with_requests w1
               (requests w1
                ++ [create_post_request api_url username password post_data])).
  destruct (remote (length (requests w1))
              (create_post_request api_url username password post_data))
    as [e|st txt js] eqn:Hrem.
  - erewrite try_except_bind_exc
      by (unfold PublishToWordpress.send; rewrite Hrem; reflexivity).
    simpl in Hreq.
    eexists _, _, before, post_data. split; [reflexivity|]. simpl.
    rewrite Hreq, <- app_assoc. split; [reflexivity|exact Hbefore].
  - erewrite try_except_bind_val
      by (unfold PublishToWordpress.send; rewrite Hrem; reflexivity).
    cbv beta iota. fold w2.
    lazymatch goal with
    | |- context [try_except ?b ?h w2] =>
        assert (Hs : preserves silent (try_except b h)) by no_request;
        assert (Ht : total (try_except b h))
          by (apply total_try_except; intros e;
              apply total_bind; [apply print_total|intros _; apply total_ret]);
        destruct (total_returns _ w2 Ht) as (r & w' & E);
        specialize (Hs w2); rewrite E in Hs; rewrite E
    end.
    exists r, w', before, post_data. split; [reflexivity|].
    unfold silent in Hs. simpl in Hs, Hreq. rewrite Hs, Hreq, <- app_assoc.
    split; [reflexivity|exact Hbefore].
Qed.

(** X15: when the site answers 200 or 201 to the request that creates the
    post, with an object as body, the post gets the identifier and the link
    of the answer and the time of publishing.  When the post file can be
    opened for writing, the call returns [True] and the file holds this
    post.  When opening it raises, the call returns [False] although the
    site has created the post: the exception is printed and no post file is
    written.  The ledger and the posts file are not touched. *)
Theorem accepted_post_is_marked_and_saved (post : Post)
    (api_url username password : string) (w : World)
    (post_data : PostData) (w1 : World) (st : nat) (txt : string)
    (wp_id : option Z) (wp_link : option string) :
  prepare_post_data post api_url username password w = (Val post_data, w1) ->
  remote (length (requests w1))
         (create_post_request api_url username password post_data)
  = HttpResponse st txt (Some (JObject wp_id wp_link)) ->
  is_ok st = true ->
  let post' := mark_published post wp_id wp_link (Strftime.iso (clock (ticks w1))) in
  let publish := publish_post_to_wordpress post api_url username password in
  exists w',
    untouched w w'
    /\ requests w'
       = requests w1 ++ [create_post_request api_url username password post_data]
    /\ match write_error w (post_path (id post)) with
       | None =>
           returns publish w (true, post') w'
           /\ post_files w' !! post_path (id post) = Some post'
       | Some e =>
           returns publish w (false, post') w'
           /\ post_files w' = post_files w1
           /\ last (stdout w') = Some ("Error publishing post to WordPress: " +:+ e)
       end.
Proof.
  intros Hprep Hrem Hok post' publish. subst publish.
  pose proof (PublishFacts.publish_untouched clock remote b64encode
                post api_url username password w) as Hu.
  pose proof (PublishFacts.prepare_post_data_untouched clock remote b64encode
                post api_url username password w) as Hp.
  rewrite Hprep in Hp. destruct Hp as (_ & _ & _ & _ & _ & Hw). simpl in Hw.
  unfold returns, PublishToWordpress.publish_post_to_wordpress in *.
  rewrite (try_except_bind_val _ _ _ _ _ _ Hprep) in *.
  erewrite try_except_bind_val in *
    by (unfold PublishToWordpress.send; rewrite Hrem; reflexivity).
  cbv beta iota in *. rewrite Hok in *.
  unfold try_except, bind, json_get_id, json_get_link, print,
    PublishToWordpress.datetime_now, save_post, publish_failed, ret in *.
  simpl in *. rewrite Hw in *.
  destruct (write_error w (post_path (id post))) as [e|].
  - eexists. split; [exact Hu|]. split; [reflexivity|].
    split; [reflexivity|]. split; [reflexivity|].
    simpl. apply last_snoc.
  - eexists. split; [exact Hu|]. split; [reflexivity|].
    split; [reflexivity|]. simpl. apply lookup_insert_eq.
Qed.

(** X16: when the site answers 200 or 201 but the body is not a JSON
    object, the call returns [False] although the post was created: the post
    is left as it was, and no post file is written. *)
Theorem accepted_post_with_unreadable_body_fails (post : Post)
    (api_url username password : string) (w : World)
    (post_data : PostData) (w1 : World) (st : nat) (txt : string)
    (items : option (list (string * Z))) :
  prepare_post_data post api_url username password w = (Val post_data, w1) ->
  remote (length (requests w1))
         (create_post_request api_url username password post_data)
  = HttpResponse st txt (option_map JItems items) ->
  is_ok st = true ->
  exists w',
    returns (publish_post_to_wordpress post api_url username password) w
            (false, post) w'
    /\ post_files w' = post_files w1
    /\ untouched w w'.
Proof.
  intros Hprep Hrem Hok.
  pose proof (PublishFacts.publish_untouched clock remote b64encode
                post api_url username password w) as Hu.
  unfold returns, PublishToWordpress.publish_post_to_wordpress in *.
  rewrite (try_except_bind_val _ _ _ _ _ _ Hprep) in *.
  erewrite try_except_bind_val in *
    by (unfold PublishToWordpress.send; rewrite Hrem; reflexivity).
  cbv beta iota in *. rewrite Hok in *.
  destruct items as [items|]; simpl option_map in *;
    (eexists; split; [reflexivity|]; split; [reflexivity|exact Hu]).
Qed.

(** ** The ledger and the last line of a run *)

Lemma update_published_full (newly : list Post) (w : World) :
  exists w',
    update_published newly w = (Val (match newly with
                                     | [] => []
                                     | _ => newly ++ ledger w
                                     end), w')
    /\ published_posts_json w'
       = match newly with
         | [] => published_posts_json w
         | _ => Some (Loaded (newly ++ ledger w))
         end
    /\ environ w' = environ w
    /\ posts_json w' = posts_json w
    /\ attempts w' = attempts w.
Proof.
  destruct newly as [|p newly].
  - exists w. repeat split.
  - unfold PublishToWordpress.update_published, bind,
      PublishToWordpress.published_exists, try_except,
      PublishToWordpress.load_published, PublishToWordpress.load_json,
      PublishToWordpress.write_published, ledger, entries.
    destruct (published_posts_json w) as [[|l]|] eqn:E; simpl; rewrite ?E; simpl;
      rewrite ?app_nil_r; eexists; (split; [reflexivity|]); repeat split.
Qed.

Lemma publish_all_full (username password api_url : string) (w : World)
    (posts : list Post) :
  posts_json w = Some (Loaded posts) ->
  exists w' new added out,
    publish_all username password api_url w = (Val tt, w')
    /\ attempts w' = attempts w ++ new
    /\ sublist (map fst new) posts
    /\ map id added = map id (successes new)
    /\ (forall q, q ∈ posts -> id q ∉ map id (ledger w) ->
                  exists a, a ∈ new /\ id (fst a) = id q)
    /\ published_posts_json w'
       = match added with
         | [] => published_posts_json w
         | _ => Some (Loaded (added ++ ledger w))
         end
    /\ stdout w' = out ++ [report (PipelineTerms.counted added (ledger w))].
Proof.
  intros E. unfold PublishToWordpress.publish_all.
  erewrite bind_returns
    by (unfold try_except, bind, PublishToWordpress.load_posts,
          PublishToWordpress.load_json; rewrite E; reflexivity).
  cbv beta iota.
  erewrite bind_returns by reflexivity.
  set (w1 := with_stdout w _).
  destruct (PublishFacts.load_published_ids_spec w1)
    as (w2 & E2 & (He2 & Hp2 & Hl2 & _ & Ha2 & _)).
  erewrite bind_returns by exact E2.
  destruct (PublishFacts.publish_loop_spec clock remote b64encode
              (normalize_api_url api_url) username password posts
              (list_to_set (map id (ledger w1))) [] w2)
    as (ids' & added & w3 & new & E3 & He3 & Hp3 & Hl3 & Ha3 & Ht & Hs & Hm & Hel).
  erewrite bind_returns by exact E3.
  cbv beta iota. simpl snd.
  destruct (update_published_full added w3) as (w4 & E4 & Hl4 & He4 & Hp4 & Ha4).
  erewrite bind_returns by exact E4.
  assert (Hlw : ledger w3 = ledger w)
    by (unfold ledger; rewrite Hl3, Hl2; reflexivity).
  exists (with_stdout w4
            (stdout w4
             ++ [report (length (match added with
                                 | [] => []
                                 | _ => added ++ ledger w3
                                 end))])), new, added, (stdout w4).
  split; [reflexivity|]. simpl.
  split; [rewrite Ha4, Ha3, Ha2; reflexivity|].
  split; [exact Hs|]. split; [exact Hm|].
  split.
  { intros q Hq Hout. apply Hel; [exact Hq|].
    intros Hin. apply elem_of_list_to_set in Hin. exact (Hout Hin). }
  split.
  - rewrite Hl4, Hlw, Hl3, Hl2. reflexivity.
  - rewrite Hlw. unfold PipelineTerms.counted.
    destruct added; [reflexivity|]. rewrite length_app. reflexivity.
Qed.

Lemma successes_length (added : list Post) (new : list (Post * bool)) :
  map id added = map id (successes new) -> length added = length (successes new).
Proof.
  intros H. pose proof (f_equal (@length _) H) as Hl.
  rewrite !length_map in Hl. exact Hl.
Qed.

(** X17: the number [main] prints in its last line is not the number of
    posts the run published: when the run published something, it is that
    number plus the number of entries the ledger had before, because the list
    it counts is the list that was extended with the ledger. *)
Theorem last_line_counts_the_whole_ledger (w : World)
    (username password api_url : string) (posts : list Post) :
  credentials w = Some (username, password, api_url) ->
  posts_json w = Some (Loaded posts) ->
  exists w' new out,
    returns main w tt w'
    /\ attempts w' = attempts w ++ new
    /\ stdout w'
       = out ++ [report (match successes new with
                         | [] => 0
                         | _ => length (successes new) + length (ledger w)
                         end)].
Proof.
  intros Hc Hp. unfold returns.
  rewrite (PublishFacts.main_with_credentials clock remote b64encode w _ _ _ Hc).
  destruct (publish_all_full username password api_url w posts Hp)
    as (w' & new & added & out & Hr & Ha & _ & Hm & _ & _ & Ho).
  exists w', new, out. split; [exact Hr|]. split; [exact Ha|].
  rewrite Ho. unfold PipelineTerms.counted.
  pose proof (successes_length added new Hm) as Hl.
  destruct added, (successes new); try discriminate; [reflexivity|].
  rewrite Hl. reflexivity.
Qed.

(** X18: when the ledger file is there but cannot be read, a run attempts
    every post of the posts file, also those published before; and when one
    of them is published, the ledger is replaced by the posts of this run. *)
Theorem unreadable_ledger_is_replaced (w : World)
    (username password api_url : string) (posts : list Post) :
  credentials w = Some (username, password, api_url) ->
  posts_json w = Some (Loaded posts) ->
  published_posts_json w = Some Unreadable ->
  exists w' new added,
    returns main w tt w'
    /\ attempts w' = attempts w ++ new
    /\ (forall q, q ∈ posts -> exists a, a ∈ new /\ id (fst a) = id q)
    /\ map id added = map id (successes new)
    /\ (successes new ≠ [] -> published_posts_json w' = Some (Loaded added))
    /\ (successes new = [] -> published_posts_json w' = Some Unreadable).
Proof.
  intros Hc Hp Hl. unfold returns.
  rewrite (PublishFacts.main_with_credentials clock remote b64encode w _ _ _ Hc).
  destruct (publish_all_full username password api_url w posts Hp)
    as (w' & new & added & out & Hr & Ha & _ & Hm & Hel & Hj & _).
  assert (Hlw : ledger w = []) by (unfold ledger; rewrite Hl; reflexivity).
  rewrite Hlw in Hel, Hj.
  exists w', new, added. split; [exact Hr|]. split; [exact Ha|].
  split; [intros q Hq; apply (Hel q Hq); intros H; inversion H|].
  split; [exact Hm|].
  pose proof (successes_length added new Hm) as Hlen.
  split.
  - intros Hne. destruct added as [|p added].
    + destruct (successes new); [contradiction|discriminate].
    + rewrite Hj, app_nil_r. reflexivity.
  - intros He. rewrite He in Hlen. destruct added; [|discriminate].
    rewrite Hj. exact Hl.
Qed.

End Facts.

End PublishMore.

(** * From the generated posts to the site *)

Module PipelineFacts.

Import PublishToWordpress PublishVocabulary PipelineTerms.

Lemma generated_ids_distinct (clock : nat -> DateTime)
    (http_get : nat -> string -> HttpReply)
    (html_to_markdown : string -> option string) (wg : GeneratePosts.World) :
  exists l,
    GeneratePosts.posts_json
      (world_after (GeneratePosts.main clock http_get html_to_markdown) wg)
    = Some l
    /\ NoDup (map id l).
Proof.
  destruct (GenerateMore.main_posts clock http_get html_to_markdown wg)
    as (l & w' & Hr & Hj & _ & Hslots).
  exists l. unfold world_after. unfold returns in Hr. rewrite Hr.
  split; [exact Hj|].
  apply (GenerateMore.nodup_map_inv GenerateTerms.slot). rewrite Hslots.
  apply (GenerateMore.slots_nodup
           (fun c => length (GenerateTerms.articles_of wg c))).
  unfold GeneratePosts.categories. apply NoDup_ListNoDup.
  repeat constructor; simpl; intuition discriminate.
Qed.

(** X19: the two scripts composed.  On the posts file a run of
    [generate_posts.py] leaves, whatever the news files held, a run of
    [publish_to_wordpress.py] calls [publish_post_to_wordpress] at most once
    for each key, and only for posts of that file. *)
Theorem generated_posts_are_attempted_at_most_once
    (gclock : nat -> DateTime) (http_get : nat -> string -> HttpReply)
    (html_to_markdown : string -> option string) (wg : GeneratePosts.World)
    (clock : nat -> DateTime) (remote : nat -> Request -> Reply)
    (b64encode : string -> string) (w : World) :
  handed_over (world_after (GeneratePosts.main gclock http_get html_to_markdown) wg)
              w ->
  exists w' new,
    returns (main clock remote b64encode) w tt w'
    /\ attempts w' = attempts w ++ new
    /\ sublist (map fst new) (posts_to_publish w)
    /\ forall K, (calls_for K new <= 1)%nat.
Proof.
  intros Hh.
  destruct (generated_ids_distinct gclock http_get html_to_markdown wg)
    as (l & Hj & Hnd).
  unfold handed_over in Hh. rewrite Hj in Hh. simpl in Hh.
  destruct (PublishFacts.main_spec clock remote b64encode w)
    as (w' & new & added & Hr & (_ & _ & Ha & _ & Hs & _) & _).
  exists w', new. split; [exact Hr|]. split; [exact Ha|]. split; [exact Hs|].
  intros K. apply (PublishFacts.calls_for_at_most_one K new (posts_to_publish w) Hs).
  unfold posts_to_publish, entries. rewrite Hh. exact Hnd.
Qed.

End PipelineFacts.

(** * Sample runs of the properties above *)

Module FetchMoreExamples.

Import FetchNews FetchVocabulary FetchTerms.

(** A feed of two entries that have a title and a link: two articles. *)
Lemma feed_articles_witness :
  let feed := "https://x.com/feed" in
  good_feed (length (requested empty_world)) feed = Some [entry_a; entry_a]
  /\ forallb complete (firstn 10 [entry_a; entry_a]) = true
  /\ exists l w',
      returns (fetch_rss_feed (fun _ => noon) good_feed no_img feed) empty_world l w'
      /\ map a_link l = map e_link (firstn 10 [entry_a; entry_a])
      /\ length l = Nat.min 10 2.
Proof.
  intros feed.
  assert (H1 : good_feed (length (requested empty_world)) feed
               = Some [entry_a; entry_a]) by reflexivity.
  assert (H2 : forallb complete (firstn 10 [entry_a; entry_a]) = true)
    by reflexivity.
  split; [exact H1|]. split; [exact H2|].
  destruct (FetchMore.feed_articles_follow_entries
              (fun _ => noon) good_feed no_img feed [entry_a; entry_a]
              empty_world H1 H2) as (l & w' & Hr & _ & Hl & Hn & _).
  exists l, w'. split; [exact Hr|]. split; [exact Hl|exact Hn].
Defined.

(** A feed whose second entry has no title: no article at all. *)
Lemma incomplete_entry_witness :
  let feed := "https://x.com/feed" in
  bad_feed (length (requested empty_world)) feed
  = Some [entry_a; entry_untitled; entry_a]
  /\ forallb complete (firstn 10 [entry_a; entry_untitled; entry_a]) = false
  /\ exists w',
      returns (fetch_rss_feed (fun _ => noon) bad_feed no_img feed) empty_world [] w'
      /\ length (stdout w') = 1
      /\ requested w' = [feed].
Proof.
  intros feed.
  assert (H1 : bad_feed (length (requested empty_world)) feed
               = Some [entry_a; entry_untitled; entry_a]) by reflexivity.
  assert (H2 : forallb complete (firstn 10 [entry_a; entry_untitled; entry_a])
               = false) by reflexivity.
  split; [exact H1|]. split; [exact H2|].
  exact (FetchMore.incomplete_entry_empties_feed
           (fun _ => noon) bad_feed no_img feed [entry_a; entry_untitled; entry_a]
           empty_world H1 H2).
Defined.

(** A page of three blocks, the second without a title element: two
    articles, with the titles stripped of their spaces and no-break
    spaces. *)
Lemma page_articles_witness :
  let u := "https://x.com/blog" in
  page (length (requested empty_world)) u = Response 200 "<html>"
  /\ is_http_error 200 = false
  /\ blocks "<html>" = Some [block_a; block_untitled; block_a]
  /\ exists l w',
      returns (fetch_website (fun _ => noon) page blocks plain_join u)
              empty_world l w'
      /\ map a_title l = ["Kubernetes 1.30"; "Kubernetes 1.30"]
      /\ requested w' = [u].
Proof.
  intros u.
  assert (H1 : page (length (requested empty_world)) u = Response 200 "<html>")
    by reflexivity.
  assert (H2 : is_http_error 200 = false) by reflexivity.
  assert (H3 : blocks "<html>" = Some [block_a; block_untitled; block_a])
    by reflexivity.
  split; [exact H1|]. split; [exact H2|]. split; [exact H3|].
  destruct (FetchMore.page_articles_follow_blocks
              (fun _ => noon) page blocks plain_join u 200 "<html>"
              [block_a; block_untitled; block_a] empty_world H1 H2 H3)
    as (l & w' & Hr & Ht & _ & Hq & _).
  exists l, w'. split; [exact Hr|]. split; [exact Ht|exact Hq].
Defined.

(** An image file that is there before a run is there after it. *)
Lemma existing_image_witness :
  let path := "data/images/old.png" in
  images with_image !! path = Some "OLD"
  /\ images (world_after
               (main (fun _ => noon) no_feed no_page one_chunk no_blocks no_img
                     plain_join same fixed_digest)
               with_image) !! path
     = Some "OLD".
Proof.
  intros path.
  assert (H : images with_image !! path = Some "OLD") by reflexivity.
  split; [exact H|].
  exact (proj2 (FetchMore.existing_images_are_kept
                  (fun _ => noon) no_feed no_page one_chunk no_blocks no_img
                  plain_join same fixed_digest with_image path "OLD" H)).
Defined.

End FetchMoreExamples.

Module PublishMoreExamples.

Import PublishToWordpress PublishVocabulary PublishTerms.

(** The site knows the category Docker: the search for docker finds it,
    and nothing is created. *)
Lemma existing_name_witness :
  let w := world_with [] in
  let search := search_request plain "categories" "docker" "https://blog/wp-json"
                               "editor" "secret" in
  knows_docker (length (requests w)) search
  = HttpResponse 200 "[]" (Some (JItems [("News", 3%Z); ("Docker", 5%Z)]))
  /\ find_by_name [("News", 3%Z); ("Docker", 5%Z)] "docker" = Some 5%Z
  /\ returns (get_or_create knows_docker plain "category" "categories" "docker"
                            "Docker" "https://blog/wp-json" "editor" "secret")
             w (Some 5%Z) (with_requests w (requests w ++ [search])).
Proof.
  intros w search.
  assert (H1 : knows_docker (length (requests w)) search
               = HttpResponse 200 "[]"
                   (Some (JItems [("News", 3%Z); ("Docker", 5%Z)])))
    by reflexivity.
  assert (H2 : find_by_name [("News", 3%Z); ("Docker", 5%Z)] "docker" = Some 5%Z)
    by reflexivity.
  split; [exact H1|]. split; [exact H2|].
  exact (proj1 (PublishMore.existing_name_is_not_created
                  knows_docker plain "category" "categories" "docker" "Docker"
                  "https://blog/wp-json" "editor" "secret" w "[]"
                  [("News", 3%Z); ("Docker", 5%Z)] 5%Z H1 H2)).
Defined.

(** The site creates the post and answers with its identifier: with
    [data/posts] there the call returns [True] and the file is written,
    without it the call returns [False]. *)
Lemma accepted_post_witness :
  let w := world_with [sample_post] in
  let v := world_without_posts_dir [sample_post] in
  let publish := publish_post_to_wordpress (fun _ => noon) knows_docker plain
                   sample_post "https://blog/wp-json" "editor" "secret" in
  is_ok 201 = true
  /\ (exists w' post',
        returns publish w (true, post') w'
        /\ wordpress_id post' = Some 9%Z
        /\ post_files w' !! post_path (id sample_post) = Some post')
  /\ (exists v' post',
        returns publish v (false, post') v'
        /\ wordpress_id post' = Some 9%Z
        /\ last (stdout v')
           = Some "Error publishing post to WordPress: [Errno 2] No such file or directory").
Proof.
  intros w v publish.
  assert (H3 : is_ok 201 = true) by reflexivity.
  split; [exact H3|]. split.
  - destruct (prepare_post_data knows_docker plain sample_post
                "https://blog/wp-json" "editor" "secret" w)
      as [[post_data|e] w1] eqn:H1; [|vm_compute in H1; discriminate].
    destruct (PublishMore.accepted_post_is_marked_and_saved
                (fun _ => noon) knows_docker plain sample_post
                "https://blog/wp-json" "editor" "secret" w post_data w1
                201 "{}" (Some 9%Z) None H1 eq_refl H3) as (w' & _ & _ & Hm).
    hnf in Hm. destruct Hm as (Hr & Hf).
    exists w'. eexists. split; [exact Hr|]. split; [reflexivity|exact Hf].
  - destruct (prepare_post_data knows_docker plain sample_post
                "https://blog/wp-json" "editor" "secret" v)
      as [[post_data|e] v1] eqn:H1; [|vm_compute in H1; discriminate].
    destruct (PublishMore.accepted_post_is_marked_and_saved
                (fun _ => noon) knows_docker plain sample_post
                "https://blog/wp-json" "editor" "secret" v post_data v1
                201 "{}" (Some 9%Z) None H1 eq_refl H3) as (v' & _ & _ & Hm).
    hnf in Hm. destruct Hm as (Hr & _ & Hl).
    exists v'. eexists. split; [exact Hr|]. split; [reflexivity|exact Hl].
Defined.

(** The site creates the post and answers with a page that is not JSON. *)
Lemma unreadable_body_witness :
  let w := world_with [sample_post] in
  let publish := publish_post_to_wordpress (fun _ => noon) garbled plain
                   sample_post "https://blog/wp-json" "editor" "secret" in
  is_ok 201 = true
  /\ exists w', returns publish w (false, sample_post) w' /\ untouched w w'.
Proof.
  intros w publish.
  assert (H3 : is_ok 201 = true) by reflexivity.
  split; [exact H3|].
  destruct (prepare_post_data garbled plain sample_post
              "https://blog/wp-json" "editor" "secret" w)
    as [[post_data|e] w1] eqn:H1; [|vm_compute in H1; discriminate].
  destruct (PublishMore.accepted_post_with_unreadable_body_fails
              (fun _ => noon) garbled plain sample_post
              "https://blog/wp-json" "editor" "secret" w post_data w1
              201 "<html>" None H1 eq_refl H3) as (w' & Hr & _ & Hu).
  exists w'. split; [exact Hr|exact Hu].
Defined.

(** One post published, one entry in the ledger before: the last line
    says two. *)
Lemma last_line_witness :
  let w := world_with_ledger [sample_post] [older_post] in
  let w1 := world_after (main (fun _ => noon) accepting plain) w in
  credentials w = Some ("editor", "secret", "https://blog/wp-json")
  /\ posts_json w = Some (Loaded [sample_post])
  /\ map fst (attempts w1) = [sample_post]
  /\ last (stdout w1) = Some "Published 2 new posts"
  /\ exists w' new out,
      returns (main (fun _ => noon) accepting plain) w tt w'
      /\ attempts w' = attempts w ++ new
      /\ stdout w'
         = out ++ [report (match successes new with
                           | [] => 0
                           | _ => length (successes new) + length (ledger w)
                           end)].
Proof.
  intros w w1.
  assert (H1 : credentials w = Some ("editor", "secret", "https://blog/wp-json"))
    by (vm_compute; reflexivity).
  assert (H2 : posts_json w = Some (Loaded [sample_post])) by reflexivity.
  split; [exact H1|]. split; [exact H2|].
  split; [vm_compute; reflexivity|]. split; [vm_compute; reflexivity|].
  exact (PublishMore.last_line_counts_the_whole_ledger
           (fun _ => noon) accepting plain w "editor" "secret"
           "https://blog/wp-json" [sample_post] H1 H2).
Defined.

(** A ledger that cannot be read: the post is attempted, and the ledger is
    written anew. *)
Lemma unreadable_ledger_witness :
  let w := world_with_broken_ledger [sample_post] in
  credentials w = Some ("editor", "secret", "https://blog/wp-json")
  /\ posts_json w = Some (Loaded [sample_post])
  /\ published_posts_json w = Some Unreadable
  /\ exists w' new added,
      returns (main (fun _ => noon) accepting plain) w tt w'
      /\ attempts w' = attempts w ++ new
      /\ (forall q, q ∈ [sample_post] -> exists a, a ∈ new /\ id (fst a) = id q)
      /\ map id added = map id (successes new)
      /\ (successes new ≠ [] -> published_posts_json w' = Some (Loaded added))
      /\ (successes new = [] -> published_posts_json w' = Some Unreadable).
Proof.
  intros w.
  assert (H1 : credentials w = Some ("editor", "secret", "https://blog/wp-json"))
    by (vm_compute; reflexivity).
  assert (H2 : posts_json w = Some (Loaded [sample_post])) by reflexivity.
  assert (H3 : published_posts_json w = Some Unreadable) by reflexivity.
  split; [exact H1|]. split; [exact H2|]. split; [exact H3|].
  exact (PublishMore.unreadable_ledger_is_replaced
           (fun _ => noon) accepting plain w "editor" "secret"
           "https://blog/wp-json" [sample_post] H1 H2 H3).
Defined.

End PublishMoreExamples.

Module PipelineExamples.

Import PublishToWordpress PublishVocabulary PipelineTerms.

(** The posts generated from five docker articles, handed to a site that
    accepts them. *)
Lemma pipeline_witness :
  let wg := world_after (GeneratePosts.main (fun _ => GenerateVocabulary.noon)
                           GenerateVocabulary.unreachable (fun _ => None))
                        GenerateTerms.newsroom in
  let w := with_posts_json (world_with [])
             (option_map Loaded (GeneratePosts.posts_json wg)) in
  handed_over wg w
  /\ length (posts_to_publish w) = 3
  /\ exists w' new,
      returns (main (fun _ => noon) accepting plain) w tt w'
      /\ attempts w' = attempts w ++ new
      /\ sublist (map fst new) (posts_to_publish w)
      /\ forall K, (calls_for K new <= 1)%nat.
Proof.
  intros wg w.
  assert (H : handed_over wg w) by reflexivity.
  split; [exact H|]. split; [vm_compute; reflexivity|].
  exact (PipelineFacts.generated_posts_are_attempted_at_most_once
           (fun _ => GenerateVocabulary.noon) GenerateVocabulary.unreachable
           (fun _ => None) GenerateTerms.newsroom
           (fun _ => noon) accepting plain w H).
Defined.

End PipelineExamples.
